(** * flvjoin: a shallow embedding of the FLV joiner and its properties

    The development follows the layout of the C sources:
    - [data_conv.c]  byte-order independent primitive codecs,
    - [metadata.c]   the onMetaData document, its decoder and its patcher,
    - [flvjoin.c]    the tag demuxer, the join engine and the remuxer.

    Platform assumptions (the ones the program is built for): [unsigned char]
    is 8 bits, [unsigned short] 16 bits, [unsigned int] 32 bits, [long] and
    [size_t] 64 bits (LP64), [double] is IEEE-754 binary64.  Machine integers
    are modelled as [Z] with the wrap-around written out, bytes as [Z] in
    [0, 256), arrays as [list Z]. *)

From Stdlib Require Import ZArith List Lia Bool Sorted.
From Stdlib Require Import Strings.Ascii.
From Stdlib Require Strings.String.
From Stdlib Require Import Floats.SpecFloat.
Import String.StringSyntax.
Import ListNotations.
Open Scope string_scope.
Open Scope list_scope.
Open Scope Z_scope.

(* ================================================================= *)
(** ** data_conv.c *)

Module DataConv.

(** Object representation of unsigned integers.  [le_bytes w n] are the [w]
    bytes of [n], least significant first; [le_value] reads them back. *)
Fixpoint le_bytes (w : nat) (n : Z) : list Z :=
  match w with
  | O => []
  | S w' => n mod 256 :: le_bytes w' (n / 256)
  end.

Fixpoint le_value (bs : list Z) : Z :=
  match bs with
  | [] => 0
  | b :: r => b + 256 * le_value r
  end.

(** [((unsigned char * ) &number)[0..w-1]] on a host whose byte order is
    [be] ([true] = big-endian): the bytes of a [w]-byte object in memory
    order. *)
Definition host_store (be : bool) (w : nat) (n : Z) : list Z :=
  if be then rev (le_bytes w n) else le_bytes w n.

(** [*(T * )buf]: reinterpret the bytes of [buf] as an unsigned object. *)
Definition host_load (be : bool) (bs : list Z) : Z :=
  if be then le_value (rev bs) else le_value bs.

(** [ptr[0..n-1]]; callers guarantee the bytes exist, an absent byte reads
    as 0 here. *)
Definition bytes_at (ptr : list Z) (n : nat) : list Z :=
  map (fun i => nth i ptr 0) (seq 0 n).

(** A [double] is carried as its 64-bit IEEE-754 encoding: data_conv.c only
    moves its bytes around. *)
Definition double := Z.

(** [conv_double]: on a little-endian host the loop
    [while (--j >= 0) doublebuff[j] = ptr[i++]] fills [doublebuff] with the
    eight wire bytes reversed. *)
Definition conv_double (be : bool) (ptr : list Z) : double :=
  if be then host_load be (bytes_at ptr 8)
  else host_load be (rev (bytes_at ptr 8)).

Definition conv_ui32 (be : bool) (ptr : list Z) : Z :=
  if be then host_load be (bytes_at ptr 4)
  else host_load be (rev (bytes_at ptr 4)).

(** [conv_ui24]: [highbyte] becomes the most significant byte of the 4-byte
    result. *)
Definition conv_ui24 (be : bool) (ptr : list Z) (highbyte : Z) : Z :=
  let intbuff :=
    if be then highbyte :: bytes_at ptr 3
    else rev (bytes_at ptr 3) ++ [highbyte] in
  host_load be intbuff.

Definition conv_ui16 (be : bool) (ptr : list Z) : Z :=
  if be then host_load be (bytes_at ptr 2)
  else host_load be [nth 1 ptr 0; nth 0 ptr 0].

Definition format_double (be : bool) (number : double) : list Z :=
  if be then host_store be 8 number
  else rev (host_store be 8 number).

Definition format_ui32 (be : bool) (number : Z) : list Z :=
  if be then host_store be 4 number
  else rev (host_store be 4 number).

(** [format_ui24]: three low bytes, most significant first, then the high
    byte in the fourth position. *)
Definition format_ui24 (be : bool) (number : Z) : list Z :=
  let src := host_store be 4 number in
  if be then [nth 1 src 0; nth 2 src 0; nth 3 src 0; nth 0 src 0]
  else [nth 2 src 0; nth 1 src 0; nth 0 src 0; nth 3 src 0].

Definition format_ui16 (be : bool) (number : Z) : list Z :=
  let src := host_store be 2 number in
  if be then src else [nth 1 src 0; nth 0 src 0].

(** [*(short * )buf]: the two bytes read as a two's complement number. *)
Definition short_of_bits (u : Z) : Z := if u <? 2 ^ 15 then u else u - 2 ^ 16.

Definition conv_si16 (be : bool) (ptr : list Z) : Z :=
  short_of_bits
    (if be then host_load be (bytes_at ptr 2)
     else host_load be [nth 1 ptr 0; nth 0 ptr 0]).

End DataConv.

(* ================================================================= *)
(** ** IEEE-754 binary64 arithmetic on encoded doubles *)

Module Double.
Import DataConv.

Definition prec : Z := 53.
Definition emax : Z := 1024.

(** Decoding of the 64-bit pattern: sign, 11-bit biased exponent, 52-bit
    fraction. *)
Definition SF_of_bits (b : double) : spec_float :=
  let s := Z.odd (b / 2 ^ 63) in
  let e := (b / 2 ^ 52) mod 2 ^ 11 in
  let m := b mod 2 ^ 52 in
  if e =? 0 then
    match m with
    | Zpos p => S754_finite s p (-1074)
    | _ => S754_zero s
    end
  else if e =? 2047 then
    if m =? 0 then S754_infinity s else S754_nan
  else
    match m + 2 ^ 52 with
    | Zpos p => S754_finite s p (e - 1075)
    | _ => S754_nan
    end.

(** Encoding of a (canonical) value; a NaN is encoded as the quiet NaN
    0x7FF8000000000000. *)
Definition bits_of_SF (x : spec_float) : double :=
  let sign (s : bool) := if s then 2 ^ 63 else 0 in
  match x with
  | S754_zero s => sign s
  | S754_infinity s => sign s + 2047 * 2 ^ 52
  | S754_nan => 2047 * 2 ^ 52 + 2 ^ 51
  | S754_finite s m e =>
      sign s +
      (if Zpos m <? 2 ^ 52 then Zpos m
       else (e + 1075) * 2 ^ 52 + (Zpos m - 2 ^ 52))
  end.

(** [(double)n] for an integer [n]. *)
Definition of_Z (n : Z) : double :=
  bits_of_SF (binary_normalize prec emax n 0 false).

Definition add (a b : double) : double :=
  bits_of_SF (SFadd prec emax (SF_of_bits a) (SF_of_bits b)).
Definition mul (a b : double) : double :=
  bits_of_SF (SFmul prec emax (SF_of_bits a) (SF_of_bits b)).
Definition div (a b : double) : double :=
  bits_of_SF (SFdiv prec emax (SF_of_bits a) (SF_of_bits b)).

(** [a == b] on doubles. *)
Definition eqb (a b : double) : bool := SFeqb (SF_of_bits a) (SF_of_bits b).

(** Conversion to an integer type discards the fractional part; it is
    undefined for NaN and infinities. *)
Definition trunc (a : double) : option Z :=
  match SF_of_bits a with
  | S754_zero _ => Some 0
  | S754_finite s m e =>
      let mag := if 0 <=? e then Zpos m * 2 ^ e else Zpos m / 2 ^ (- e) in
      Some (if s then - mag else mag)
  | _ => None
  end.

(** Conversion to an integer type with values [lo .. hi]: undefined when the
    truncated value is not representable. *)
Definition to_int (lo hi : Z) (a : double) : option Z :=
  match trunc a with
  | Some n => if (lo <=? n) && (n <=? hi) then Some n else None
  | None => None
  end.

Definition half : double := div (of_Z 1) (of_Z 2).           (* 0.5 *)
Definition minus_one : double := of_Z (-1).                   (* -1 *)

End Double.

(* ================================================================= *)
(** ** stdio streams *)

Module Stdio.

(** A stream: its bytes, the file position, the end-of-file indicator and,
    for an output device, the size beyond which it accepts no byte
    ([None]: unbounded). *)
Record FILE := mkFILE {
  contents : list Z;
  fpos : nat;
  eof : bool;
  limit : option nat
}.

Definition fopen_rb (bytes : list Z) : FILE := mkFILE bytes 0 false None.
Definition fopen_wb (lim : option nat) : FILE := mkFILE [] 0 false lim.

Definition feof (f : FILE) : bool := eof f.
Definition ftell (f : FILE) : Z := Z.of_nat (fpos f).
Definition rewind (f : FILE) : FILE := mkFILE (contents f) 0 false (limit f).
Definition fseek_set (f : FILE) (ofs : Z) : FILE :=
  mkFILE (contents f) (Z.to_nat ofs) false (limit f).

(** [fread(buf, 1, n, f)]: the bytes obtained (at most [n]); the indicator is
    set when fewer than [n] are left. *)
Definition fread (n : Z) (f : FILE) : list Z * FILE :=
  let rest := skipn (fpos f) (contents f) in
  let bs := firstn (Z.to_nat (Z.min n (Z.of_nat (length rest)))) rest in
  (bs, mkFILE (contents f) (fpos f + length bs)
              (eof f || (Z.of_nat (length bs) <? n)) (limit f)).

(** The memory of [buf] after an [fread] that obtained [bs]: the first
    [length bs] bytes are replaced, the others keep their value. *)
Definition blit (bs buf : list Z) : list Z := bs ++ skipn (length bs) buf.

(** How many of [n] bytes the device accepts at the current position. *)
Definition room (f : FILE) (n : nat) : nat :=
  match limit f with
  | None => n
  | Some l => Nat.min n (l - fpos f)
  end.

(** [fwrite(bs, 1, length bs, f)] on a stream that writes through to its
    device: the number of bytes the device takes, which overwrite or extend
    the stream at the current position.  The call that meets the end of the
    device returns the short count; a stream with a buffer would return it
    when the buffer is flushed. *)
Definition fwrite (bs : list Z) (f : FILE) : nat * FILE :=
  let k := room f (length bs) in
  let old := contents f ++ repeat 0 (fpos f - length (contents f)) in
  (k, mkFILE (firstn (fpos f) old ++ firstn k bs ++ skipn (fpos f + k) old)
             (fpos f + k) (eof f) (limit f)).

(** [fputc(c, f)] *)
Definition fputc (c : Z) (f : FILE) : FILE := snd (fwrite [c mod 256] f).

End Stdio.

(* ================================================================= *)
(** ** flvjoin.h *)

Module FlvJoinH.

(** The bytes of a string literal (without the terminating NUL). *)
Definition cstr (s : String.string) : list Z :=
  map (fun c => Z.of_N (N_of_ascii c)) (String.list_ascii_of_string s).

Definition PROG_NAME : list Z := cstr "flvjoin".
Definition PROG_VERSION : list Z := cstr "0.92".

(** [struct FLVpacket].  [data] is the memory block [data] points to. *)
Record FLVpacket := mkPacket {
  type : Z;
  datasize : Z;
  timestamp : Z;
  streamid : Z;
  data : list Z;
  backptr : Z
}.

Definition set_timestamp (t : Z) (p : FLVpacket) : FLVpacket :=
  mkPacket (type p) (datasize p) t (streamid p) (data p) (backptr p).

Definition set_data (d : list Z) (p : FLVpacket) : FLVpacket :=
  mkPacket (type p) (datasize p) (timestamp p) (streamid p) d (backptr p).

(** The idiom [q = *p; q.data = malloc(p->datasize); memcpy(q.data, p->data,
    p->datasize)]: a copy of the packet that owns [datasize] bytes of
    payload. *)
Definition copy_packet (p : FLVpacket) : FLVpacket :=
  set_data (firstn (Z.to_nat (datasize p)) (data p)) p.

(** Results of code that may read or write outside an object ([UB]) and of
    bounded unfoldings of its loops ([NoFuel]). *)
Inductive res (A : Type) : Type :=
| Done (a : A)
| UB
| NoFuel.
Arguments Done {A} a.
Arguments UB {A}.
Arguments NoFuel {A}.

Definition rbind {A B : Type} (r : res A) (k : A -> res B) : res B :=
  match r with
  | Done a => k a
  | UB => UB
  | NoFuel => NoFuel
  end.

End FlvJoinH.

Declare Scope res_scope.
Delimit Scope res_scope with res.
Notation "'let*' x ':=' r 'in' k" :=
  (FlvJoinH.rbind r (fun x => k))
  (at level 10, x pattern, r at level 100, k at level 200) : res_scope.

(* ================================================================= *)
(** ** metadata.c *)

Module Metadata.
Open Scope res_scope.
Import DataConv Stdio FlvJoinH.

(** [struct FLVmetadata]; [stereo] is a [char]. *)
Record FLVmetadata := mkMeta {
  duration : double; width : double; height : double; framerate : double;
  videocodecid : double; audiosamplerate : double; audiosamplesize : double;
  stereo : Z;
  audiocodecid : double; filesize : double;
  ofs_duration : Z; ofs_width : Z; ofs_height : Z; ofs_framerate : Z;
  ofs_videocodecid : Z; ofs_audiosamplerate : Z; ofs_audiosamplesize : Z;
  ofs_stereo : Z; ofs_audiocodecid : Z; ofs_filesize : Z
}.

(** The static [meta] object is zero-initialised. *)
Definition meta0 : FLVmetadata :=
  mkMeta 0 0 0 0 0 0 0 0 0 0 0 0 0 0 0 0 0 0 0 0.

Definition set_duration v m := mkMeta v (width m) (height m) (framerate m) (videocodecid m) (audiosamplerate m) (audiosamplesize m) (stereo m) (audiocodecid m) (filesize m) (ofs_duration m) (ofs_width m) (ofs_height m) (ofs_framerate m) (ofs_videocodecid m) (ofs_audiosamplerate m) (ofs_audiosamplesize m) (ofs_stereo m) (ofs_audiocodecid m) (ofs_filesize m).
Definition set_width v m := mkMeta (duration m) v (height m) (framerate m) (videocodecid m) (audiosamplerate m) (audiosamplesize m) (stereo m) (audiocodecid m) (filesize m) (ofs_duration m) (ofs_width m) (ofs_height m) (ofs_framerate m) (ofs_videocodecid m) (ofs_audiosamplerate m) (ofs_audiosamplesize m) (ofs_stereo m) (ofs_audiocodecid m) (ofs_filesize m).
Definition set_height v m := mkMeta (duration m) (width m) v (framerate m) (videocodecid m) (audiosamplerate m) (audiosamplesize m) (stereo m) (audiocodecid m) (filesize m) (ofs_duration m) (ofs_width m) (ofs_height m) (ofs_framerate m) (ofs_videocodecid m) (ofs_audiosamplerate m) (ofs_audiosamplesize m) (ofs_stereo m) (ofs_audiocodecid m) (ofs_filesize m).
Definition set_framerate v m := mkMeta (duration m) (width m) (height m) v (videocodecid m) (audiosamplerate m) (audiosamplesize m) (stereo m) (audiocodecid m) (filesize m) (ofs_duration m) (ofs_width m) (ofs_height m) (ofs_framerate m) (ofs_videocodecid m) (ofs_audiosamplerate m) (ofs_audiosamplesize m) (ofs_stereo m) (ofs_audiocodecid m) (ofs_filesize m).
Definition set_videocodecid v m := mkMeta (duration m) (width m) (height m) (framerate m) v (audiosamplerate m) (audiosamplesize m) (stereo m) (audiocodecid m) (filesize m) (ofs_duration m) (ofs_width m) (ofs_height m) (ofs_framerate m) (ofs_videocodecid m) (ofs_audiosamplerate m) (ofs_audiosamplesize m) (ofs_stereo m) (ofs_audiocodecid m) (ofs_filesize m).
Definition set_audiosamplerate v m := mkMeta (duration m) (width m) (height m) (framerate m) (videocodecid m) v (audiosamplesize m) (stereo m) (audiocodecid m) (filesize m) (ofs_duration m) (ofs_width m) (ofs_height m) (ofs_framerate m) (ofs_videocodecid m) (ofs_audiosamplerate m) (ofs_audiosamplesize m) (ofs_stereo m) (ofs_audiocodecid m) (ofs_filesize m).
Definition set_audiosamplesize v m := mkMeta (duration m) (width m) (height m) (framerate m) (videocodecid m) (audiosamplerate m) v (stereo m) (audiocodecid m) (filesize m) (ofs_duration m) (ofs_width m) (ofs_height m) (ofs_framerate m) (ofs_videocodecid m) (ofs_audiosamplerate m) (ofs_audiosamplesize m) (ofs_stereo m) (ofs_audiocodecid m) (ofs_filesize m).
Definition set_stereo v m := mkMeta (duration m) (width m) (height m) (framerate m) (videocodecid m) (audiosamplerate m) (audiosamplesize m) v (audiocodecid m) (filesize m) (ofs_duration m) (ofs_width m) (ofs_height m) (ofs_framerate m) (ofs_videocodecid m) (ofs_audiosamplerate m) (ofs_audiosamplesize m) (ofs_stereo m) (ofs_audiocodecid m) (ofs_filesize m).
Definition set_audiocodecid v m := mkMeta (duration m) (width m) (height m) (framerate m) (videocodecid m) (audiosamplerate m) (audiosamplesize m) (stereo m) v (filesize m) (ofs_duration m) (ofs_width m) (ofs_height m) (ofs_framerate m) (ofs_videocodecid m) (ofs_audiosamplerate m) (ofs_audiosamplesize m) (ofs_stereo m) (ofs_audiocodecid m) (ofs_filesize m).
Definition set_filesize v m := mkMeta (duration m) (width m) (height m) (framerate m) (videocodecid m) (audiosamplerate m) (audiosamplesize m) (stereo m) (audiocodecid m) v (ofs_duration m) (ofs_width m) (ofs_height m) (ofs_framerate m) (ofs_videocodecid m) (ofs_audiosamplerate m) (ofs_audiosamplesize m) (ofs_stereo m) (ofs_audiocodecid m) (ofs_filesize m).

(** The names the program writes and looks for, as C strings. *)
Definition s_onMetaData : list Z := cstr "onMetaData".
Definition s_duration : list Z := cstr "duration".
Definition s_width : list Z := cstr "width".
Definition s_height : list Z := cstr "height".
Definition s_framerate : list Z := cstr "framerate".
Definition s_videocodecid : list Z := cstr "videocodecid".
Definition s_audiosamplerate : list Z := cstr "audiosamplerate".
Definition s_audiosamplesize : list Z := cstr "audiosamplesize".
Definition s_stereo : list Z := cstr "stereo".
Definition s_audiocodecid : list Z := cstr "audiocodecid".
Definition s_filesize : list Z := cstr "filesize".
Definition s_metadatacreator : list Z := cstr "metadatacreator".

(** [strcmp(a, b) == 0] for two C strings given by their bytes before the
    terminating NUL. *)
Definition streq (a b : list Z) : bool :=
  if list_eq_dec Z.eq_dec a b then true else false.

Section Host.
Variable be : bool.   (* IS_BIG_ENDIAN *)

Definition put_string (string : list Z) (fd : FILE) : FILE :=
  let len := Z.of_nat (length string) mod 2 ^ 16 in
  let fd := snd (fwrite (format_ui16 be len) fd) in
  snd (fwrite (firstn (Z.to_nat len) string) fd).

Definition put_double (number : double) (fd : FILE) : FILE :=
  let fd := fputc 0 fd in                         (* double marker byte *)
  snd (fwrite (format_double be number) fd).

Definition put_boolean (value : Z) (fd : FILE) : FILE :=
  let fd := fputc 1 fd in                         (* boolean marker byte *)
  fputc value fd.

(** [generate_metadata_packet]: the document is assembled in a temporary
    file; the offset of each value in the output is the position of [fd]
    plus 11 (the tag header to come) plus the position in the temporary
    file. *)
Definition generate_metadata_packet (m : FLVmetadata) (fd : FILE)
  : FLVpacket * FLVmetadata :=
  let currpos := ftell fd + 11 in
  let tmp := fopen_wb None in
  let tmp := fputc 2 tmp in
  let tmp := put_string s_onMetaData tmp in
  let tmp := fputc 8 tmp in
  let tmp := snd (fwrite (format_ui32 be 11) tmp) in
  let tmp := put_string s_duration tmp in
  let o_duration := currpos + ftell tmp in
  let tmp := put_double (Double.of_Z 0) tmp in
  let tmp := put_string s_width tmp in
  let o_width := currpos + ftell tmp in
  let tmp := put_double (Double.of_Z 0) tmp in
  let tmp := put_string s_height tmp in
  let o_height := currpos + ftell tmp in
  let tmp := put_double (Double.of_Z 0) tmp in
  let tmp := put_string s_framerate tmp in
  let o_framerate := currpos + ftell tmp in
  let tmp := put_double (Double.of_Z 0) tmp in
  let tmp := put_string s_videocodecid tmp in
  let o_videocodecid := currpos + ftell tmp in
  let tmp := put_double (Double.of_Z 0) tmp in
  let tmp := put_string s_audiosamplerate tmp in
  let o_audiosamplerate := currpos + ftell tmp in
  let tmp := put_double (Double.of_Z 0) tmp in
  let tmp := put_string s_audiosamplesize tmp in
  let o_audiosamplesize := currpos + ftell tmp in
  let tmp := put_double (Double.of_Z 0) tmp in
  let tmp := put_string s_stereo tmp in
  let o_stereo := currpos + ftell tmp in
  let tmp := put_boolean 0 tmp in
  let tmp := put_string s_audiocodecid tmp in
  let o_audiocodecid := currpos + ftell tmp in
  let tmp := put_double (Double.of_Z 0) tmp in
  let tmp := put_string s_filesize tmp in
  let o_filesize := currpos + ftell tmp in
  let tmp := put_double (Double.of_Z 0) tmp in
  let tmp := put_string s_metadatacreator tmp in
  let buff := PROG_NAME ++ cstr " v" ++ PROG_VERSION in     (* "%s v%s" *)
  let tmp := fputc 2 tmp in
  let tmp := put_string buff tmp in
  let tmp := snd (fwrite [0; 0; 9] tmp) in
  let data_len := ftell tmp in
  let data := fst (fread data_len (rewind tmp)) in
  (mkPacket 18 data_len 0 0 data (data_len + 11),
   mkMeta (duration m) (width m) (height m) (framerate m) (videocodecid m)
          (audiosamplerate m) (audiosamplesize m) (stereo m) (audiocodecid m)
          (filesize m)
          o_duration o_width o_height o_framerate o_videocodecid
          o_audiosamplerate o_audiosamplesize o_stereo o_audiocodecid
          o_filesize).

(** [add_meta_item]: [-1] means "no numerical value"; the conversion of the
    value to [char] for "stereo" is undefined outside [-128, 127]. *)
Definition add_meta_item (name : list Z) (value : double) (m : FLVmetadata)
  : res FLVmetadata :=
  if Double.eqb value Double.minus_one then Done m
  else if streq name s_width then Done (set_width value m)
  else if streq name s_height then Done (set_height value m)
  else if streq name s_framerate then Done (set_framerate value m)
  else if streq name s_videocodecid then Done (set_videocodecid value m)
  else if streq name s_audiosamplerate then Done (set_audiosamplerate value m)
  else if streq name s_audiosamplesize then Done (set_audiosamplesize value m)
  else if streq name s_stereo then
    match Double.to_int (-128) 127 value with
    | Some c => Done (set_stereo c m)
    | None => UB
    end
  else if streq name s_audiocodecid then Done (set_audiocodecid value m)
  else Done m.

(** [write_metadata]: each field is rewritten at the offset stored by
    [generate_metadata_packet]. *)
Definition write_metadata (m : FLVmetadata) (fd : FILE) (timestamp : Z)
  : FLVmetadata * FILE :=
  let m := set_duration (Double.div (Double.of_Z timestamp) (Double.of_Z 1000)) m in
  let m := set_filesize (Double.of_Z (ftell fd)) m in
  let fd := put_double (duration m) (fseek_set fd (ofs_duration m)) in
  let fd := put_double (width m) (fseek_set fd (ofs_width m)) in
  let fd := put_double (height m) (fseek_set fd (ofs_height m)) in
  let fd := put_double (framerate m) (fseek_set fd (ofs_framerate m)) in
  let fd := put_double (videocodecid m) (fseek_set fd (ofs_videocodecid m)) in
  let fd := put_double (audiosamplerate m) (fseek_set fd (ofs_audiosamplerate m)) in
  let fd := put_double (audiosamplesize m) (fseek_set fd (ofs_audiosamplesize m)) in
  let fd := put_boolean (stereo m) (fseek_set fd (ofs_stereo m)) in
  let fd := put_double (audiocodecid m) (fseek_set fd (ofs_audiocodecid m)) in
  let fd := put_double (filesize m) (fseek_set fd (ofs_filesize m)) in
  (m, fd).

(** *** Decoding *)

(** The [n] bytes at offset [pos] of the block [data]; an access outside the
    block is undefined. *)
Definition peek (data : list Z) (pos n : nat) : res (list Z) :=
  if (pos + n <=? length data)%nat then Done (firstn n (skipn pos data))
  else UB.

(** The C string held by a [char] array: the bytes before the first NUL. *)
Fixpoint c_str (bs : list Z) : list Z :=
  match bs with
  | [] => []
  | b :: r => if b =? 0 then [] else b :: c_str r
  end.

(** [(int)u] for an [unsigned int] [u]. *)
Definition int_of_uint (u : Z) : Z := if u <? 2 ^ 31 then u else u - 2 ^ 32.

(** [parse_script_string(pos, string_length, buff)]: with a buffer
    ([buff = true]; every caller passes a [char[1024]]) the bytes are copied
    and NUL-terminated; the result is the string read and the new cursor. *)
Definition parse_script_string (data : list Z) (pos : nat) (string_length : Z)
    (buff : bool) : res (list Z * nat) :=
  if buff then
    let* bs := peek data pos (Z.to_nat string_length) in
    if 1024 <=? string_length then UB
    else Done (c_str bs, (pos + Z.to_nat string_length)%nat)
  else Done ([], (pos + Z.to_nat string_length)%nat).

Definition parsed : Type := double * nat * FLVmetadata.

(** [parse_script_object], over the [parse_number] it calls. *)
Definition parse_script_object (parse_number : nat -> FLVmetadata -> res parsed)
    (data : list Z) (pos : nat) (m : FLVmetadata) : res (nat * FLVmetadata) :=
  let* mk := peek data pos 1 in
  let marker := nth 0 mk 0 in
  let pos := if marker =? 2 then S pos else pos in
  let* l := peek data pos 2 in
  let* (buff, pos) := parse_script_string data (pos + 2) (conv_ui16 be l) true in
  let* (val, pos, m) := parse_number pos m in
  let* m := add_meta_item buff val m in
  let* e := peek data pos 3 in                     (* memcmp( *pos, variable_end, 3) *)
  if list_eq_dec Z.eq_dec e [0; 0; 9] then Done ((pos + 3)%nat, m)
  else Done (pos, m).

(** The loop of the ECMA array case: [for (count = 0; count < array_length;
    count++)], one name and one value per round. *)
Fixpoint parse_pairs (parse_number : nat -> FLVmetadata -> res parsed)
    (fuel : nat) (data : list Z) (count array_length : Z) (pos : nat)
    (m : FLVmetadata) : res (nat * FLVmetadata) :=
  if count <? array_length then
    match fuel with
    | O => NoFuel
    | S fuel =>
        let* l := peek data pos 2 in
        let* (buff, pos) := parse_script_string data (pos + 2) (conv_ui16 be l) true in
        let* (val, pos, m) := parse_number pos m in
        let* m := add_meta_item buff val m in
        parse_pairs parse_number fuel data (count + 1) array_length pos m
    end
  else Done (pos, m).

(** The loop of the script array case: [value = parse_number(pos)]. *)
Fixpoint parse_values (parse_number : nat -> FLVmetadata -> res parsed)
    (fuel : nat) (count array_length : Z) (value : double) (pos : nat)
    (m : FLVmetadata) : res parsed :=
  if count <? array_length then
    match fuel with
    | O => NoFuel
    | S fuel =>
        let* (value, pos, m) := parse_number pos m in
        parse_values parse_number fuel (count + 1) array_length value pos m
    end
  else Done (value, pos, m).

(** [parse_number]: returns the value ([-1] when there is none), the cursor
    after the variable and the metadata collected on the way. *)
Fixpoint parse_number (fuel : nat) (data : list Z) (pos : nat)
    (m : FLVmetadata) {struct fuel} : res parsed :=
  match fuel with
  | O => NoFuel
  | S fuel =>
      let* t := peek data pos 1 in
      let variable_type := nth 0 t 0 in
      let pos := S pos in
      let value := Double.minus_one in
      if variable_type =? 0 then                            (* double *)
        let* b := peek data pos 8 in
        Done (conv_double be b, (pos + 8)%nat, m)
      else if variable_type =? 1 then                       (* boolean *)
        let* b := peek data pos 1 in
        Done (Double.of_Z (nth 0 b 0), S pos, m)
      else if variable_type =? 2 then                       (* string *)
        let* l := peek data pos 2 in
        let* (_, pos) := parse_script_string data (pos + 2) (conv_ui16 be l) false in
        Done (value, pos, m)
      else if variable_type =? 3 then                       (* entire script object *)
        let* (pos, m) := parse_script_object (parse_number fuel data) data pos m in
        Done (value, pos, m)
      else if variable_type =? 7 then                       (* reference *)
        let* b := peek data pos 2 in
        Done (Double.of_Z (conv_ui16 be b), (pos + 2)%nat, m)
      else if variable_type =? 8 then                       (* ECMA array *)
        let* b := peek data pos 4 in
        let array_length := int_of_uint (conv_ui32 be b) in
        let* (pos, m) :=
          parse_pairs (parse_number fuel data) fuel data 0 array_length (pos + 4) m in
        Done (value, pos, m)
      else if variable_type =? 10 then                      (* script array *)
        let* b := peek data pos 4 in
        let array_length := int_of_uint (conv_ui32 be b) in
        parse_values (parse_number fuel data) fuel 0 array_length value (pos + 4) m
      else if variable_type =? 11 then                      (* date *)
        let* b := peek data pos 8 in
        Done (Double.div (conv_double be b) (Double.of_Z 1000), (pos + 8 + 2)%nat, m)
      else if variable_type =? 12 then                      (* long string *)
        let* l := peek data pos 4 in
        let* (_, pos) := parse_script_string data (pos + 2) (conv_ui32 be l) false in
        Done (value, pos, m)
      else                                                  (* unhandled: a warning *)
        Done (value, pos, m)
  end.

(** The loop of [extract_metadata]:
    [while (pos - packet->data <= packet->datasize - 6)]; the bound is
    computed in [unsigned int]. *)
Fixpoint extract_loop (fuel : nat) (data : list Z) (datasize : Z) (pos : nat)
    (found_metadata_marker : bool) (m : FLVmetadata) : res (bool * FLVmetadata) :=
  if Z.of_nat pos <=? (datasize - 6) mod 2 ^ 32 then
    match fuel with
    | O => NoFuel
    | S fuel =>
        let* l := peek data pos 2 in
        let* (buff, pos) := parse_script_string data (pos + 2) (conv_ui16 be l) true in
        let found := found_metadata_marker || streq buff s_onMetaData in
        let* (val, pos, m) := parse_number (S (length data)) data pos m in
        let* m := add_meta_item buff val m in
        extract_loop fuel data datasize pos found m
    end
  else Done (found_metadata_marker, m).

(** [extract_metadata]: the result is [found_metadata_marker] and the
    updated [meta]. *)
Definition extract_metadata (packet : FLVpacket) (m : FLVmetadata)
  : res (bool * FLVmetadata) :=
  if negb (type packet =? 18) then Done (false, m)
  else
    let* mk := peek (data packet) 0 1 in
    let marker := nth 0 mk 0 in
    let pos := if marker =? 2 then 1%nat else 0%nat in
    extract_loop (S (length (data packet))) (data packet) (datasize packet)
                 pos false m.

End Host.
End Metadata.

(* ================================================================= *)
(** ** Program state and outcomes *)

Module Machine.
Import DataConv Stdio FlvJoinH Metadata.

(** The objects with static storage duration of flvjoin.c and metadata.c.
    [buff] ([append_file]) is [[]] while the pointer is NULL and otherwise
    [buffsize] bytes long; the block of [packet.data] ([append_file]) is
    [max_datasize] bytes long; [pktarray] ([buffer_packet]) holds the
    [packets] entries in use.  [seq_header_pkt] is [None] while its [data]
    pointer is NULL.  [written] is not a program variable: it records the
    packets [write_packet] has put to the output, in order. *)
Record state := mkState {
  outfile : FILE;
  seq_header_pkt : option FLVpacket;
  last_video_timestamp : Z;
  last_audio_timestamp : Z;
  last_packet_size : Z;
  buff : list Z;
  first_time : bool;
  metadata_extracted : bool;
  packet : FLVpacket;
  pktarray : list FLVpacket;
  meta : FLVmetadata;
  written : list FLVpacket
}.

Definition set_outfile v s := mkState v (seq_header_pkt s) (last_video_timestamp s) (last_audio_timestamp s) (last_packet_size s) (buff s) (first_time s) (metadata_extracted s) (packet s) (pktarray s) (meta s) (written s).
Definition set_seq_header_pkt v s := mkState (outfile s) v (last_video_timestamp s) (last_audio_timestamp s) (last_packet_size s) (buff s) (first_time s) (metadata_extracted s) (packet s) (pktarray s) (meta s) (written s).
Definition set_buff v s := mkState (outfile s) (seq_header_pkt s) (last_video_timestamp s) (last_audio_timestamp s) (last_packet_size s) v (first_time s) (metadata_extracted s) (packet s) (pktarray s) (meta s) (written s).
Definition set_first_time v s := mkState (outfile s) (seq_header_pkt s) (last_video_timestamp s) (last_audio_timestamp s) (last_packet_size s) (buff s) v (metadata_extracted s) (packet s) (pktarray s) (meta s) (written s).
Definition set_packet v s := mkState (outfile s) (seq_header_pkt s) (last_video_timestamp s) (last_audio_timestamp s) (last_packet_size s) (buff s) (first_time s) (metadata_extracted s) v (pktarray s) (meta s) (written s).
Definition set_pktarray v s := mkState (outfile s) (seq_header_pkt s) (last_video_timestamp s) (last_audio_timestamp s) (last_packet_size s) (buff s) (first_time s) (metadata_extracted s) (packet s) v (meta s) (written s).
Definition set_meta v e s := mkState (outfile s) (seq_header_pkt s) (last_video_timestamp s) (last_audio_timestamp s) (last_packet_size s) (buff s) (first_time s) e (packet s) (pktarray s) v (written s).

(** The initial values of the statics; [last_audio_timestamp] starts at -1. *)
Definition state0 (out : FILE) : state :=
  mkState out None 0 (-1) 0 [] true false (mkPacket 0 0 0 0 [] 0) [] meta0 [].

(** How a computation ends: normally; by [exit(code)]; in undefined
    behaviour; or, for the bounded unfolding of a loop, without an answer. *)
Inductive outcome (A : Type) : Type :=
| Ok (a : A) (s : state)
| Exit (code : Z) (s : state)
| Undef
| Timeout.
Arguments Ok {A} a s.
Arguments Exit {A} code s.
Arguments Undef {A}.
Arguments Timeout {A}.

Definition M (A : Type) : Type := state -> outcome A.

Definition ret {A : Type} (a : A) : M A := fun s => Ok a s.

Definition bind {A B : Type} (m : M A) (k : A -> M B) : M B :=
  fun s =>
    match m s with
    | Ok a s' => k a s'
    | Exit c s' => Exit c s'
    | Undef => Undef
    | Timeout => Timeout
    end.

Definition gets {A : Type} (f : state -> A) : M A := fun s => Ok (f s) s.
Definition modify (f : state -> state) : M unit := fun s => Ok tt (f s).
Definition undef {A : Type} : M A := fun _ => Undef.

(** A result of the decoder, as an outcome. *)
Definition lift_res {A : Type} (r : res A) : M A :=
  fun s =>
    match r with
    | Done a => Ok a s
    | UB => Undef
    | NoFuel => Timeout
    end.

End Machine.

Declare Scope flv_scope.
Delimit Scope flv_scope with flv.
Notation "x <- m ;; k" := (Machine.bind m (fun x => k))
  (at level 61, m at next level, right associativity) : flv_scope.
Notation "m ;; k" := (Machine.bind m (fun _ => k))
  (at level 61, right associativity) : flv_scope.

(* ================================================================= *)
(** ** flvjoin.c *)

Module FlvJoin.
Import DataConv Stdio FlvJoinH Metadata Machine.
Open Scope flv_scope.

Section Program.
Variable be : bool.              (* IS_BIG_ENDIAN, the byte order of the host *)
Variable no_meta : bool.         (* option -n *)
Variable frame_interval : Z.     (* [int]; option -f, 100 by default *)
Variable audio_bitrate : Z.      (* [int]; option -b, 32000 by default *)

(** [write_flv_header]: the 13 bytes are written with an unchecked
    [fwrite]. *)
Definition flv_header : list Z := cstr "FLV" ++ [1; 5; 0; 0; 0; 9; 0; 0; 0; 0].

Definition write_flv_header : M unit :=
  modify (fun s => set_outfile (snd (fwrite flv_header (outfile s))) s).

(** [write_output(buffer, bytes)]: a short count is fatal.  Reading [bytes]
    bytes from a shorter block is undefined. *)
Definition write_output (buffer : list Z) (bytes : Z) : M unit :=
  fun s =>
    if Z.of_nat (length buffer) <? bytes then Undef
    else
      let block := firstn (Z.to_nat bytes) buffer in
      let (k, f) := fwrite block (outfile s) in
      if (k =? length block)%nat then Ok tt (set_outfile f s)
      else Exit 1 (set_outfile f s).

(** The updates at the end of [write_packet], with the record of the packet
    written. *)
Definition note_written (p : FLVpacket) (s : state) : state :=
  mkState (outfile s) (seq_header_pkt s)
    (if type p =? 9 then timestamp p else last_video_timestamp s)
    (if type p =? 8 then timestamp p else last_audio_timestamp s)
    (datasize p)
    (buff s) (first_time s) (metadata_extracted s) (packet s) (pktarray s)
    (meta s)
    (written s ++ [copy_packet p]).

(** [write_packet(packet, file_start_timestamp)].  The timestamp of
    [*packet] is rewritten in place ([unsigned int] arithmetic); the result
    is the packet as the function leaves it. *)
Definition write_packet (p : FLVpacket) (file_start_timestamp : Z) : M FLVpacket :=
  let p := set_timestamp ((timestamp p + file_start_timestamp) mod 2 ^ 32) p in
  last_audio <- gets last_audio_timestamp ;;
  if (type p =? 8) && (timestamp p <=? last_audio) then
    ret p                                   (* overlapping audio packet: dropped *)
  else
    write_output [type p] 1 ;;
    write_output (format_ui24 be (datasize p)) 3 ;;
    write_output (format_ui24 be (timestamp p)) 4 ;;
    write_output (format_ui24 be (streamid p)) 3 ;;
    write_output (data p) (datasize p) ;;
    write_output (format_ui32 be (backptr p)) 4 ;;
    modify (note_written p) ;;
    ret p.

(** The flushing loop of [buffer_packet], over [pktarray[0..packets-1]].
    The timestamps [write_packet] rewrites in the array entries are not kept:
    the entries are dead once written. *)
Fixpoint flush_loop (entries : list FLVpacket) (file_start_timestamp : Z) : M unit :=
  match entries with
  | [] => ret tt
  | e :: rest =>
      seq <- gets seq_header_pkt ;;
      match seq with
      | Some sh =>
          if type e =? 9 then
            (* Write sequence header immediately before first video packet *)
            write_packet (set_timestamp (timestamp e) sh) file_start_timestamp ;;
            modify (set_seq_header_pkt None)
          else ret tt
      | None => ret tt
      end ;;
      write_packet e file_start_timestamp ;;
      flush_loop rest file_start_timestamp
  end.

(** [buffer_packet(packet, file_start_timestamp, flush)] *)
Definition buffer_packet (p : FLVpacket) (file_start_timestamp : Z) (flush : bool)
  : M unit :=
  if Z.of_nat (length (data p)) <? datasize p then undef     (* memcpy *)
  else
    modify (fun s =>
      set_pktarray (pktarray s ++ [copy_packet p]) s) ;;
    if flush then
      entries <- gets pktarray ;;
      flush_loop entries file_start_timestamp ;;
      modify (set_pktarray [])
    else ret tt.

(** The automatic variables of [append_file] that live across the loop. *)
Record locals := mkLocals {
  file_start_timestamp : Z;        (* [long], -999999 while undetermined *)
  first_keyframe_timestamp : Z;    (* [long], -1 while unset *)
  lastfile_video_timestamp : Z;
  infile : FILE
}.

Definition set_infile (f : FILE) (l : locals) : locals :=
  mkLocals (file_start_timestamp l) (first_keyframe_timestamp l)
           (lastfile_video_timestamp l) f.

(** [packet.data[i]]; undefined outside the block. *)
Definition data_byte (p : FLVpacket) (i : nat) : M Z :=
  match nth_error (data p) i with
  | Some b => ret b
  | None => undef
  end.

(** First part of the loop body: the tag header, the payload and the
    back-pointer are read into [buff] and the static [packet].  The result
    is [None] when the loop is left by [break]. *)
Definition read_tag (l : locals) : M (option locals) :=
  fun s =>
    let (hd, f) := fread 11 (infile l) in
    let b := blit hd (buff s) in
    if (length hd =? 0)%nat then Ok None (set_buff b s)
    else
      let dsize := conv_ui24 be (skipn 1 b) 0 in
      let old := data (packet s) in
      let block :=                       (* realloc when datasize > max_datasize *)
        if Z.of_nat (length old) <? dsize
        then old ++ repeat 0 (Z.to_nat dsize - length old)
        else old in
      let (payload, f) := fread dsize f in
      let (bp, f) := fread 4 f in
      let b' := blit bp b in
      let pkt := mkPacket (nth 0 b 0) dsize
                          (conv_ui24 be (skipn 4 b) (nth 7 b 0))
                          (conv_ui24 be (skipn 8 b) 0)
                          (blit payload block)
                          (conv_ui32 be b') in
      Ok (Some (set_infile f l)) (set_packet pkt (set_buff b' s)).

(** Second part of the loop body: what is done with the packet read. *)
Definition route (mark_in mark_out : Z) (l : locals) : M locals :=
  p <- gets packet ;;
  if type p =? 18 then                                    (* Script data *)
    extracted <- gets metadata_extracted ;;
    if negb extracted && negb no_meta then
      m <- gets meta ;;
      r <- lift_res (extract_metadata be p m) ;;
      modify (set_meta (snd r) (fst r)) ;;
      ret l
    else ret l
  else
    seq <- gets seq_header_pkt ;;
    is_seq_header <-
      (match seq with
       | None =>
           if type p =? 9 then
             d0 <- data_byte p 0 ;;
             if Z.land d0 15 =? 7 then
               d1 <- data_byte p 1 ;;
               ret (d1 =? 0)
             else ret false
           else ret false
       | Some _ => ret false
       end) ;;
    if is_seq_header : bool then                          (* AVC sequence header *)
      modify (set_seq_header_pkt (Some (copy_packet p))) ;;
      ret l
    else if (timestamp p <? mark_in) || (mark_out <=? timestamp p)
            || (negb (type p =? 8) && negb (type p =? 9)) then
      ret l
    else
      key_frame <-
        (if type p =? 8 then ret true                     (* All audio packets are keyframes *)
         else
           d0 <- data_byte p 0 ;;
           ret (Z.shiftr (Z.land d0 240) 4 =? 1)) ;;
      let l :=
        if (first_keyframe_timestamp l =? -1) && key_frame
        then mkLocals (file_start_timestamp l) (timestamp p)
                      (lastfile_video_timestamp l) (infile l)
        else l in
      if file_start_timestamp l =? -999999 then
        if type p =? 9 then                               (* Video packet *)
          if key_frame : bool then
            first <- gets first_time ;;
            let start :=
              if first : bool then - first_keyframe_timestamp l
              else (lastfile_video_timestamp l + frame_interval - timestamp p) mod 2 ^ 32 in
            (if first : bool then modify (set_first_time false) else ret tt) ;;
            buffer_packet p start true ;;                 (* Flush buffer this time *)
            ret (mkLocals start (first_keyframe_timestamp l)
                          (lastfile_video_timestamp l) (infile l))
          else ret l
        else
          buffer_packet p (-1) false ;;
          ret l
      else
        p' <- write_packet p (file_start_timestamp l) ;;
        modify (set_packet p') ;;
        ret l.

(** The loop [while (!feof(infile))]. *)
Fixpoint append_loop (fuel : nat) (mark_in mark_out : Z) (l : locals) : M locals :=
  if feof (infile l) then ret l
  else
    match fuel with
    | O => fun _ => Timeout
    | S fuel =>
        r <- read_tag l ;;
        match r with
        | None => ret l
        | Some l => l <- route mark_in mark_out l ;; append_loop fuel mark_in mark_out l
        end
    end.

(** The start of [append_file]: the 9-byte header is read and, when it
    carries the signature, the rest of the header and the first back-pointer
    are skipped ([size_t] arithmetic).  [None]: the function returns at
    once. *)
Definition open_input (bytes : list Z) : M (option FILE) :=
  fun s =>
    let f := fopen_rb bytes in
    let b := match buff s with [] => repeat 0 13 | b => b end in
    let (hd, f) := fread 9 f in
    let b := blit hd b in
    if negb (length hd =? 9)%nat then Ok None (set_buff b s)
    else if list_eq_dec Z.eq_dec (firstn 3 b) (cstr "FLV") then
      let header_length := conv_ui32 be (skipn 5 b) in
      let b :=
        if Z.of_nat (length b) <? header_length + 4
        then b ++ repeat 0 (Z.to_nat (header_length + 4) - length b)
        else b in
      let extra_length := (header_length - 9) mod 2 ^ 64 in
      let (ex, f) := fread ((extra_length + 4) mod 2 ^ 64) f in
      if (length b <? 9 + length ex)%nat then Undef
      else Ok (Some f) (set_buff (firstn 9 b ++ blit ex (skipn 9 b)) s)
    else Ok (Some (rewind f)) (set_buff b s).

(** [append_file(filename, mark_in, mark_out)]; [input] is the content of
    the file, [None] when it cannot be opened.  The loop runs at most once
    per byte of the file, and once more. *)
Definition append_file (input : option (list Z)) (mark_in mark_out : Z) : M unit :=
  lastfile <- gets last_video_timestamp ;;
  match input with
  | None => ret tt
  | Some bytes =>
      o <- open_input bytes ;;
      match o with
      | None => ret tt
      | Some f =>
          append_loop (S (length bytes)) mark_in mark_out
                      (mkLocals (-999999) (-1) lastfile f) ;;
          ret tt
      end
  end.

(** A line of standard input as [sscanf] delivers it: the file named, and
    the in and out points in seconds when given. *)
Record input_line := mkLine {
  line_file : option (list Z);
  line_mark_in : option double;
  line_mark_out : option double
}.

(** [(unsigned int)(0.5 + mark * 1000)] *)
Definition mark_ms (mark : double) : option Z :=
  Double.to_int 0 (2 ^ 32 - 1)
    (Double.add Double.half (Double.mul mark (Double.of_Z 1000))).

Definition marks_of_line (ln : input_line) : option Z * option Z :=
  match line_mark_in ln with
  | None => (mark_ms (Double.of_Z 0), mark_ms (Double.of_Z 99999))
  | Some a =>
      (mark_ms a,
       mark_ms (match line_mark_out ln with
                | None => Double.of_Z 99999
                | Some b => b
                end))
  end.

Definition append_line (ln : input_line) : M unit :=
  match marks_of_line ln with
  | (Some mark_in, Some mark_out) => append_file (line_file ln) mark_in mark_out
  | _ => undef
  end.

Fixpoint append_lines (lines : list input_line) : M unit :=
  match lines with
  | [] => ret tt
  | ln :: rest => append_line ln ;; append_lines rest
  end.

(** [(unsigned int)(0.5 + 1000.0 * last_packet_size * 8 / audio_bitrate)] *)
Definition last_packet_ms (size : Z) : option Z :=
  Double.to_int 0 (2 ^ 32 - 1)
    (Double.add Double.half
       (Double.div (Double.mul (Double.mul (Double.of_Z 1000) (Double.of_Z size))
                               (Double.of_Z 8))
                   (Double.of_Z audio_bitrate))).

(** The duration [main] passes to [write_metadata], an [unsigned int]. *)
Definition final_duration (s : state) : option Z :=
  if last_audio_timestamp s <=? last_video_timestamp s then
    Some ((last_video_timestamp s + frame_interval) mod 2 ^ 32)
  else
    match last_packet_ms (last_packet_size s) with
    | Some t => Some ((last_audio_timestamp s + t) mod 2 ^ 32)
    | None => None
    end.

Definition finalize : M unit :=
  fun s =>
    match final_duration s with
    | Some duration =>
        let (m, f) := write_metadata be (meta s) (outfile s) duration in
        Ok tt (set_outfile f (set_meta m (metadata_extracted s) s))
    | None => Undef
    end.

(** [main] after option parsing, up to the end of the input: the output is
    created, the header and the placeholder metadata are written, the input
    files are appended in turn.  [lim] bounds the size of the output
    device. *)
Definition join (lim : option nat) (lines : list input_line) : outcome unit :=
  (write_flv_header ;;
   (if no_meta then ret tt
    else
      s <- gets (fun s => s) ;;
      let (pkt, m) := generate_metadata_packet be (meta s) (outfile s) in
      modify (set_meta m (metadata_extracted s)) ;;
      write_packet pkt 0 ;;
      ret tt) ;;
   append_lines lines)
  (state0 (fopen_wb lim)).

(** [main] from the creation of the output to the call of [close_output]:
    the final metadata is written unless [-n] was given.  [Ok] is the state
    in which the output is closed, [exit(0)] when [fclose] succeeds. *)
Definition main (lim : option nat) (lines : list input_line) : outcome unit :=
  match join lim lines with
  | Ok _ s => if no_meta then Ok tt s else finalize s
  | o => o
  end.

End Program.
End FlvJoin.

(* ================================================================= *)
(** ** Vocabulary of the properties *)

Module Spec.
Import DataConv Stdio FlvJoinH Metadata Machine FlvJoin.

(** The position of an output stream that has only been appended to. *)
Definition at_end (f : FILE) : Prop := fpos f = length (contents f).

(** The stream does not exceed the size of its device. *)
Definition within_limit (f : FILE) : Prop :=
  match limit f with
  | None => True
  | Some l => (length (contents f) <= l)%nat
  end.

(** The number of bytes of a stream after its position. *)
Definition remaining (f : FILE) : nat := length (contents f) - fpos f.

(** [n] bytes of [l] from offset [ofs], and [l] with [bs] written over it at
    offset [ofs]. *)
Definition slice (ofs n : nat) (l : list Z) : list Z := firstn n (skipn ofs l).
Definition patch (ofs : nat) (bs l : list Z) : list Z :=
  firstn ofs l ++ bs ++ skipn (ofs + length bs) l.

(** A stream after [fseek] to [ofs] and a write of [bs] over its bytes. *)
Definition put_at (ofs : nat) (bs : list Z) (f : FILE) : FILE :=
  mkFILE (patch ofs bs (contents f)) (ofs + length bs) false (limit f).

(** The byte blocks [write_packet] hands to [write_output] for a packet. *)
Definition tag_chunks (be : bool) (p : FLVpacket) : list (list Z) :=
  [ [type p];
    firstn 3 (format_ui24 be (datasize p));
    format_ui24 be (timestamp p);
    firstn 3 (format_ui24 be (streamid p));
    firstn (Z.to_nat (datasize p)) (data p);
    format_ui32 be (backptr p) ].

(** Writing blocks in turn until one is cut short. *)
Fixpoint put_chunks (chunks : list (list Z)) (f : FILE) : FILE * bool :=
  match chunks with
  | [] => (f, true)
  | c :: rest =>
      let (k, f') := fwrite c f in
      if (k =? length c)%nat then put_chunks rest f' else (f', false)
  end.

(** The payload block of a packet is large enough for its size field. *)
Definition wf_packet (p : FLVpacket) : Prop :=
  datasize p <= Z.of_nat (length (data p)).

(** A packet with its timestamp moved by [off], as [write_packet] does. *)
Definition shifted (off : Z) (p : FLVpacket) : FLVpacket :=
  set_timestamp ((timestamp p + off) mod 2 ^ 32) p.

(** The condition under which [write_packet] drops the packet [p], already
    shifted. *)
Definition overlapping (p : FLVpacket) (s : state) : bool :=
  (type p =? 8) && (timestamp p <=? last_audio_timestamp s).

(** The state [write_packet] leaves when no write fails: unchanged for an
    overlapping audio packet, and otherwise with the tag appended and the
    counters updated. *)
Definition remux (be : bool) (off : Z) (p : FLVpacket) (s : state) : state :=
  if overlapping (shifted off p) s then s
  else note_written (shifted off p)
         (set_outfile (fst (put_chunks (tag_chunks be (shifted off p)) (outfile s))) s).

(** The state the flushing loop leaves when no write fails. *)
Fixpoint flush_pure (be : bool) (off : Z) (entries : list FLVpacket) (s : state)
  : state :=
  match entries with
  | [] => s
  | e :: rest =>
      let s1 :=
        match seq_header_pkt s with
        | Some sh =>
            if type e =? 9
            then set_seq_header_pkt None (remux be off (set_timestamp (timestamp e) sh) s)
            else s
        | None => s
        end in
      flush_pure be off rest (remux be off e s1)
  end.

(** The audio packets of [entries] that [write_packet] does not drop, as
    they are written, when the last audio timestamp written is [last]. *)
Fixpoint survivors (off last : Z) (entries : list FLVpacket) : list FLVpacket :=
  match entries with
  | [] => []
  | e :: rest =>
      if timestamp (shifted off e) <=? last then survivors off last rest
      else copy_packet (shifted off e)
           :: survivors off (timestamp (shifted off e)) rest
  end.

(** Nothing stands in the way of writing: the output device is unbounded and
    the packets held own the payload their size field announces. *)
Definition ready (s : state) : Prop :=
  limit (outfile s) = None /\
  Forall wf_packet (pktarray s) /\
  (forall sh, seq_header_pkt s = Some sh -> wf_packet sh).

(** The variable types [parse_number] knows. *)
Definition handled_tag (t : Z) : bool :=
  (t =? 0) || (t =? 1) || (t =? 2) || (t =? 3) || (t =? 7) || (t =? 8)
  || (t =? 10) || (t =? 11) || (t =? 12).

(** The tests of [route] on the first payload bytes. *)
Definition is_sequence_header (p : FLVpacket) : bool :=
  match data p with
  | d0 :: d1 :: _ => (type p =? 9) && (Z.land d0 15 =? 7) && (d1 =? 0)
  | _ => false
  end.

Definition is_key_frame (p : FLVpacket) : bool :=
  match data p with
  | d0 :: _ => (type p =? 8) || (Z.shiftr (Z.land d0 240) 4 =? 1)
  | [] => type p =? 8
  end.

(** The timestamps of the audio packets of a record of written packets. *)
Definition audio_timestamps (l : list FLVpacket) : list Z :=
  map timestamp (filter (fun p => type p =? 8) l).

(** Strictly increasing. *)
Definition increasing (l : list Z) : Prop := StronglySorted Z.lt l.

(** The audio timestamps written so far increase strictly and none exceeds
    [last_audio_timestamp]. *)
Definition audio_ok (s : state) : Prop :=
  increasing (audio_timestamps (written s)) /\
  Forall (fun t => t <= last_audio_timestamp s) (audio_timestamps (written s)).

(** The ten offsets stored in [meta]. *)
Definition meta_offsets (m : FLVmetadata) : list Z :=
  [ofs_duration m; ofs_width m; ofs_height m; ofs_framerate m;
   ofs_videocodecid m; ofs_audiosamplerate m; ofs_audiosamplesize m;
   ofs_stereo m; ofs_audiocodecid m; ofs_filesize m].

(** The bytes of a tag in the output. *)
Definition tag_bytes (be : bool) (p : FLVpacket) : list Z := concat (tag_chunks be p).

(** What holds of the state between two packets: the audio written so far
    is in order; the output has only been appended to, and consists of the
    bytes [H0] followed by the tags of the packets recorded in [written]; it
    begins with [P0]; the offsets stored in [meta] are [O0]. *)
Definition Core (be : bool) (H0 P0 O0 : list Z) (s : state) : Prop :=
  audio_ok s /\
  at_end (outfile s) /\
  within_limit (outfile s) /\
  contents (outfile s) = H0 ++ concat (map (tag_bytes be) (written s)) /\
  (exists rest, contents (outfile s) = P0 ++ rest) /\
  meta_offsets (meta s) = O0.

(** What decoding a variable at [pos] guarantees: it never runs out of
    rounds; when it succeeds the byte at [pos] was inside the block, the
    cursor has moved forward and the offsets stored in the metadata are
    untouched. *)
Definition decoded (data : list Z) (pos : nat) (m : FLVmetadata)
    (r : res parsed) : Prop :=
  match r with
  | Done (_, pos', m') =>
      (pos < length data)%nat /\ (pos < pos')%nat /\
      meta_offsets m' = meta_offsets m
  | UB => True
  | NoFuel => False
  end.

(** The same of a loop of the decoder, which may leave the cursor in place. *)
Definition decoded_to (pos : nat) (m : FLVmetadata)
    (r : res (nat * FLVmetadata)) : Prop :=
  match r with
  | Done (pos', m') => (pos <= pos')%nat /\ meta_offsets m' = meta_offsets m
  | UB => True
  | NoFuel => False
  end.

(** The packets waiting in [pktarray] are audio packets. *)
Definition pending_audio (s : state) : Prop :=
  Forall (fun e => type e = 8) (pktarray s).

Definition Inv (be : bool) (H0 P0 O0 : list Z) (s : state) : Prop :=
  Core be H0 P0 O0 s /\ pending_audio s.

(** What is known of an outcome: [R] of a normal end, [Q] of the state at an
    [exit]; a bounded loop never runs out of rounds. *)
Definition post {A : Type} (R : A -> state -> Prop) (Q : state -> Prop)
    (o : outcome A) : Prop :=
  match o with
  | Ok a s => R a s
  | Exit _ s => Q s
  | Undef => True
  | Timeout => False
  end.

Definition triple {A : Type} (P : state -> Prop) (m : M A)
    (R : A -> state -> Prop) (Q : state -> Prop) : Prop :=
  forall s, P s -> post R Q (m s).

(** The placeholder metadata packet [main] writes after the 13-byte header,
    with the metadata that records its offsets; the first bytes of an output
    with metadata. *)
Definition placeholder (be : bool) : FLVpacket * FLVmetadata :=
  generate_metadata_packet be meta0 (snd (fwrite flv_header (fopen_wb None))).

Definition meta_prefix (be : bool) : list Z :=
  flv_header ++ tag_bytes be (fst (placeholder be)).

Definition placeholder_offsets (be : bool) : list Z :=
  meta_offsets (snd (placeholder be)).

(** A computation keeps the invariant [J] (and [Q] up to an [exit]) and
    returns a value that satisfies [V]. *)
Definition keeps {A : Type} (J Q : state -> Prop) (V : A -> Prop) (m : M A) : Prop :=
  triple J m (fun a s => J s /\ V a) Q.

(** The first video packet of a record of written packets, and the records
    that hold one. *)
Definition first_video (l : list FLVpacket) : option FLVpacket :=
  find (fun q => type q =? 9) l.

Definition has_video (l : list FLVpacket) : Prop :=
  Exists (fun q => type q = 9) l.

(** The states of a file that was opened with [W0] written and [P0]
    waiting.  Nothing has been written since and the buffer has only grown;
    or a video packet has been written since. *)
Definition only_buffered (W0 P0 : list FLVpacket) (s : state) : Prop :=
  written s = W0 /\ exists more, pktarray s = P0 ++ more.

Definition wrote_video (W0 : list FLVpacket) (s : state) : Prop :=
  exists new, written s = W0 ++ new /\ has_video new.

(** The cached sequence header is a video packet. *)
Definition video_header (s : state) : Prop :=
  forall sh, seq_header_pkt s = Some sh -> type sh = 9.

(** No file has fixed an offset since [W0] was written, an earlier file has,
    and only audio packets wait; or the first video packet written since has
    the timestamp [t]. *)
Definition seeking (W0 : list FLVpacket) (s : state) : Prop :=
  first_time s = false /\ written s = W0 /\ pending_audio s /\ video_header s.

Definition video_resumed_at (W0 : list FLVpacket) (t : Z) (s : state) : Prop :=
  exists new v, written s = W0 ++ new /\ first_video new = Some v /\ timestamp v = t.

End Spec.

(* ================================================================= *)
(** ** Input files used as examples *)

Module Examples.
Import DataConv Stdio FlvJoinH Metadata Machine FlvJoin Spec.

(** A tag as it stands in a file: type, 3-byte size, timestamp with its
    extension byte, stream id 0, payload, back-pointer. *)
Definition tag (ty ts : Z) (payload : list Z) : list Z :=
  [ty] ++ firstn 3 (format_ui24 false (Z.of_nat (length payload)))
       ++ format_ui24 false ts ++ [0; 0; 0] ++ payload
       ++ format_ui32 false (Z.of_nat (length payload) + 11).

(** Payloads: an audio frame, a video key frame (frame type 1, codec 2), a
    video inter frame, an AVC configuration record, an AVC key frame. *)
Definition audio : list Z := [42; 1; 2; 3].
Definition key : list Z := [18; 7; 7].
Definition inter : list Z := [34; 7; 7].
Definition avc_config : list Z := [23; 0; 0; 0; 0; 1; 100].
Definition avc_key : list Z := [23; 1; 0; 0; 0; 9].

(** A line of standard input naming a file, without in and out points. *)
Definition line (bytes : list Z) : input_line := mkLine (Some bytes) None None.

(** What a run shows: how it ended and, per packet written, type, timestamp
    and payload. *)
Definition trace (o : outcome unit) : option (Z * list (Z * Z * list Z)) :=
  match o with
  | Ok _ s => Some (0, map (fun p => (type p, timestamp p, data p)) (written s))
  | Exit c s => Some (c, map (fun p => (type p, timestamp p, data p)) (written s))
  | _ => None
  end.

(** A first file whose audio starts 5 ms before its first video key frame. *)
Definition audio_leads : list Z :=
  flv_header ++ tag 8 5 audio ++ tag 9 10 key.

(** The file of the sequence-header example: configuration record, audio at
    0 ms, video key frame at 0 ms. *)
Definition with_config : list Z :=
  flv_header ++ tag 9 0 avc_config ++ tag 8 0 audio ++ tag 9 0 avc_key.

(** The program run on a first file with the default settings on a
    little-endian host, up to the moment the tag number [n] (from 0) has
    been read and is about to be routed. *)
Fixpoint steps (n : nat) (l : locals) : M locals :=
  (r <- read_tag false l ;;
   match r with
   | Some l =>
       match n with
       | O => ret l
       | S n => l <- route false true 100 0 99999000 l ;; steps n l
       end
   | None => undef
   end)%flv.

Definition at_tag (n : nat) (bytes : list Z) : outcome locals :=
  (o <- open_input false bytes ;;
   match o with
   | Some f => steps n (mkLocals (-999999) (-1) 0 f)
   | None => undef
   end)%flv (state0 (fopen_wb None)).

Definition locals_at (n : nat) (bytes : list Z) : locals :=
  match at_tag n bytes with
  | Ok l _ => l
  | _ => mkLocals 0 0 0 (fopen_rb [])
  end.

Definition state_at (n : nat) (bytes : list Z) : state :=
  match at_tag n bytes with
  | Ok _ s => s
  | _ => state0 (fopen_wb None)
  end.

(** [audio_leads] at its video key frame: the audio packet is pending. *)
Definition seeking_locals : locals := locals_at 1 audio_leads.
Definition seeking_state : state := state_at 1 audio_leads.

(** [with_config] at its video key frame: the configuration record is
    cached, the audio packet is pending. *)
Definition config_locals : locals := locals_at 2 with_config.
Definition config_state : state := state_at 2 with_config.

(** A second configuration record. *)
Definition avc_config2 : list Z := [23; 0; 0; 0; 0; 2; 200].

(** A file with two configuration records before its audio. *)
Definition two_configs : list Z :=
  flv_header ++ tag 9 0 avc_config ++ tag 9 40 avc_config2 ++ tag 8 40 audio.

(** A file with configuration records after its key frame. *)
Definition late_configs : list Z :=
  flv_header ++ tag 9 0 avc_config ++ tag 9 0 avc_key
             ++ tag 9 40 avc_config2 ++ tag 9 80 avc_config.

(** A file whose configuration record lies before the in point of 1 s. *)
Definition early_config : list Z :=
  flv_header ++ tag 9 0 avc_config ++ tag 8 2000 audio ++ tag 9 2000 avc_key.


Definition idle_state : state := set_buff (repeat 0 13) (state0 (fopen_wb None)).

(** A script-data payload: "onMetaData", then an ECMA array of two pairs,
    "x" with a value of type 5 (null, which the decoder does not know) and
    "width" with the number 320. *)
Definition script_with_null : list Z :=
  [2] ++ format_ui16 false 10 ++ cstr "onMetaData"
      ++ [8] ++ format_ui32 false 2
      ++ format_ui16 false 1 ++ cstr "x" ++ [5]
      ++ format_ui16 false 5 ++ cstr "width"
      ++ [0] ++ format_double false (Double.of_Z 320)
      ++ [0; 0; 9].

Definition script_packet : FLVpacket :=
  mkPacket 18 (Z.of_nat (length script_with_null)) 0 0 script_with_null
           (Z.of_nat (length script_with_null) + 11).

(** Files A and B of the end-to-end example. *)
Definition file_a : list Z := flv_header ++ tag 8 0 audio ++ tag 9 0 key.


(** A first file with audio only, and a second file whose audio starts
    50 ms in and whose first video key frame is at 1000 ms. *)
Definition audio_only : list Z := flv_header ++ tag 8 0 audio.
Definition late_start : list Z :=
  flv_header ++ tag 8 50 [42; 9; 9; 9] ++ tag 9 1000 key.

Definition from_one_second (bytes : list Z) : input_line :=
  mkLine (Some bytes) (Some (Double.of_Z 1)) None.


(** The state in which a run that has joined [audio_leads] opens its next
    file, and that file, [late_start], at its video key frame: its audio
    packet is pending. *)
Definition resumed : state :=
  match join false true 100 None [line audio_leads] with
  | Ok _ s => s
  | _ => state0 (fopen_wb None)
  end.

Definition second_at (n : nat) (bytes : list Z) : outcome locals :=
  (o <- open_input false bytes ;;
   match o with
   | Some f => steps n (mkLocals (-999999) (-1) (last_video_timestamp resumed) f)
   | None => undef
   end)%flv resumed.

Definition resumed_locals : locals :=
  match second_at 1 late_start with
  | Ok l _ => l
  | _ => mkLocals 0 0 0 (fopen_rb [])
  end.

Definition resumed_state : state :=
  match second_at 1 late_start with
  | Ok _ s => s
  | _ => state0 (fopen_wb None)
  end.

End Examples.

(* ================================================================= *)
(** ** Vocabulary of the further properties *)

Module Behaviour.
Import DataConv Stdio FlvJoinH Metadata Machine FlvJoin Spec.

(** A byte, and a block of bytes. *)
Definition byte (b : Z) : Prop := 0 <= b < 256.
Definition bytes (l : list Z) : Prop := Forall byte l.

(** The number whose digits in base 256 are [bs], most significant first. *)
Definition be_value (bs : list Z) : Z := fold_left (fun acc b => acc * 256 + b) bs 0.

(** The part of the metadata that only the emitter and the patcher set: the
    duration, the file size and the ten offsets. *)
Definition patcher_fields (m : FLVmetadata) : double * double * list Z :=
  (duration m, filesize m, meta_offsets m).

(** A function of the decoder leaves these fields alone. *)
Definition leaves_patcher_fields (pn : nat -> FLVmetadata -> res parsed) : Prop :=
  forall pos m v pos' m',
    pn pos m = Done (v, pos', m') -> patcher_fields m' = patcher_fields m.

(** The ten values [write_metadata] writes, each with the offset it is
    written at and the bytes [put_double] or [put_boolean] give for it. *)
Definition value_fields (be : bool) (m : FLVmetadata) : list (nat * list Z) :=
  [ (Z.to_nat (ofs_duration m), 0 :: format_double be (duration m));
    (Z.to_nat (ofs_width m), 0 :: format_double be (width m));
    (Z.to_nat (ofs_height m), 0 :: format_double be (height m));
    (Z.to_nat (ofs_framerate m), 0 :: format_double be (framerate m));
    (Z.to_nat (ofs_videocodecid m), 0 :: format_double be (videocodecid m));
    (Z.to_nat (ofs_audiosamplerate m), 0 :: format_double be (audiosamplerate m));
    (Z.to_nat (ofs_audiosamplesize m), 0 :: format_double be (audiosamplesize m));
    (Z.to_nat (ofs_stereo m), [1; stereo m mod 256]);
    (Z.to_nat (ofs_audiocodecid m), 0 :: format_double be (audiocodecid m));
    (Z.to_nat (ofs_filesize m), 0 :: format_double be (filesize m)) ].

(** Blocks written over a list one after the other. *)
Fixpoint patch_all (fields : list (nat * list Z)) (l : list Z) : list Z :=
  match fields with
  | [] => l
  | (o, bs) :: rest => patch_all rest (patch o bs l)
  end.

(** The blocks follow one another without overlap, from [from] on, inside
    a list of [n] bytes. *)
Fixpoint in_order (from : nat) (fields : list (nat * list Z)) (n : nat) : Prop :=
  match fields with
  | [] => (from <= n)%nat
  | (o, bs) :: rest => (from <= o)%nat /\ in_order (o + length bs) rest n
  end.

(** The metadata as [write_metadata] completes it. *)
Definition completed (m : FLVmetadata) (fd : FILE) (timestamp : Z) : FLVmetadata :=
  set_filesize (Double.of_Z (ftell fd))
    (set_duration (Double.div (Double.of_Z timestamp) (Double.of_Z 1000)) m).

(** An encoded double that is not the value -1, which [add_meta_item]
    takes for "no value". *)
Definition number (d : double) : Prop :=
  0 <= d < 2 ^ 64 /\ Double.eqb d Double.minus_one = false.

(** The metadata [mz] with the eight fields a script packet can set taken
    from [m]. *)
Definition taken_from (m mz : FLVmetadata) : FLVmetadata :=
  set_audiocodecid (audiocodecid m)
    (set_stereo (stereo m)
       (set_audiosamplesize (audiosamplesize m)
          (set_audiosamplerate (audiosamplerate m)
             (set_videocodecid (videocodecid m)
                (set_framerate (framerate m)
                   (set_height (height m)
                      (set_width (width m) mz))))))).

(** The script tag that follows the 13-byte header of an output written with
    metadata, as the packet [append_file] reads from it: 253 bytes of payload
    from offset 24. *)
Definition metadata_tag (out : list Z) : FLVpacket :=
  mkPacket 18 253 0 0 (slice 24 253 out) 264.

(** The names of the ten fields with the offsets stored for them and the
    type byte of their values. *)
Definition named_offsets (m : FLVmetadata) : list (list Z * Z * Z) :=
  [ (s_duration, ofs_duration m, 0); (s_width, ofs_width m, 0);
    (s_height, ofs_height m, 0); (s_framerate, ofs_framerate m, 0);
    (s_videocodecid, ofs_videocodecid m, 0);
    (s_audiosamplerate, ofs_audiosamplerate m, 0);
    (s_audiosamplesize, ofs_audiosamplesize m, 0);
    (s_stereo, ofs_stereo m, 1); (s_audiocodecid, ofs_audiocodecid m, 0);
    (s_filesize, ofs_filesize m, 0) ].

(** What is known of an outcome that may also be missing: [R] of a normal
    end, [Q] of the status and the state at an [exit]. *)
Definition safe {A : Type} (R : A -> state -> Prop) (Q : Z -> state -> Prop)
    (o : outcome A) : Prop :=
  match o with
  | Ok a s => R a s
  | Exit c s => Q c s
  | _ => True
  end.

Definition partial {A : Type} (P : state -> Prop) (m : M A)
    (R : A -> state -> Prop) (Q : Z -> state -> Prop) : Prop :=
  forall s, P s -> safe R Q (m s).

(** A computation keeps [J] (and leaves [Q] at an [exit]) and returns a
    value that satisfies [V], whenever it returns. *)
Definition holds {A : Type} (J : state -> Prop) (Q : Z -> state -> Prop)
    (V : A -> Prop) (m : M A) : Prop :=
  partial J m (fun a s => J s /\ V a) Q.

(** The timestamp of the last packet of type [ty] in a record of written
    packets ([init] when there is none), and the size of its last packet. *)
Definition last_timestamp (ty init : Z) (l : list FLVpacket) : Z :=
  fold_left (fun t p => if type p =? ty then timestamp p else t) l init.

Definition last_size (l : list FLVpacket) : Z :=
  fold_left (fun _ p => datasize p) l 0.

(** The three counters agree with the packets written. *)
Definition counters_match (s : state) : Prop :=
  last_video_timestamp s = last_timestamp 9 0 (written s)
  /\ last_audio_timestamp s = last_timestamp 8 (-1) (written s)
  /\ last_packet_size s = last_size (written s).

(** An audio or a video packet. *)
Definition media (p : FLVpacket) : Prop := type p = 8 \/ type p = 9.

(** The packets written are [pre] followed by audio and video packets. *)
Definition media_after (pre : list FLVpacket) (s : state) : Prop :=
  exists new, written s = pre ++ new /\ Forall media new.

(** What holds of the state throughout a run on an output device of size
    [lim] that began by writing [pre]: the device is the same; the counters
    agree with the packets written, which are [pre] and then audio and video
    packets; only such packets wait in the buffer; the cached sequence
    header is a video packet. *)
Definition Run (lim : option nat) (pre : list FLVpacket) (s : state) : Prop :=
  limit (outfile s) = lim
  /\ counters_match s
  /\ media_after pre s
  /\ Forall media (pktarray s)
  /\ (forall sh, seq_header_pkt s = Some sh -> type sh = 9).

(** What holds when a run is ended by [exit]: the status is 1, the output
    device is bounded, and the counters agree with the packets written. *)
Definition Stopped (lim : option nat) (code : Z) (s : state) : Prop :=
  code = 1 /\ lim <> None /\ counters_match s.

(** The packets a run has written before it turns to its input: none with
    the option -n, and otherwise the placeholder metadata packet. *)
Definition preamble (be no_meta : bool) : list FLVpacket :=
  if no_meta then [] else [copy_packet (fst (placeholder be))].

End Behaviour.

(* ================================================================= *)
(** ** Inputs used as examples of the further properties *)

Module Cases.
Import DataConv Stdio FlvJoinH Metadata Machine FlvJoin Spec Behaviour.

(** Metadata as a run holds it before finalization: the values of a
    320x240 clip at 25 frames per second with stereo sound, and the offsets
    of the placeholder packet. *)
Definition clip_meta : FLVmetadata :=
  let o := snd (placeholder false) in
  mkMeta 0 (Double.of_Z 320) (Double.of_Z 240) (Double.of_Z 25) (Double.of_Z 2)
         (Double.of_Z 22050) (Double.of_Z 16) 1 (Double.of_Z 2) 0
         (ofs_duration o) (ofs_width o) (ofs_height o) (ofs_framerate o)
         (ofs_videocodecid o) (ofs_audiosamplerate o) (ofs_audiosamplesize o)
         (ofs_stereo o) (ofs_audiocodecid o) (ofs_filesize o).

End Cases.

(* ================================================================= *)
(** * Properties *)

(** ** The primitive codecs (data_conv.c) *)

Section DataConvFacts.
Import DataConv.

Ltac unfold_codecs :=
  cbv [conv_double conv_ui32 conv_ui24 conv_ui16
       format_double format_ui32 format_ui24 format_ui16
       host_store host_load bytes_at le_bytes le_value
       rev app map seq nth].

Ltac solve_codec :=
  unfold_codecs; Z.to_euclidean_division_equations; lia.

Lemma ui16_roundtrip (be : bool) (x : Z) :
  0 <= x < 2 ^ 16 -> conv_ui16 be (format_ui16 be x) = x.
Proof. intros H; destruct be; solve_codec. Qed.

Lemma ui32_roundtrip (be : bool) (x : Z) :
  0 <= x < 2 ^ 32 -> conv_ui32 be (format_ui32 be x) = x.
Proof. intros H; destruct be; solve_codec. Qed.

Lemma ui24_ext_roundtrip (be : bool) (x : Z) :
  0 <= x < 2 ^ 32 ->
  conv_ui24 be (format_ui24 be x) (nth 3 (format_ui24 be x) 0) = x.
Proof. intros H; destruct be; solve_codec. Qed.

Lemma ui24_roundtrip (be : bool) (x : Z) :
  0 <= x < 2 ^ 24 -> conv_ui24 be (format_ui24 be x) 0 = x.
Proof. intros H; destruct be; solve_codec. Qed.

Lemma double_roundtrip (be : bool) (x : double) :
  0 <= x < 2 ^ 64 -> conv_double be (format_double be x) = x.
Proof. intros H; destruct be; solve_codec. Qed.

End DataConvFacts.

(** ** Streams *)

Section StdioFacts.
Import Stdio Spec.

Lemma fwrite_unbounded (bs : list Z) (f : FILE) :
  limit f = None -> fst (fwrite bs f) = length bs.
Proof. intros H. unfold fwrite, room. rewrite H. reflexivity. Qed.

Lemma fwrite_count (bs : list Z) (f : FILE) :
  (fst (fwrite bs f) <= length bs)%nat.
Proof.
  unfold fwrite, room. cbn [fst]. destruct (limit f); lia.
Qed.

Lemma fwrite_limit (bs : list Z) (f : FILE) :
  limit (snd (fwrite bs f)) = limit f.
Proof. reflexivity. Qed.

Lemma fwrite_at_end (bs : list Z) (f : FILE) :
  at_end f ->
  contents (snd (fwrite bs f)) = contents f ++ firstn (fst (fwrite bs f)) bs
  /\ at_end (snd (fwrite bs f)).
Proof.
  unfold at_end. intros E. unfold fwrite. cbn [fst snd contents fpos].
  rewrite E, Nat.sub_diag. cbn [repeat]. rewrite app_nil_r.
  rewrite firstn_all.
  rewrite skipn_all2 by lia. rewrite app_nil_r.
  split; [reflexivity|].
  rewrite length_app, length_firstn.
  pose proof (fwrite_count bs f) as C. unfold fwrite in C. cbn [fst] in C.
  lia.
Qed.

Lemma fwrite_within_limit (bs : list Z) (f : FILE) :
  at_end f -> within_limit f -> within_limit (snd (fwrite bs f)).
Proof.
  intros E W. destruct (fwrite_at_end bs f E) as [C _].
  unfold within_limit in *. rewrite fwrite_limit.
  destruct (limit f) as [l|] eqn:L; [|exact I].
  rewrite C, length_app, length_firstn.
  unfold fwrite, room. cbn [fst]. rewrite L. unfold at_end in E. lia.
Qed.

(** A write that stays inside the stream replaces the bytes it covers. *)
Lemma fwrite_inside (bs : list Z) (f : FILE) :
  (fpos f + length bs <= length (contents f))%nat -> within_limit f ->
  fwrite bs f =
  (length bs, mkFILE (patch (fpos f) bs (contents f))
                     (fpos f + length bs) (eof f) (limit f)).
Proof.
  intros I W. unfold fwrite, patch.
  assert (K : room f (length bs) = length bs).
  { unfold room. unfold within_limit in W. destruct (limit f); lia. }
  rewrite K.
  replace (fpos f - length (contents f))%nat with 0%nat by lia.
  cbn [repeat]. rewrite app_nil_r, firstn_all. reflexivity.
Qed.

Lemma fread_spec (n : Z) (f : FILE) :
  contents (snd (fread n f)) = contents f
  /\ fpos (snd (fread n f)) = (fpos f + length (fst (fread n f)))%nat
  /\ (length (fst (fread n f)) <= remaining f)%nat.
Proof.
  unfold fread, remaining. cbn [fst snd contents fpos].
  repeat split. rewrite length_firstn, length_skipn. lia.
Qed.

Lemma put_chunks_at_end (cs : list (list Z)) (f : FILE) :
  at_end f ->
  at_end (fst (put_chunks cs f))
  /\ limit (fst (put_chunks cs f)) = limit f
  /\ exists bs, contents (fst (put_chunks cs f)) = contents f ++ bs.
Proof.
  revert f. induction cs as [|c cs IH]; intros f E; cbn [put_chunks].
  - cbn. repeat split; auto. exists []. now rewrite app_nil_r.
  - destruct (fwrite c f) as [k f'] eqn:W.
    pose proof (fwrite_at_end c f E) as [C E']. rewrite W in C, E'. cbn [fst snd] in C, E'.
    assert (L : limit f' = limit f) by (pose proof (fwrite_limit c f) as L; now rewrite W in L).
    destruct (k =? length c)%nat.
    + destruct (IH f' E') as (A & B & bs & D). repeat split; auto.
      * congruence.
      * exists (firstn k c ++ bs). rewrite D, C. now rewrite app_assoc.
    + cbn [fst]. repeat split; auto. exists (firstn k c). exact C.
Qed.

Lemma put_chunks_true (cs : list (list Z)) (f f' : FILE) :
  at_end f -> put_chunks cs f = (f', true) ->
  contents f' = contents f ++ concat cs.
Proof.
  revert f. induction cs as [|c cs IH]; intros f E H; cbn [put_chunks concat] in *.
  - inversion H. now rewrite app_nil_r.
  - destruct (fwrite c f) as [k f1] eqn:W.
    pose proof (fwrite_at_end c f E) as [C E1]. rewrite W in C, E1. cbn [fst snd] in C, E1.
    destruct (Nat.eqb_spec k (length c)) as [K|K]; [|discriminate].
    rewrite (IH f1 E1 H), C. subst k. rewrite firstn_all, app_assoc. reflexivity.
Qed.

Lemma put_chunks_within_limit (cs : list (list Z)) (f : FILE) :
  at_end f -> within_limit f -> within_limit (fst (put_chunks cs f)).
Proof.
  revert f. induction cs as [|c cs IH]; intros f E W; cbn [put_chunks]; auto.
  destruct (fwrite c f) as [k f'] eqn:F.
  pose proof (fwrite_at_end c f E) as [_ E'].
  pose proof (fwrite_within_limit c f E W) as W'.
  rewrite F in E', W'. cbn [snd] in E', W'.
  destruct (k =? length c)%nat; auto.
Qed.

Lemma put_chunks_unbounded (cs : list (list Z)) (f : FILE) :
  at_end f -> limit f = None ->
  put_chunks cs f =
  (mkFILE (contents f ++ concat cs) (fpos f + length (concat cs)) (eof f) None, true).
Proof.
  revert f. induction cs as [|c cs IH]; intros f E L; cbn [put_chunks concat].
  - rewrite app_nil_r. cbn. rewrite Nat.add_0_r. destruct f; cbn in *. now subst.
  - destruct (fwrite c f) as [k f'] eqn:W.
    pose proof (fwrite_at_end c f E) as [C E'].
    pose proof (fwrite_unbounded c f L) as K.
    rewrite W in C, E', K. cbn [fst snd] in C, E', K. subst k.
    rewrite Nat.eqb_refl.
    assert (L' : limit f' = None) by (pose proof (fwrite_limit c f) as L'; rewrite W in L'; cbn in L'; congruence).
    rewrite (IH f' E' L'). rewrite C, firstn_all, <- app_assoc.
    assert (P : fpos f' = (fpos f + length c)%nat).
    { unfold fwrite in W. inversion W. cbn. unfold room. now rewrite L. }
    assert (Ef : eof f' = eof f) by (unfold fwrite in W; inversion W; reflexivity).
    rewrite P, Ef, length_app. f_equal. f_equal. lia.
Qed.

(** *** Writing over bytes of the stream *)

Lemma patch_length (ofs : nat) (bs l : list Z) :
  (ofs + length bs <= length l)%nat -> length (patch ofs bs l) = length l.
Proof.
  intros H. unfold patch. rewrite !length_app, length_firstn, length_skipn. lia.
Qed.

Lemma slice_patch_same (ofs : nat) (bs l : list Z) :
  (ofs + length bs <= length l)%nat -> slice ofs (length bs) (patch ofs bs l) = bs.
Proof.
  intros H. unfold slice, patch.
  rewrite skipn_app, length_firstn.
  replace (ofs - Nat.min ofs (length l))%nat with 0%nat by lia.
  rewrite skipn_all2 by (rewrite length_firstn; lia).
  cbn [app skipn]. rewrite firstn_app, Nat.sub_diag. cbn [firstn].
  rewrite app_nil_r. apply firstn_all.
Qed.

Lemma slice_patch_before (o n ofs : nat) (bs l : list Z) :
  (o + n <= ofs)%nat -> (ofs + length bs <= length l)%nat ->
  slice o n (patch ofs bs l) = slice o n l.
Proof.
  intros H1 H2. unfold slice, patch.
  rewrite skipn_app, length_firstn.
  replace (o - Nat.min ofs (length l))%nat with 0%nat by lia.
  cbn [skipn]. rewrite firstn_app, length_skipn, length_firstn.
  replace (n - (Nat.min ofs (length l) - o))%nat with 0%nat by lia.
  cbn [firstn]. rewrite app_nil_r.
  rewrite skipn_firstn_comm, firstn_firstn.
  f_equal. lia.
Qed.


Lemma slice_app_l (o n : nat) (l r : list Z) :
  (o + n <= length l)%nat -> slice o n (l ++ r) = slice o n l.
Proof.
  intros H. unfold slice. rewrite skipn_app.
  replace (o - length l)%nat with 0%nat by lia. cbn [skipn].
  rewrite firstn_app, length_skipn.
  replace (n - (length l - o))%nat with 0%nat by lia.
  cbn [firstn]. apply app_nil_r.
Qed.

Lemma patch_patch (ofs : nat) (a : Z) (bs l : list Z) :
  (ofs + 1 + length bs <= length l)%nat ->
  patch (ofs + 1) bs (patch ofs [a] l) = patch ofs (a :: bs) l.
Proof.
  intros H. unfold patch. cbn [length app].
  rewrite firstn_app, length_firstn.
  replace (ofs + 1 - Nat.min ofs (length l))%nat with 1%nat by lia.
  rewrite firstn_all2 by (rewrite length_firstn; lia).
  cbn [firstn app]. rewrite <- app_assoc. cbn [app]. f_equal. f_equal. f_equal.
  rewrite skipn_app, length_firstn.
  rewrite skipn_all2 by (rewrite length_firstn; lia). cbn [app].
  replace (ofs + 1 + length bs - Nat.min ofs (length l))%nat with (S (length bs)) by lia.
  cbn [skipn]. rewrite skipn_skipn. f_equal. lia.
Qed.

End StdioFacts.

(** ** The outcome monad *)

Section MachineFacts.
Import Stdio FlvJoinH Metadata Machine Spec.
Open Scope flv_scope.

Lemma bind_ret_r {A : Type} (m : M A) (s : state) :
  (x <- m ;; ret x) s = m s.
Proof. unfold bind, ret. destruct (m s); reflexivity. Qed.

Lemma bind_gets {A B : Type} (f : state -> A) (k : A -> M B) (s : state) :
  (x <- gets f ;; k x) s = k (f s) s.
Proof. reflexivity. Qed.

Lemma bind_ret {A B : Type} (a : A) (k : A -> M B) (s : state) :
  (x <- ret a ;; k x) s = k a s.
Proof. reflexivity. Qed.

Lemma bind_modify {B : Type} (f : state -> state) (k : unit -> M B) (s : state) :
  (x <- modify f ;; k x) s = k tt (f s).
Proof. reflexivity. Qed.

Lemma bind_ok {A B : Type} (m : M A) (k : A -> M B) (s s' : state) (a : A) :
  m s = Ok a s' -> (x <- m ;; k x) s = k a s'.
Proof. intros H. unfold bind. rewrite H. reflexivity. Qed.

Lemma post_weaken {A : Type} (R R' : A -> state -> Prop) (Q Q' : state -> Prop)
    (o : outcome A) :
  post R Q o -> (forall a s, R a s -> R' a s) -> (forall s, Q s -> Q' s) ->
  post R' Q' o.
Proof. destruct o; cbn; auto. Qed.

Lemma triple_ret {A : Type} (P : state -> Prop) (Q : state -> Prop) (a : A) :
  triple P (ret a) (fun _ s => P s) Q.
Proof. intros s H. exact H. Qed.

Lemma triple_bind {A B : Type} (P : state -> Prop) (m : M A)
    (R : A -> state -> Prop) (k : A -> M B) (R' : B -> state -> Prop)
    (Q : state -> Prop) :
  triple P m R Q -> (forall a, triple (R a) (k a) R' Q) ->
  triple P (x <- m ;; k x) R' Q.
Proof.
  intros Hm Hk s Hs. specialize (Hm s Hs). unfold bind.
  destruct (m s) as [a s'| | |]; cbn in *; auto.
  apply (Hk a s' Hm).
Qed.

Lemma triple_gets {A : Type} (P : state -> Prop) (Q : state -> Prop)
    (f : state -> A) :
  triple P (gets f) (fun a s => P s /\ a = f s) Q.
Proof. intros s H. cbn. auto. Qed.

Lemma triple_modify (P P' : state -> Prop) (Q : state -> Prop)
    (f : state -> state) :
  (forall s, P s -> P' (f s)) -> triple P (modify f) (fun _ s => P' s) Q.
Proof. intros H s Hs. cbn. auto. Qed.

Lemma triple_undef {A : Type} (P : state -> Prop) (R : A -> state -> Prop)
    (Q : state -> Prop) :
  triple P (@undef A) R Q.
Proof. intros s _. exact I. Qed.

Lemma triple_weaken {A : Type} (P P' : state -> Prop) (m : M A)
    (R R' : A -> state -> Prop) (Q Q' : state -> Prop) :
  triple P m R Q -> (forall s, P' s -> P s) ->
  (forall a s, R a s -> R' a s) -> (forall s, Q s -> Q' s) ->
  triple P' m R' Q'.
Proof.
  intros H HP HR HQ s Hs. eapply post_weaken; eauto.
Qed.

Lemma keeps_ret {A : Type} (J Q : state -> Prop) (V : A -> Prop) (a : A) :
  V a -> keeps J Q V (ret a).
Proof. intros Ha s H. cbn. auto. Qed.

Lemma keeps_bind {A B : Type} (J Q : state -> Prop) (V : A -> Prop)
    (W : B -> Prop) (m : M A) (k : A -> M B) :
  keeps J Q V m -> (forall a, V a -> keeps J Q W (k a)) ->
  keeps J Q W (x <- m ;; k x).
Proof.
  intros Hm Hk s Hs. specialize (Hm s Hs). unfold bind.
  destruct (m s) as [a s'| | |]; cbn in *; auto.
  destruct Hm as [Hs' Ha]. apply (Hk a Ha s' Hs').
Qed.

Lemma keeps_gets {A : Type} (J Q : state -> Prop) (f : state -> A) :
  keeps J Q (fun _ => True) (gets f).
Proof. intros s H. cbn. auto. Qed.

Lemma keeps_modify (J Q : state -> Prop) (f : state -> state) :
  (forall s, J s -> J (f s)) -> keeps J Q (fun _ => True) (modify f).
Proof. intros H s Hs. cbn. auto. Qed.

Lemma keeps_undef {A : Type} (J Q : state -> Prop) (V : A -> Prop) :
  keeps J Q V (@undef A).
Proof. intros s _. exact I. Qed.

Lemma keeps_weaken {A : Type} (J Q : state -> Prop) (V W : A -> Prop) (m : M A) :
  keeps J Q V m -> (forall a, V a -> W a) -> keeps J Q W m.
Proof.
  intros H HV s Hs. specialize (H s Hs).
  destruct (m s); cbn in *; auto. destruct H; auto.
Qed.

End MachineFacts.

(** ** The remuxer: [write_output] and [write_packet] *)

Section RemuxerFacts.
Import DataConv Stdio FlvJoinH Metadata Machine FlvJoin Spec.
Open Scope flv_scope.
Variable be : bool.

Lemma write_output_eq (buffer : list Z) (bytes : Z) (s : state) :
  bytes <= Z.of_nat (length buffer) ->
  write_output buffer bytes s =
  (if (fst (fwrite (firstn (Z.to_nat bytes) buffer) (outfile s))
       =? length (firstn (Z.to_nat bytes) buffer))%nat
   then Ok tt else Exit 1)
    (set_outfile (snd (fwrite (firstn (Z.to_nat bytes) buffer) (outfile s))) s).
Proof.
  intros H. unfold write_output.
  destruct (Z.ltb_spec (Z.of_nat (length buffer)) bytes); [lia|].
  destruct (fwrite _ _) as [k f]. cbn [fst snd].
  destruct (k =? _)%nat; reflexivity.
Qed.

Lemma format_ui24_length (n : Z) : length (format_ui24 be n) = 4%nat.
Proof. destruct be; reflexivity. Qed.

Lemma format_ui32_length (n : Z) : length (format_ui32 be n) = 4%nat.
Proof. destruct be; reflexivity. Qed.

Lemma write_packet_eq (p : FLVpacket) (off : Z) (s : state) :
  datasize p <= Z.of_nat (length (data p)) ->
  write_packet be p off s =
  if overlapping (shifted off p) s then Ok (shifted off p) s
  else
    let (f, ok) := put_chunks (tag_chunks be (shifted off p)) (outfile s) in
    if ok then Ok (shifted off p) (note_written (shifted off p) (set_outfile f s))
    else Exit 1 (set_outfile f s).
Proof.
  unfold wf_packet. intros W. unfold write_packet, overlapping, shifted.
  set (q := set_timestamp ((timestamp p + off) mod 2 ^ 32) p).
  unfold bind at 1. unfold gets.
  destruct ((type q =? 8) && (timestamp q <=? last_audio_timestamp s)); [reflexivity|].
  unfold tag_chunks, put_chunks.
  assert (D : datasize q <= Z.of_nat (length (data q))) by (subst q; cbn; lia).
  unfold bind.
  rewrite write_output_eq by (cbn; lia).
  change (firstn (Z.to_nat 1) [type q]) with [type q].
  destruct (fwrite [type q] (outfile s)) as [k1 f1]. cbn [fst snd].
  destruct (k1 =? length [type q])%nat; [|reflexivity].
  rewrite write_output_eq by (rewrite format_ui24_length; lia).
  cbn [outfile set_outfile]. change (Z.to_nat 3) with 3%nat.
  destruct (fwrite (firstn 3 (format_ui24 be (datasize q))) f1) as [k2 f2]. cbn [fst snd].
  destruct (k2 =? _)%nat; [|reflexivity].
  rewrite write_output_eq by (rewrite format_ui24_length; lia).
  cbn [outfile set_outfile].
  rewrite (firstn_all2 (n := Z.to_nat 4)) by (rewrite format_ui24_length; cbn; lia).
  destruct (fwrite (format_ui24 be (timestamp q)) f2) as [k3 f3]. cbn [fst snd].
  destruct (k3 =? _)%nat; [|reflexivity].
  rewrite write_output_eq by (rewrite format_ui24_length; lia).
  cbn [outfile set_outfile]. change (Z.to_nat 3) with 3%nat.
  destruct (fwrite (firstn 3 (format_ui24 be (streamid q))) f3) as [k4 f4]. cbn [fst snd].
  destruct (k4 =? _)%nat; [|reflexivity].
  rewrite write_output_eq by (cbn [outfile set_outfile]; exact D).
  cbn [outfile set_outfile].
  destruct (fwrite (firstn (Z.to_nat (datasize q)) (data q)) f4) as [k5 f5]. cbn [fst snd].
  destruct (k5 =? _)%nat; [|reflexivity].
  rewrite write_output_eq by (rewrite format_ui32_length; lia).
  cbn [outfile set_outfile].
  rewrite (firstn_all2 (n := Z.to_nat 4)) by (rewrite format_ui32_length; cbn; lia).
  destruct (fwrite (format_ui32 be (backptr q)) f5) as [k6 f6]. cbn [fst snd].
  destruct (k6 =? _)%nat; reflexivity.
Qed.

(** Every way [write_packet] can end. *)
Lemma write_packet_cases (p : FLVpacket) (off : Z) (s : state) :
  match write_packet be p off s with
  | Ok r s' =>
      r = shifted off p /\
      ((overlapping (shifted off p) s = true /\ s' = s) \/
       (overlapping (shifted off p) s = false /\
        exists f, put_chunks (tag_chunks be (shifted off p)) (outfile s) = (f, true)
                  /\ s' = note_written (shifted off p) (set_outfile f s)))
  | Exit c s' =>
      c = 1 /\ overlapping (shifted off p) s = false /\ exists f, s' = set_outfile f s
  | Undef => True
  | Timeout => False
  end.
Proof.
  destruct (Z.leb_spec (datasize p) (Z.of_nat (length (data p)))) as [W|W].
  - rewrite write_packet_eq by exact W.
    destruct (overlapping (shifted off p) s) eqn:O; [auto|].
    destruct (put_chunks _ _) as [f [|]] eqn:C.
    + split; [reflexivity|]. right. split; [reflexivity|].
      exists f. split; reflexivity.
    + split; [reflexivity|]. split; [reflexivity|]. exists f. reflexivity.
  - unfold write_packet, overlapping, shifted.
    set (q := set_timestamp ((timestamp p + off) mod 2 ^ 32) p).
    unfold bind at 1. unfold gets.
    destruct ((type q =? 8) && (timestamp q <=? last_audio_timestamp s)) eqn:O.
    { cbv beta iota. split; [reflexivity|]. left. split; reflexivity. }
    unfold bind.
    rewrite write_output_eq by (cbn; lia).
    destruct (fst (fwrite _ (outfile s)) =? _)%nat; cbv beta iota;
      [|split; [reflexivity|split; [reflexivity|eexists; reflexivity]]].
    rewrite write_output_eq by (rewrite format_ui24_length; lia).
    destruct (fst (fwrite _ _) =? _)%nat; cbv beta iota;
      [|split; [reflexivity|split; [reflexivity|eexists; reflexivity]]].
    rewrite write_output_eq by (rewrite format_ui24_length; lia).
    destruct (fst (fwrite _ _) =? _)%nat; cbv beta iota;
      [|split; [reflexivity|split; [reflexivity|eexists; reflexivity]]].
    rewrite write_output_eq by (rewrite format_ui24_length; lia).
    destruct (fst (fwrite _ _) =? _)%nat; cbv beta iota;
      [|split; [reflexivity|split; [reflexivity|eexists; reflexivity]]].
    unfold write_output at 1.
    assert (D : (Z.of_nat (length (data q)) <? datasize q) = true)
      by (apply Z.ltb_lt; subst q; cbn; lia).
    rewrite D. exact I.
Qed.

(** *** When no write fails *)

Lemma put_chunks_ok (cs : list (list Z)) (f : FILE) :
  limit f = None ->
  snd (put_chunks cs f) = true /\ limit (fst (put_chunks cs f)) = None.
Proof.
  revert f. induction cs as [|c cs IH]; intros f L; cbn [put_chunks].
  - split; [reflexivity|exact L].
  - pose proof (fwrite_unbounded c f L) as K.
    pose proof (fwrite_limit c f) as L'.
    destruct (fwrite c f) as [k f']. cbn [fst snd] in *. subst k.
    rewrite Nat.eqb_refl. apply IH. congruence.
Qed.

Lemma write_packet_ok (p : FLVpacket) (off : Z) (s : state) :
  limit (outfile s) = None -> wf_packet p ->
  write_packet be p off s = Ok (shifted off p) (remux be off p s).
Proof.
  intros L W. rewrite write_packet_eq by exact W. unfold remux.
  destruct (overlapping (shifted off p) s); [reflexivity|].
  pose proof (put_chunks_ok (tag_chunks be (shifted off p)) (outfile s) L) as [K _].
  destruct (put_chunks _ _) as [f ok]. cbn [fst snd] in *. subst ok. reflexivity.
Qed.

Lemma remux_frame (p : FLVpacket) (off : Z) (s : state) :
  limit (outfile s) = None ->
  limit (outfile (remux be off p s)) = None
  /\ seq_header_pkt (remux be off p s) = seq_header_pkt s
  /\ pktarray (remux be off p s) = pktarray s
  /\ first_time (remux be off p s) = first_time s
  /\ meta (remux be off p s) = meta s.
Proof.
  intros L. unfold remux. destruct (overlapping _ _); [auto|].
  cbn [outfile seq_header_pkt pktarray first_time meta note_written set_outfile].
  repeat split. apply put_chunks_ok. exact L.
Qed.

Lemma flush_loop_ok (entries : list FLVpacket) (off : Z) :
  forall s,
    limit (outfile s) = None -> Forall wf_packet entries ->
    (forall sh, seq_header_pkt s = Some sh -> wf_packet sh) ->
    flush_loop be entries off s = Ok tt (flush_pure be off entries s).
Proof.
  induction entries as [|e rest IH]; intros s L F Sq; [reflexivity|].
  inversion F as [|? ? We Wr]; subst.
  cbn [flush_loop flush_pure]. unfold bind at 1. unfold gets.
  destruct (seq_header_pkt s) as [sh|] eqn:Q.
  - destruct (type e =? 9).
    + unfold bind at 1. unfold bind at 1.
      rewrite write_packet_ok; [|exact L|exact (Sq sh eq_refl)].
      unfold modify. unfold bind at 1.
      pose proof (remux_frame (set_timestamp (timestamp e) sh) off s L) as (L1 & _).
      set (s1 := set_seq_header_pkt None _).
      rewrite write_packet_ok; [|exact L1|exact We].
      pose proof (remux_frame e off s1 L1) as (L2 & Q2 & _).
      apply IH; [exact L2|exact Wr|].
      intros sh2 E2. rewrite Q2 in E2. discriminate.
    + unfold bind at 1. unfold ret at 1. unfold bind at 1.
      rewrite write_packet_ok; [|exact L|exact We].
      pose proof (remux_frame e off s L) as (L2 & Q2 & _).
      apply IH; [exact L2|exact Wr|].
      intros sh2 E2. rewrite Q2, Q in E2. apply Sq. exact E2.
  - unfold bind at 1. unfold ret at 1. unfold bind at 1.
    rewrite write_packet_ok; [|exact L|exact We].
    pose proof (remux_frame e off s L) as (L2 & Q2 & _).
    apply IH; [exact L2|exact Wr|].
    intros sh2 E2. rewrite Q2, Q in E2. discriminate.
Qed.

Lemma flush_pure_app (off : Z) (a b : list FLVpacket) :
  forall s, flush_pure be off (a ++ b) s = flush_pure be off b (flush_pure be off a s).
Proof.
  induction a as [|e a IH]; intros s; [reflexivity|].
  cbn [app flush_pure]. apply IH.
Qed.

Lemma remux_other (p : FLVpacket) (off : Z) (s : state) :
  first_time (remux be off p s) = first_time s
  /\ pktarray (remux be off p s) = pktarray s
  /\ seq_header_pkt (remux be off p s) = seq_header_pkt s
  /\ meta (remux be off p s) = meta s.
Proof. unfold remux. destruct (overlapping _ _); repeat split. Qed.

Lemma flush_pure_other (off : Z) (entries : list FLVpacket) :
  forall s, first_time (flush_pure be off entries s) = first_time s
            /\ pktarray (flush_pure be off entries s) = pktarray s
            /\ meta (flush_pure be off entries s) = meta s.
Proof.
  induction entries as [|e rest IH]; intros s; [repeat split|].
  cbn [flush_pure].
  destruct (IH (remux be off e
                  match seq_header_pkt s with
                  | Some sh =>
                      if type e =? 9
                      then set_seq_header_pkt None
                             (remux be off (set_timestamp (timestamp e) sh) s)
                      else s
                  | None => s
                  end)) as (A & B & C).
  rewrite A, B, C.
  destruct (remux_other e off
              match seq_header_pkt s with
              | Some sh =>
                  if type e =? 9
                  then set_seq_header_pkt None
                         (remux be off (set_timestamp (timestamp e) sh) s)
                  else s
              | None => s
              end) as (A1 & B1 & _ & C1).
  rewrite A1, B1, C1.
  destruct (seq_header_pkt s) as [sh|]; [|repeat split].
  destruct (type e =? 9); [|repeat split].
  destruct (remux_other (set_timestamp (timestamp e) sh) off s) as (A2 & B2 & _ & C2).
  cbn [first_time pktarray meta set_seq_header_pkt]. auto.
Qed.

(** A video packet is never dropped: it is the last packet written and its
    timestamp the last video timestamp. *)
Lemma remux_video (p : FLVpacket) (off : Z) (s : state) :
  type p = 9 ->
  last_video_timestamp (remux be off p s) = timestamp (shifted off p)
  /\ written (remux be off p s) = written s ++ [copy_packet (shifted off p)]
  /\ last_audio_timestamp (remux be off p s) = last_audio_timestamp s.
Proof.
  intros T. unfold remux, overlapping.
  change (type (shifted off p)) with (type p). rewrite T.
  change (9 =? 8) with false. cbv beta iota delta [andb].
  cbn [last_video_timestamp last_audio_timestamp written note_written set_outfile].
  change (type (shifted off p)) with (type p). rewrite T. repeat split.
Qed.

Lemma copy_packet_shifted (off : Z) (p : FLVpacket) :
  copy_packet (shifted off (copy_packet p)) = copy_packet (shifted off p).
Proof.
  unfold copy_packet, shifted. cbn. rewrite firstn_firstn, Nat.min_id. reflexivity.
Qed.

(** Flushing audio packets: the sequence header stays cached, the packets
    that do not overlap are written in arrival order. *)
Lemma flush_pure_audio (off : Z) (entries : list FLVpacket) :
  forall s, Forall (fun e => type e = 8) entries ->
    seq_header_pkt (flush_pure be off entries s) = seq_header_pkt s
    /\ written (flush_pure be off entries s) =
       written s ++ survivors off (last_audio_timestamp s) entries
    /\ last_video_timestamp (flush_pure be off entries s) = last_video_timestamp s.
Proof.
  induction entries as [|e rest IH]; intros s F.
  - cbn. rewrite app_nil_r. auto.
  - inversion F as [|? ? T Fr]; subst. cbn [flush_pure survivors].
    assert (S1 : match seq_header_pkt s with
                 | Some sh =>
                     if type e =? 9
                     then set_seq_header_pkt None
                            (remux be off (set_timestamp (timestamp e) sh) s)
                     else s
                 | None => s
                 end = s).
    { destruct (seq_header_pkt s); [|reflexivity]. rewrite T. reflexivity. }
    rewrite S1. unfold remux, overlapping.
    change (type (shifted off e)) with (type e). rewrite T.
    change (8 =? 8) with true. cbn [andb].
    destruct (timestamp (shifted off e) <=? last_audio_timestamp s).
    + apply IH. exact Fr.
    + destruct (IH (note_written (shifted off e)
                      (set_outfile
                         (fst (put_chunks (tag_chunks be (shifted off e)) (outfile s))) s))
                   Fr) as (A & B & C).
      rewrite A, B, C.
      cbn [seq_header_pkt written last_video_timestamp last_audio_timestamp
           note_written set_outfile].
      change (type (shifted off e)) with (type e). rewrite T.
      change (8 =? 8) with true. change (8 =? 9) with false. cbv iota.
      rewrite <- app_assoc. repeat split.
Qed.

Lemma copy_packet_wf (p : FLVpacket) : wf_packet p -> wf_packet (copy_packet p).
Proof.
  unfold wf_packet, copy_packet. cbn [datasize data set_data].
  rewrite length_firstn. lia.
Qed.

(** [buffer_packet] with [flush] set, when no write fails. *)
Lemma buffer_packet_flush_ok (p : FLVpacket) (off : Z) (s : state) :
  ready s -> wf_packet p ->
  buffer_packet be p off true s =
  Ok tt (set_pktarray []
           (flush_pure be off (pktarray s ++ [copy_packet p])
              (set_pktarray (pktarray s ++ [copy_packet p]) s))).
Proof.
  intros (L & F & Sq) W. unfold buffer_packet.
  unfold wf_packet in W.
  destruct (Z.ltb_spec (Z.of_nat (length (data p))) (datasize p)); [lia|].
  unfold bind at 1. unfold modify at 1. unfold bind at 1. unfold gets.
  cbn [pktarray set_pktarray]. unfold bind at 1.
  rewrite flush_loop_ok; [reflexivity|exact L| |exact Sq].
  apply Forall_app. split; [exact F|]. constructor; [|constructor].
  apply copy_packet_wf. exact W.
Qed.

Lemma buffer_packet_keep_ok (p : FLVpacket) (off : Z) (s : state) :
  wf_packet p ->
  buffer_packet be p off false s =
  Ok tt (set_pktarray (pktarray s ++ [copy_packet p]) s).
Proof.
  intros W. unfold buffer_packet. unfold wf_packet in W.
  destruct (Z.ltb_spec (Z.of_nat (length (data p))) (datasize p)); [lia|].
  reflexivity.
Qed.

End RemuxerFacts.

(** ** The script-data decoder (metadata.c) *)

Section DecoderFacts.
Import DataConv Stdio FlvJoinH Metadata Machine Spec.
Open Scope res_scope.
Variable be : bool.

Lemma add_meta_item_offsets (name : list Z) (value : double) (m m' : FLVmetadata) :
  add_meta_item name value m = Done m' -> meta_offsets m' = meta_offsets m.
Proof.
  unfold add_meta_item. intros H.
  repeat match type of H with
         | (if ?c then _ else _) = _ => destruct c
         | match ?c with _ => _ end = _ => destruct c
         end;
    inversion H; reflexivity.
Qed.

Lemma peek_done (data : list Z) (pos n : nat) (bs : list Z) :
  peek data pos n = Done bs -> (pos + n <= length data)%nat.
Proof.
  unfold peek. destruct (Nat.leb_spec (pos + n) (length data)); [auto|discriminate].
Qed.

Lemma parse_script_string_done (data : list Z) (pos : nat) (len : Z) (keep : bool)
    (name : list Z) (pos' : nat) :
  parse_script_string data pos len keep = Done (name, pos') ->
  pos' = (pos + Z.to_nat len)%nat /\ (keep = true -> (pos' <= length data)%nat).
Proof.
  unfold parse_script_string. destruct keep.
  - destruct (peek data pos (Z.to_nat len)) eqn:P; cbn [rbind]; try discriminate.
    destruct (1024 <=? len); [discriminate|].
    intros H. inversion H. apply peek_done in P. auto.
  - intros H. inversion H. split; [reflexivity|discriminate].
Qed.

Lemma peek_fuel (data : list Z) (pos n : nat) : peek data pos n <> NoFuel.
Proof. unfold peek. destruct (_ <=? _)%nat; discriminate. Qed.

Lemma parse_script_string_fuel (data : list Z) (pos : nat) (len : Z) (keep : bool) :
  parse_script_string data pos len keep <> NoFuel.
Proof.
  unfold parse_script_string. destruct keep; [|discriminate].
  pose proof (peek_fuel data pos (Z.to_nat len)) as P.
  destruct (peek data pos (Z.to_nat len)); cbn [rbind]; try congruence.
  destruct (1024 <=? len); discriminate.
Qed.

Lemma add_meta_item_fuel (name : list Z) (value : double) (m : FLVmetadata) :
  add_meta_item name value m <> NoFuel.
Proof.
  unfold add_meta_item.
  repeat match goal with
         | |- (if ?c then _ else _) <> _ => destruct c
         | |- match ?c with _ => _ end <> _ => destruct c
         end; discriminate.
Qed.

(** The loops of the decoder end within their rounds when the function they
    call does. *)
Lemma parse_pairs_spec (pn : nat -> FLVmetadata -> res parsed) (data : list Z)
    (fuel : nat) :
  (forall pos m, (length data - pos < fuel)%nat -> decoded data pos m (pn pos m)) ->
  forall lf count n pos m,
    (length data - pos < lf)%nat -> (length data - pos < fuel)%nat ->
    decoded_to pos m (parse_pairs be pn lf data count n pos m).
Proof.
  intros Hpn. induction lf as [|lf IH]; intros count n pos m Hlf Hf; [lia|].
  cbn [parse_pairs]. destruct (count <? n); [|cbn; split; [lia|reflexivity]].
  destruct (peek data pos 2) as [l| |] eqn:P; cbn [rbind]; try exact I;
    [|now apply peek_fuel in P].
  apply peek_done in P.
  destruct (parse_script_string data (pos + 2) (conv_ui16 be l) true)
    as [[name pos2]| |] eqn:S; cbn [rbind]; try exact I;
    [|now apply parse_script_string_fuel in S].
  apply parse_script_string_done in S. destruct S as [S1 S2]. specialize (S2 eq_refl).
  assert (F2 : (length data - pos2 < fuel)%nat) by lia.
  pose proof (Hpn pos2 m F2) as H2.
  destruct (pn pos2 m) as [[[v pos3] m3]| |]; cbn [rbind]; cbn in H2; try exact I; try contradiction.
  destruct H2 as (B3 & A3 & O3).
  destruct (add_meta_item name v m3) as [m4| |] eqn:A; cbn [rbind]; try exact I;
    [|now apply add_meta_item_fuel in A].
  apply add_meta_item_offsets in A.
  assert (L3 : (length data - pos3 < lf)%nat) by lia.
  assert (F3 : (length data - pos3 < fuel)%nat) by lia.
  pose proof (IH (count + 1) n pos3 m4 L3 F3) as H4.
  destruct (parse_pairs be pn lf data (count + 1) n pos3 m4) as [[pos5 m5]| |];
    cbn in *; try exact I; try contradiction.
  destruct H4 as [A5 O5]. split; [lia|congruence].
Qed.

Lemma parse_values_spec (pn : nat -> FLVmetadata -> res parsed) (data : list Z)
    (fuel : nat) :
  (forall pos m, (length data - pos < fuel)%nat -> decoded data pos m (pn pos m)) ->
  forall lf count n value pos m,
    (length data - pos < lf)%nat -> (length data - pos < fuel)%nat ->
    match parse_values pn lf count n value pos m with
    | Done (_, pos', m') => (pos <= pos')%nat /\ meta_offsets m' = meta_offsets m
    | UB => True
    | NoFuel => False
    end.
Proof.
  intros Hpn. induction lf as [|lf IH]; intros count n value pos m Hlf Hf; [lia|].
  cbn [parse_values]. destruct (count <? n); [|split; [lia|reflexivity]].
  pose proof (Hpn pos m Hf) as H2.
  destruct (pn pos m) as [[[v pos3] m3]| |]; cbn [rbind]; cbn in H2; try exact I; try contradiction.
  destruct H2 as (B3 & A3 & O3).
  assert (L3 : (length data - pos3 < lf)%nat) by lia.
  assert (F3 : (length data - pos3 < fuel)%nat) by lia.
  pose proof (IH (count + 1) n v pos3 m3 L3 F3) as H4.
  destruct (parse_values pn lf (count + 1) n v pos3 m3) as [[[v5 pos5] m5]| |];
    cbn in *; try exact I; try contradiction.
  destruct H4 as [A5 O5]. split; [lia|congruence].
Qed.

Ltac step_peek l P :=
  match goal with
  | |- context [rbind (peek ?d ?p ?n) _] =>
      destruct (peek d p n) as [l| |] eqn:P; cbn [rbind];
      [apply peek_done in P | exact I | now apply peek_fuel in P]
  end.

Ltac step_string name pos Hs :=
  match goal with
  | |- context [rbind (parse_script_string ?d ?p ?n ?k) _] =>
      destruct (parse_script_string d p n k) as [[name pos]| |] eqn:Hs; cbn [rbind];
      [apply parse_script_string_done in Hs
      | exact I | now apply parse_script_string_fuel in Hs]
  end.

Lemma parse_script_object_spec (pn : nat -> FLVmetadata -> res parsed)
    (data : list Z) (fuel : nat) :
  (forall pos m, (length data - pos < fuel)%nat -> decoded data pos m (pn pos m)) ->
  forall pos m, (length data - pos < fuel)%nat ->
    decoded_to pos m (parse_script_object be pn data pos m).
Proof.
  intros Hpn pos m Hf. unfold parse_script_object.
  step_peek mk P0. step_peek l P1. step_string name pos2 Hs.
  destruct Hs as [S1 S2].
  assert (F2 : (length data - pos2 < fuel)%nat) by (destruct (_ =? 2); lia).
  pose proof (Hpn pos2 m F2) as H2.
  destruct (pn pos2 m) as [[[v pos3] m3]| |]; cbn [rbind]; cbn in H2; try exact I; try contradiction.
  destruct H2 as (B3 & A3 & O3).
  destruct (add_meta_item name v m3) as [m4| |] eqn:A; cbn [rbind]; try exact I;
    [|now apply add_meta_item_fuel in A].
  apply add_meta_item_offsets in A.
  step_peek e P3.
  assert (pos <= pos2)%nat by (destruct (_ =? 2); lia).
  destruct (list_eq_dec Z.eq_dec e [0; 0; 9]); cbn; (split; [lia|congruence]).
Qed.

Lemma parse_number_spec (fuel : nat) (data : list Z) :
  forall pos m, (length data - pos < fuel)%nat ->
    decoded data pos m (parse_number be fuel data pos m).
Proof.
  induction fuel as [|fuel IH]; intros pos m Hf; [lia|].
  cbn [parse_number]. step_peek t P0.
  destruct (nth 0 t 0 =? 0). { step_peek b P1. cbn. repeat split; lia. }
  destruct (nth 0 t 0 =? 1). { step_peek b P1. cbn. repeat split; lia. }
  destruct (nth 0 t 0 =? 2).
  { step_peek b P1. step_string name pos2 Hs. destruct Hs as [S1 S2].
    cbn. repeat split; lia. }
  destruct (nth 0 t 0 =? 3).
  { pose proof (parse_script_object_spec _ data fuel IH (S pos) m) as H.
    specialize (H ltac:(lia)).
    destruct (parse_script_object be (parse_number be fuel data) data (S pos) m)
      as [[pos' m']| |]; cbn [rbind]; cbn in H; try exact I; try contradiction.
    cbn. destruct H. repeat split; try lia; assumption. }
  destruct (nth 0 t 0 =? 7). { step_peek b P1. cbn. repeat split; lia. }
  destruct (nth 0 t 0 =? 8).
  { step_peek b P1.
    pose proof (parse_pairs_spec _ data fuel IH fuel 0
                  (int_of_uint (conv_ui32 be b)) (S pos + 4)%nat m) as H.
    specialize (H ltac:(lia) ltac:(lia)).
    destruct (parse_pairs be (parse_number be fuel data) fuel data 0 _ _ m)
      as [[pos' m']| |]; cbn [rbind]; cbn in H; try exact I; try contradiction.
    cbn. destruct H. repeat split; try lia; assumption. }
  destruct (nth 0 t 0 =? 10).
  { step_peek b P1.
    pose proof (parse_values_spec _ data fuel IH fuel 0
                  (int_of_uint (conv_ui32 be b)) Double.minus_one (S pos + 4)%nat m) as H.
    specialize (H ltac:(lia) ltac:(lia)).
    destruct (parse_values (parse_number be fuel data) fuel 0 _ _ _ m)
      as [[[v' pos'] m']| |]; cbn in H; try exact I; try contradiction.
    cbn. destruct H. repeat split; try lia; assumption. }
  destruct (nth 0 t 0 =? 11). { step_peek b P1. cbn. repeat split; lia. }
  destruct (nth 0 t 0 =? 12).
  { step_peek b P1. step_string name pos2 Hs. destruct Hs as [S1 S2].
    cbn. repeat split; lia. }
  cbn. repeat split; lia.
Qed.

Lemma extract_loop_spec (data : list Z) (datasize : Z) :
  forall fuel pos found m, (length data - pos < fuel)%nat ->
    match extract_loop be fuel data datasize pos found m with
    | Done (_, m') => meta_offsets m' = meta_offsets m
    | UB => True
    | NoFuel => False
    end.
Proof.
  induction fuel as [|fuel IH]; intros pos found m Hf; [lia|].
  cbn [extract_loop]. destruct (_ <=? _); [|reflexivity].
  step_peek l P0. step_string name pos2 Hs. destruct Hs as [S1 S2].
  specialize (S2 eq_refl).
  pose proof (parse_number_spec (S (length data)) data pos2 m ltac:(lia)) as H2.
  destruct (parse_number be (S (length data)) data pos2 m) as [[[v pos3] m3]| |];
    cbn [rbind]; cbn in H2; try exact I; try contradiction.
  destruct H2 as (B3 & A3 & O3).
  destruct (add_meta_item name v m3) as [m4| |] eqn:A; cbn [rbind]; try exact I;
    [|now apply add_meta_item_fuel in A].
  apply add_meta_item_offsets in A.
  pose proof (IH pos3 (found || streq name s_onMetaData) m4 ltac:(lia)) as H4.
  destruct (extract_loop be fuel data datasize pos3 _ m4) as [[f5 m5]| |];
    try exact I; try contradiction.
  congruence.
Qed.

(** [extract_metadata] always ends, and leaves the stored offsets alone. *)
Lemma extract_metadata_spec (p : FLVpacket) (m : FLVmetadata) :
  match extract_metadata be p m with
  | Done (_, m') => meta_offsets m' = meta_offsets m
  | UB => True
  | NoFuel => False
  end.
Proof.
  unfold extract_metadata. destruct (negb _); [reflexivity|].
  step_peek mk P0.
  apply extract_loop_spec. destruct (_ =? 2); lia.
Qed.

End DecoderFacts.

(** ** The metadata patcher (metadata.c) *)

Section PatcherFacts.
Import DataConv Stdio FlvJoinH Metadata Machine Spec.
Variable be : bool.

Lemma format_double_length (x : double) : length (format_double be x) = 8%nat.
Proof. destruct be; reflexivity. Qed.

Lemma put_double_at (x : double) (f : FILE) (ofs : Z) :
  (Z.to_nat ofs + 9 <= length (contents f))%nat -> within_limit f ->
  put_double be x (fseek_set f ofs) =
  put_at (Z.to_nat ofs) (0 :: format_double be x) f.
Proof.
  intros B W. unfold put_double, fputc.
  change (0 mod 256) with 0.
  rewrite (fwrite_inside [0] (fseek_set f ofs)); [|cbn; lia|exact W].
  cbn [snd]. rewrite fwrite_inside; [|cbn [contents fpos fseek_set length]|].
  - cbn [snd contents fpos eof limit fseek_set length]. unfold put_at.
    rewrite patch_patch by (rewrite format_double_length; lia).
    cbn [length]. rewrite format_double_length. f_equal. lia.
  - rewrite patch_length by (cbn; lia). rewrite format_double_length. lia.
  - unfold within_limit in *. cbn [contents limit fseek_set fpos].
    rewrite patch_length by (cbn; lia). exact W.
Qed.

Lemma put_boolean_at (v : Z) (f : FILE) (ofs : Z) :
  (Z.to_nat ofs + 2 <= length (contents f))%nat -> within_limit f ->
  put_boolean v (fseek_set f ofs) = put_at (Z.to_nat ofs) [1; v mod 256] f.
Proof.
  intros B W. unfold put_boolean, fputc.
  change (1 mod 256) with 1.
  rewrite (fwrite_inside [1] (fseek_set f ofs)); [|cbn; lia|exact W].
  cbn [snd]. rewrite fwrite_inside; [|cbn [contents fpos fseek_set length]|].
  - cbn [snd contents fpos eof limit fseek_set length]. unfold put_at.
    rewrite patch_patch by (cbn; lia).
    cbn [length]. f_equal. lia.
  - rewrite patch_length by (cbn; lia). cbn. lia.
  - unfold within_limit in *. cbn [contents limit fseek_set fpos].
    rewrite patch_length by (cbn; lia). exact W.
Qed.

Lemma put_at_length (ofs : nat) (bs : list Z) (f : FILE) :
  (ofs + length bs <= length (contents f))%nat ->
  length (contents (put_at ofs bs f)) = length (contents f).
Proof. intros H. apply patch_length. exact H. Qed.

Lemma put_at_within_limit (ofs : nat) (bs : list Z) (f : FILE) :
  (ofs + length bs <= length (contents f))%nat ->
  within_limit f -> within_limit (put_at ofs bs f).
Proof.
  intros H W. unfold within_limit in *. cbn [limit put_at contents].
  rewrite patch_length by exact H. exact W.
Qed.

(** The offsets of the placeholder packet written after the header, and
    the size of header and packet. *)
Lemma placeholder_values :
  placeholder_offsets be = [52; 68; 85; 105; 128; 154; 180; 197; 213; 232]
  /\ length (meta_prefix be) = 281%nat.
Proof. destruct be; vm_compute; split; reflexivity. Qed.



End PatcherFacts.

(** ** The join engine: what every step preserves *)

Section EngineFacts.
Import DataConv Stdio FlvJoinH Metadata Machine FlvJoin Spec.
Open Scope flv_scope.
Variables (be no_meta : bool) (frame_interval audio_bitrate : Z).
Variables (H0 P0 O0 : list Z).

Lemma increasing_snoc (l : list Z) (t : Z) :
  increasing l -> Forall (fun x => x < t) l -> increasing (l ++ [t]).
Proof.
  unfold increasing. induction l as [|a l IH]; intros S F; cbn.
  - constructor; constructor.
  - inversion S as [|? ? S' Fa]; subst. inversion F as [|? ? Hat F']; subst.
    constructor; [auto|].
    apply Forall_app. split; [assumption|]. constructor; [assumption|constructor].
Qed.

Lemma audio_timestamps_snoc (l : list FLVpacket) (q : FLVpacket) :
  audio_timestamps (l ++ [q]) =
  audio_timestamps l ++ (if type q =? 8 then [timestamp q] else []).
Proof.
  unfold audio_timestamps. rewrite filter_app, map_app. cbn [filter].
  destruct (type q =? 8); reflexivity.
Qed.

Lemma audio_ok_note_written (q : FLVpacket) (f : FILE) (s : state) :
  audio_ok s -> overlapping q s = false ->
  audio_ok (note_written q (set_outfile f s)).
Proof.
  unfold audio_ok, overlapping. intros [S B] O.
  cbn [written last_audio_timestamp note_written set_outfile].
  rewrite audio_timestamps_snoc.
  change (type (copy_packet q)) with (type q).
  change (timestamp (copy_packet q)) with (timestamp q).
  destruct (type q =? 8) eqn:T; cbn [andb] in O.
  - apply Z.leb_gt in O. split.
    + apply increasing_snoc; [assumption|].
      eapply Forall_impl; [|exact B]. cbn. intros; lia.
    + apply Forall_app. split.
      * eapply Forall_impl; [|exact B]. cbn. intros; lia.
      * constructor; [lia|constructor].
  - rewrite app_nil_r. split; assumption.
Qed.

Lemma Core_note_written (q : FLVpacket) (f : FILE) (s : state) :
  Core be H0 P0 O0 s -> overlapping q s = false ->
  put_chunks (tag_chunks be q) (outfile s) = (f, true) ->
  Core be H0 P0 O0 (note_written q (set_outfile f s)).
Proof.
  intros (A & E & W & X & [rest C] & O) Ov Pc.
  pose proof (put_chunks_at_end (tag_chunks be q) (outfile s) E) as (E' & L' & _).
  pose proof (put_chunks_within_limit (tag_chunks be q) (outfile s) E W) as W'.
  pose proof (put_chunks_true _ _ _ E Pc) as C'.
  rewrite Pc in E', L', W'. cbn [fst] in E', L', W'.
  split; [apply audio_ok_note_written; assumption|].
  cbn [outfile meta written note_written set_outfile].
  repeat split; try assumption.
  - rewrite C', X, map_app, concat_app, <- app_assoc. cbn [map concat].
    rewrite app_nil_r. f_equal. f_equal.
    unfold tag_bytes, tag_chunks, copy_packet. cbn [type datasize timestamp streamid data backptr set_data].
    rewrite firstn_firstn, Nat.min_id. reflexivity.
  - exists (rest ++ concat (tag_chunks be q)). rewrite C', C, app_assoc. reflexivity.
Qed.

(** [write_packet] keeps the invariant, whatever is known of the packets
    waiting. *)
Lemma write_packet_keeps (Pk : list FLVpacket -> Prop) (p : FLVpacket) (off : Z) :
  keeps (fun s => Core be H0 P0 O0 s /\ Pk (pktarray s)) audio_ok (fun _ => True)
        (write_packet be p off).
Proof.
  intros s [C K]. pose proof (write_packet_cases be p off s) as H.
  destruct (write_packet be p off s) as [r s'|c s'| |]; cbn; try exact I; try contradiction.
  - destruct H as [_ [[_ ->]|[Ov [f [Pc ->]]]]]; [auto|].
    split; [|exact I]. split; [apply Core_note_written; assumption|exact K].
  - destruct H as (_ & _ & f & ->). destruct C as [A _]. exact A.
Qed.

Lemma flush_loop_keeps (Pk : list FLVpacket -> Prop) (entries : list FLVpacket)
    (off : Z) :
  keeps (fun s => Core be H0 P0 O0 s /\ Pk (pktarray s)) audio_ok (fun _ => True)
        (flush_loop be entries off).
Proof.
  induction entries as [|e rest IH]; cbn [flush_loop].
  - apply keeps_ret. exact I.
  - eapply keeps_bind; [apply keeps_gets|]. intros seq _.
    eapply keeps_bind with (V := fun _ => True).
    + destruct seq as [sh|]; [|apply keeps_ret; exact I].
      destruct (type e =? 9); [|apply keeps_ret; exact I].
      eapply keeps_bind; [apply write_packet_keeps|]. intros _ _.
      apply keeps_modify. intros s H. exact H.
    + intros _ _. eapply keeps_bind; [apply write_packet_keeps|].
      intros _ _. exact IH.
Qed.

Lemma buffer_packet_keeps (p : FLVpacket) (off : Z) (flush : bool) :
  (flush = false -> type p = 8) ->
  keeps (Inv be H0 P0 O0) audio_ok (fun _ => True) (buffer_packet be p off flush).
Proof.
  intros T. unfold buffer_packet.
  destruct (_ <? _); [apply keeps_undef|].
  destruct flush.
  - intros s [C K].
    assert (H : keeps (fun s => Core be H0 P0 O0 s /\ True) audio_ok (fun _ => True)
                  (modify (fun s => set_pktarray (pktarray s ++ [copy_packet p]) s) ;;
                   entries <- gets pktarray ;;
                   flush_loop be entries off ;; modify (set_pktarray []))).
    { eapply keeps_bind; [apply keeps_modify; intros s0 J0; exact J0|]. intros _ _.
      eapply keeps_bind; [apply keeps_gets|]. intros entries _.
      eapply keeps_bind; [apply (flush_loop_keeps (fun _ => True))|]. intros _ _.
      apply keeps_modify. intros s0 J0. exact J0. }
    specialize (H s (conj C I)).
    destruct ((_ ;; _) s) as [a s'|c s'| |] eqn:E; cbn in *; try exact I; try contradiction.
    + destruct H as [[C' _] _]. split; [|exact I]. split; [exact C'|].
      (* the buffer is empty after a flush *)
      unfold bind, modify, gets in E.
      destruct (flush_loop be _ off _) as [? s1|? ?| |]; try discriminate.
      inversion E. constructor.
    + exact H.
  - eapply keeps_bind.
    { apply keeps_modify. intros s [C K]. split; [exact C|].
      unfold pending_audio in *. cbn [pktarray set_pktarray].
      apply Forall_app. split; [exact K|]. constructor; [|constructor].
      apply T. reflexivity. }
    intros _ _. apply keeps_ret. exact I.
Qed.

Lemma data_byte_keeps (J Q : state -> Prop) (p : FLVpacket) (i : nat) :
  keeps J Q (fun _ => True) (data_byte p i).
Proof.
  unfold data_byte. destruct (nth_error (data p) i);
    [apply keeps_ret; exact I|apply keeps_undef].
Qed.

Lemma Inv_frame (s s' : state) :
  written s' = written s -> last_audio_timestamp s' = last_audio_timestamp s ->
  outfile s' = outfile s -> meta_offsets (meta s') = meta_offsets (meta s) ->
  pktarray s' = pktarray s ->
  Inv be H0 P0 O0 s -> Inv be H0 P0 O0 s'.
Proof.
  intros Hw Ha Ho Hm Hp [(A & E & W & X & C & O) K].
  unfold Inv, Core, audio_ok, pending_audio in *.
  rewrite Hw, Ha, Ho, Hm, Hp. tauto.
Qed.

(** The second half of the loop body keeps the invariant and does not touch
    the input stream. *)
Lemma route_keeps (mark_in mark_out : Z) (l : locals) :
  keeps (Inv be H0 P0 O0) audio_ok (fun l' => infile l' = infile l)
        (route be no_meta frame_interval mark_in mark_out l).
Proof.
  unfold route.
  eapply keeps_bind; [apply keeps_gets|]. intros p _.
  destruct (type p =? 18).
  { intros s Hs. unfold bind, gets.
    destruct (negb (metadata_extracted s) && negb no_meta); [|cbn; auto].
    unfold lift_res.
    pose proof (extract_metadata_spec be p (meta s)) as H.
    destruct (extract_metadata be p (meta s)) as [[found m']| |];
      cbn; try exact I; try contradiction.
    split; [|reflexivity].
    eapply Inv_frame; [| | | | |exact Hs]; try reflexivity. exact H. }
  eapply keeps_bind; [apply keeps_gets|]. intros seq _.
  eapply keeps_bind with (V := fun _ => True).
  { destruct seq; [apply keeps_ret; exact I|].
    destruct (type p =? 9); [|apply keeps_ret; exact I].
    eapply keeps_bind; [apply data_byte_keeps|]. intros d0 _.
    destruct (Z.land d0 15 =? 7); [|apply keeps_ret; exact I].
    eapply keeps_bind; [apply data_byte_keeps|]. intros d1 _.
    apply keeps_ret; exact I. }
  intros is_seq _. destruct is_seq.
  { eapply keeps_bind.
    - apply keeps_modify. intros s Hs.
      eapply Inv_frame; [| | | | |exact Hs]; reflexivity.
    - intros _ _. apply keeps_ret. reflexivity. }
  destruct ((timestamp p <? mark_in) || (mark_out <=? timestamp p)
            || (negb (type p =? 8) && negb (type p =? 9))) eqn:Tr.
  { apply keeps_ret. reflexivity. }
  assert (T89 : type p = 8 \/ type p = 9).
  { apply orb_false_iff in Tr. destruct Tr as [_ Tr].
    destruct (Z.eqb_spec (type p) 8); [auto|].
    destruct (Z.eqb_spec (type p) 9); [auto|discriminate]. }
  clear Tr.
  eapply keeps_bind with (V := fun _ => True).
  { destruct (type p =? 8); [apply keeps_ret; exact I|].
    eapply keeps_bind; [apply data_byte_keeps|]. intros d0 _.
    apply keeps_ret; exact I. }
  intros key_frame _.
  set (l1 := if (first_keyframe_timestamp l =? -1) && key_frame then _ else l).
  assert (L1 : infile l1 = infile l) by (subst l1; destruct ((first_keyframe_timestamp l =? -1) && key_frame); reflexivity).
  destruct (file_start_timestamp l1 =? -999999).
  - destruct (Z.eqb_spec (type p) 9) as [T9|T9].
    + destruct key_frame; [|apply keeps_ret; exact L1].
      eapply keeps_bind; [apply keeps_gets|]. intros first _.
      eapply keeps_bind with (V := fun _ => True).
      { destruct first; [|apply keeps_ret; exact I].
        apply keeps_modify. intros s Hs.
        eapply Inv_frame; [| | | | |exact Hs]; reflexivity. }
      intros _ _. eapply keeps_bind; [apply buffer_packet_keeps; discriminate|].
      intros _ _. apply keeps_ret. exact L1.
    + eapply keeps_bind.
      * apply buffer_packet_keeps. intros _. tauto.
      * intros _ _. apply keeps_ret. exact L1.
  - eapply keeps_bind; [apply (write_packet_keeps (Forall (fun e => type e = 8)))|].
    intros p' _. eapply keeps_bind.
    + apply keeps_modify. intros s Hs.
      eapply Inv_frame; [| | | | |exact Hs]; reflexivity.
    + intros _ _. apply keeps_ret. exact L1.
Qed.

(** The first half of the loop body keeps the invariant; when the loop goes
    on, at least one byte of the input has been consumed. *)
Lemma read_tag_spec (l : locals) (s : state) :
  Inv be H0 P0 O0 s ->
  post (fun r s' => Inv be H0 P0 O0 s' /\
                    match r with
                    | None => True
                    | Some l' => (remaining (infile l') < remaining (infile l))%nat
                    end)
       audio_ok (read_tag be l s).
Proof.
  intros Hs. unfold read_tag.
  pose proof (fread_spec 11 (infile l)) as (C1 & F1 & R1).
  destruct (fread 11 (infile l)) as [hd f1]. cbn [fst snd] in *.
  destruct (Nat.eqb_spec (length hd) 0) as [E|E].
  { cbn. split; [|exact I]. eapply Inv_frame; [| | | | |exact Hs]; reflexivity. }
  set (dsize := conv_ui24 be _ 0).
  pose proof (fread_spec dsize f1) as (C2 & F2 & R2).
  destruct (fread dsize f1) as [payload f2]. cbn [fst snd] in *.
  pose proof (fread_spec 4 f2) as (C3 & F3 & R3).
  destruct (fread 4 f2) as [bp f3]. cbn [fst snd] in *.
  cbn. split.
  - eapply Inv_frame; [| | | | |exact Hs]; reflexivity.
  - unfold remaining in *. rewrite C3, C2, C1. lia.
Qed.

Lemma append_loop_keeps (mark_in mark_out : Z) (fuel : nat) :
  forall l, (remaining (infile l) < fuel)%nat ->
    keeps (Inv be H0 P0 O0) audio_ok (fun _ => True)
          (append_loop be no_meta frame_interval fuel mark_in mark_out l).
Proof.
  induction fuel as [|fuel IH]; intros l R; [lia|].
  cbn [append_loop]. destruct (feof (infile l)); [apply keeps_ret; exact I|].
  intros s Hs. unfold bind at 1.
  pose proof (read_tag_spec l s Hs) as H.
  destruct (read_tag be l s) as [[l'|] s'|c s'| |]; cbn in H; try exact H.
  destruct H as [Hs' R'].
    assert (K : keeps (Inv be H0 P0 O0) audio_ok (fun _ => True)
                  (l0 <- route be no_meta frame_interval mark_in mark_out l' ;;
                   append_loop be no_meta frame_interval fuel mark_in mark_out l0)).
    { eapply keeps_bind; [apply route_keeps|]. intros l'' E.
      apply IH. rewrite E. lia. }
    exact (K s' Hs').
Qed.

Lemma open_input_spec (bytes : list Z) (s : state) :
  Inv be H0 P0 O0 s ->
  post (fun o s' => Inv be H0 P0 O0 s' /\
                    match o with
                    | None => True
                    | Some f => (remaining f <= length bytes)%nat
                    end)
       audio_ok (open_input be bytes s).
Proof.
  intros Hs. unfold open_input.
  pose proof (fread_spec 9 (fopen_rb bytes)) as (C1 & F1 & R1).
  destruct (fread 9 (fopen_rb bytes)) as [hd f1]. cbn [fst snd] in *.
  destruct (negb (length hd =? 9)%nat).
  { cbn. split; [|exact I]. eapply Inv_frame; [| | | | |exact Hs]; reflexivity. }
  destruct (list_eq_dec Z.eq_dec _ _).
  - match goal with
    | |- context [fread ?n f1] =>
        pose proof (fread_spec n f1) as (C2 & F2 & R2);
        destruct (fread n f1) as [ex f2]
    end.
    cbn [fst snd] in *.
    destruct (_ <? _)%nat; [exact I|].
    cbn. split.
    + eapply Inv_frame; [| | | | |exact Hs]; reflexivity.
    + unfold remaining in *. rewrite C2, C1. cbn. lia.
  - cbn. split.
    + eapply Inv_frame; [| | | | |exact Hs]; reflexivity.
    + unfold remaining. cbn. rewrite C1. cbn. lia.
Qed.

Lemma append_file_keeps (input : option (list Z)) (mark_in mark_out : Z) :
  keeps (Inv be H0 P0 O0) audio_ok (fun _ => True)
        (append_file be no_meta frame_interval input mark_in mark_out).
Proof.
  unfold append_file.
  eapply keeps_bind; [apply keeps_gets|]. intros lastfile _.
  destruct input as [bytes|]; [|apply keeps_ret; exact I].
  intros s Hs. unfold bind at 1.
  pose proof (open_input_spec bytes s Hs) as H.
  destruct (open_input be bytes s) as [[f|] s'|c s'| |]; cbn in H; try exact H.
  destruct H as [Hs' R].
    assert (K : keeps (Inv be H0 P0 O0) audio_ok (fun _ => True)
                  (append_loop be no_meta frame_interval (S (length bytes))
                     mark_in mark_out (mkLocals (-999999) (-1) lastfile f) ;;
                   ret tt)).
    { eapply keeps_bind; [apply append_loop_keeps; cbn; lia|].
      intros _ _. apply keeps_ret. exact I. }
    exact (K s' Hs').
Qed.

Lemma append_lines_keeps (lines : list input_line) :
  keeps (Inv be H0 P0 O0) audio_ok (fun _ => True)
        (append_lines be no_meta frame_interval lines).
Proof.
  induction lines as [|ln rest IH]; cbn [append_lines].
  - apply keeps_ret. exact I.
  - eapply keeps_bind; [|intros _ _; exact IH].
    unfold append_line. destruct (marks_of_line ln) as [[mi|] [mo|]];
      try apply keeps_undef.
    apply append_file_keeps.
Qed.

(** *** The steps of [route], when no write fails *)

Lemma data_byte_0 (p : FLVpacket) (d0 : Z) (rest : list Z) (s : state) :
  data p = d0 :: rest -> data_byte p 0 s = Ok d0 s.
Proof. intros D. unfold data_byte. rewrite D. reflexivity. Qed.

Lemma data_byte_1 (p : FLVpacket) (d0 d1 : Z) (rest : list Z) (s : state) :
  data p = d0 :: d1 :: rest -> data_byte p 1 s = Ok d1 s.
Proof. intros D. unfold data_byte. rewrite D. reflexivity. Qed.

(** The step of a video key frame that arrives while the offset of the file
    is undetermined. *)
Lemma route_flush (mark_in mark_out : Z) (l : locals) (s : state) :
  ready s -> wf_packet (packet s) -> type (packet s) = 9 ->
  (2 <= length (data (packet s)))%nat ->
  (seq_header_pkt s = None -> is_sequence_header (packet s) = false) ->
  mark_in <= timestamp (packet s) < mark_out ->
  is_key_frame (packet s) = true ->
  file_start_timestamp l = -999999 ->
  let p := packet s in
  let fk := if first_keyframe_timestamp l =? -1 then timestamp p
            else first_keyframe_timestamp l in
  let start := if first_time s then - fk
               else (lastfile_video_timestamp l + frame_interval - timestamp p) mod 2 ^ 32 in
  let s1 := if first_time s then set_first_time false s else s in
  route be no_meta frame_interval mark_in mark_out l s =
  Ok (mkLocals start fk (lastfile_video_timestamp l) (infile l))
     (set_pktarray []
        (flush_pure be start (pktarray s ++ [copy_packet p])
           (set_pktarray (pktarray s ++ [copy_packet p]) s1))).
Proof.
  intros R W T Len NS Mk KF FS p fk start s1.
  unfold route. rewrite bind_gets. fold p.
  fold p in W, T, Len, NS, Mk, KF.
  destruct (data p) as [|d0 [|d1 rest]] eqn:D; cbn [length] in Len; try lia.
  unfold is_sequence_header in NS. unfold is_key_frame in KF. rewrite D in NS, KF.
  rewrite T in *. change (9 =? 18) with false. change (9 =? 8) with false in *.
  change (9 =? 9) with true in *. cbn [orb andb negb] in *.
  cbv beta iota. rewrite bind_gets.
  match goal with
  | |- (x <- ?m ;; _) s = _ => assert (IS : m s = Ok false s)
  end.
  { destruct (seq_header_pkt s); [reflexivity|].
    rewrite (bind_ok _ _ _ _ _ (data_byte_0 p d0 _ s D)).
    specialize (NS eq_refl).
    destruct (Z.land d0 15 =? 7); [|reflexivity].
    rewrite (bind_ok _ _ _ _ _ (data_byte_1 p d0 d1 _ s D)).
    cbn [andb] in NS. rewrite NS. reflexivity. }
  rewrite (bind_ok _ _ _ _ _ IS). cbv beta iota.
  replace (timestamp p <? mark_in) with false by (symmetry; apply Z.ltb_ge; lia).
  replace (mark_out <=? timestamp p) with false by (symmetry; apply Z.leb_gt; lia).
  cbn [orb]. cbv beta iota.
  match goal with
  | |- (x <- ?m ;; _) s = _ => assert (K : m s = Ok true s)
  end.
  { rewrite (bind_ok _ _ _ _ _ (data_byte_0 p d0 _ s D)). rewrite KF. reflexivity. }
  rewrite (bind_ok _ _ _ _ _ K). cbv beta iota.
  rewrite andb_true_r.
  assert (FS' : file_start_timestamp
                  (if first_keyframe_timestamp l =? -1
                   then mkLocals (file_start_timestamp l) (timestamp p)
                                 (lastfile_video_timestamp l) (infile l)
                   else l) = -999999)
    by (destruct (first_keyframe_timestamp l =? -1); exact FS).
  rewrite FS'. change (-999999 =? -999999) with true. cbv beta iota.
  rewrite bind_gets.
  assert (FK : first_keyframe_timestamp
                 (if first_keyframe_timestamp l =? -1
                  then mkLocals (file_start_timestamp l) (timestamp p)
                                (lastfile_video_timestamp l) (infile l)
                  else l) = fk)
    by (subst fk; destruct (first_keyframe_timestamp l =? -1); reflexivity).
  assert (LV : lastfile_video_timestamp
                 (if first_keyframe_timestamp l =? -1
                  then mkLocals (file_start_timestamp l) (timestamp p)
                                (lastfile_video_timestamp l) (infile l)
                  else l) = lastfile_video_timestamp l)
    by (destruct (first_keyframe_timestamp l =? -1); reflexivity).
  assert (IF : infile
                 (if first_keyframe_timestamp l =? -1
                  then mkLocals (file_start_timestamp l) (timestamp p)
                                (lastfile_video_timestamp l) (infile l)
                  else l) = infile l)
    by (destruct (first_keyframe_timestamp l =? -1); reflexivity).
  rewrite FK, LV, IF. fold start.
  assert (R1 : ready s1) by (subst s1; destruct (first_time s); exact R).
  assert (B : ((if first_time s then modify (set_first_time false) else ret tt) ;;
               buffer_packet be p start true ;;
               ret (mkLocals start fk (lastfile_video_timestamp l) (infile l))) s =
              (buffer_packet be p start true ;;
               ret (mkLocals start fk (lastfile_video_timestamp l) (infile l))) s1)
    by (subst s1; destruct (first_time s); reflexivity).
  rewrite B.
  rewrite (bind_ok _ _ _ _ _ (buffer_packet_flush_ok be p start s1 R1 W)).
  assert (PK : pktarray s1 = pktarray s) by (subst s1; destruct (first_time s); reflexivity).
  rewrite PK. reflexivity.
Qed.

(** The test for a sequence header, as [route] evaluates it. *)
Lemma route_header_test (p : FLVpacket) (s : state) :
  (type p = 9 -> seq_header_pkt s = None -> (2 <= length (data p))%nat) ->
  match seq_header_pkt s with
  | Some _ => ret false
  | None =>
      if type p =? 9
      then d0 <- data_byte p 0 ;;
           (if Z.land d0 15 =? 7 then d1 <- data_byte p 1 ;; ret (d1 =? 0)
            else ret false)
      else ret false
  end s
  = Ok (match seq_header_pkt s with
        | Some _ => false
        | None => is_sequence_header p
        end) s.
Proof.
  intros Len. unfold is_sequence_header.
  destruct (seq_header_pkt s); [reflexivity|].
  destruct (Z.eqb_spec (type p) 9) as [T|T].
  - specialize (Len T eq_refl).
    destruct (data p) as [|d0 [|d1 rest]] eqn:D; cbn [length] in Len; try lia.
    rewrite (bind_ok _ _ _ _ _ (data_byte_0 p d0 _ s D)).
    cbn [andb]. destruct (Z.land d0 15 =? 7); [|reflexivity].
    rewrite (bind_ok _ _ _ _ _ (data_byte_1 p d0 d1 _ s D)). reflexivity.
  - destruct (data p) as [|d0 [|d1 rest]]; reflexivity.
Qed.

(** The step of a configuration record that arrives while no sequence
    header is cached. *)
Lemma route_capture (mark_in mark_out : Z) (l : locals) (s : state) :
  is_sequence_header (packet s) = true -> seq_header_pkt s = None ->
  route be no_meta frame_interval mark_in mark_out l s =
  Ok l (set_seq_header_pkt (Some (copy_packet (packet s))) s).
Proof.
  intros IS Q. unfold route. rewrite bind_gets.
  set (p := packet s) in *.
  assert (T : type p = 9 /\ (2 <= length (data p))%nat).
  { unfold is_sequence_header in IS.
    destruct (data p) as [|d0 [|d1 rest]]; try discriminate.
    destruct (Z.eqb_spec (type p) 9); [|discriminate]. cbn [length]. split; [assumption|lia]. }
  destruct T as [T Len]. rewrite T. change (9 =? 18) with false. cbv iota.
  rewrite bind_gets.
  pose proof (route_header_test p s (fun _ _ => Len)) as H.
  rewrite T in H. change (9 =? 9) with true in H. cbv iota in H.
  change (9 =? 9) with true. cbv iota.
  rewrite (bind_ok _ _ _ _ _ H). rewrite Q, IS. reflexivity.
Qed.

(** The step of an audio or video packet outside the marks that is not
    taken as sequence header. *)
Lemma route_trim (mark_in mark_out : Z) (l : locals) (s : state) :
  type (packet s) <> 18 ->
  (type (packet s) = 9 -> seq_header_pkt s = None -> (2 <= length (data (packet s)))%nat) ->
  (seq_header_pkt s = None -> is_sequence_header (packet s) = false) ->
  timestamp (packet s) < mark_in \/ mark_out <= timestamp (packet s) ->
  route be no_meta frame_interval mark_in mark_out l s = Ok l s.
Proof.
  intros T18 Len NS Tr. unfold route. rewrite bind_gets.
  set (p := packet s) in *.
  destruct (Z.eqb_spec (type p) 18) as [E|_]; [contradiction|].
  rewrite bind_gets.
  rewrite (bind_ok _ _ _ _ _ (route_header_test p s Len)).
  assert (F : match seq_header_pkt s with
              | Some _ => false
              | None => is_sequence_header p
              end = false)
    by (destruct (seq_header_pkt s); [reflexivity|apply NS; reflexivity]).
  rewrite F. cbv iota.
  assert (C : (timestamp p <? mark_in) || (mark_out <=? timestamp p) = true).
  { apply orb_true_iff. destruct Tr; [left; apply Z.ltb_lt|right; apply Z.leb_le]; lia. }
  rewrite C. reflexivity.
Qed.

(** The step of an audio or video packet inside the marks, not taken as
    sequence header, once the offset of the file is known. *)
Lemma route_stream (mark_in mark_out : Z) (l : locals) (s : state) :
  type (packet s) = 8 \/ type (packet s) = 9 ->
  (type (packet s) = 9 -> (2 <= length (data (packet s)))%nat) ->
  (seq_header_pkt s = None -> is_sequence_header (packet s) = false) ->
  mark_in <= timestamp (packet s) < mark_out ->
  file_start_timestamp l <> -999999 ->
  limit (outfile s) = None -> wf_packet (packet s) ->
  let p := packet s in
  let l' := if (first_keyframe_timestamp l =? -1) && is_key_frame p
            then mkLocals (file_start_timestamp l) (timestamp p)
                          (lastfile_video_timestamp l) (infile l)
            else l in
  route be no_meta frame_interval mark_in mark_out l s =
  Ok l' (set_packet (shifted (file_start_timestamp l) p)
                    (remux be (file_start_timestamp l) p s)).
Proof.
  intros T Len NS Mk FS L W p l'. unfold route. rewrite bind_gets. fold p.
  fold p in T, Len, NS, Mk, W.
  assert (T18 : (type p =? 18) = false) by (apply Z.eqb_neq; lia).
  rewrite T18. rewrite bind_gets.
  rewrite (bind_ok _ _ _ _ _ (route_header_test p s (fun t _ => Len t))).
  assert (F : match seq_header_pkt s with
              | Some _ => false
              | None => is_sequence_header p
              end = false)
    by (destruct (seq_header_pkt s); [reflexivity|apply NS; reflexivity]).
  rewrite F. cbv iota.
  replace (timestamp p <? mark_in) with false by (symmetry; apply Z.ltb_ge; lia).
  replace (mark_out <=? timestamp p) with false by (symmetry; apply Z.leb_gt; lia).
  assert (T89 : negb (type p =? 8) && negb (type p =? 9) = false)
    by (destruct T as [T|T]; rewrite T; reflexivity).
  rewrite T89. cbn [orb]. cbv iota.
  match goal with
  | |- (x <- ?m ;; _) s = _ => assert (K : m s = Ok (is_key_frame p) s)
  end.
  { unfold is_key_frame. destruct T as [T|T]; rewrite T.
    - change (8 =? 8) with true. destruct (data p) as [|? ?]; reflexivity.
    - change (9 =? 8) with false. specialize (Len T).
      destruct (data p) as [|d0 rest] eqn:D; cbn [length] in Len; [lia|].
      rewrite (bind_ok _ _ _ _ _ (data_byte_0 p d0 _ s D)). reflexivity. }
  rewrite (bind_ok _ _ _ _ _ K). cbv beta. fold l'.
  assert (FS' : file_start_timestamp l' = file_start_timestamp l)
    by (subst l'; destruct ((first_keyframe_timestamp l =? -1) && is_key_frame p);
        reflexivity).
  rewrite FS'.
  destruct (Z.eqb_spec (file_start_timestamp l) (-999999)) as [E|_]; [contradiction|].
  rewrite (bind_ok _ _ _ _ _ (write_packet_ok be p _ s L W)).
  reflexivity.
Qed.

(** [route] hands back the input stream as it got it. *)
Lemma route_infile (mark_in mark_out : Z) (l l' : locals) (s s' : state) :
  route be no_meta frame_interval mark_in mark_out l s = Ok l' s' ->
  infile l' = infile l.
Proof.
  unfold route.
  cbv beta iota delta [bind gets modify ret lift_res undef data_byte buffer_packet].
  intros H.
  repeat match type of H with
         | context [match ?x with _ => _ end] => destruct x eqn:?; try discriminate
         end;
    inversion H; subst; reflexivity.
Qed.

Lemma write_packet_pktarray (p r : FLVpacket) (off : Z) (s s' : state) :
  write_packet be p off s = Ok r s' -> pktarray s' = pktarray s.
Proof.
  intros H. pose proof (write_packet_cases be p off s) as C. rewrite H in C.
  destruct C as [_ [[_ ->]|[_ [f [_ ->]]]]]; reflexivity.
Qed.

Lemma data_byte_state (p : FLVpacket) (i : nat) (b : Z) (s s' : state) :
  data_byte p i s = Ok b s' -> s' = s.
Proof.
  unfold data_byte. destruct (nth_error (data p) i); [|discriminate].
  intros H. inversion H. reflexivity.
Qed.

(** The tests of [route] on the payload leave the state alone. *)
Lemma header_test_state (p : FLVpacket) (b : bool) (s s' : state) :
  match seq_header_pkt s with
  | Some _ => ret false
  | None =>
      if type p =? 9
      then d0 <- data_byte p 0 ;;
           (if Z.land d0 15 =? 7 then d1 <- data_byte p 1 ;; ret (d1 =? 0)
            else ret false)
      else ret false
  end s = Ok b s' -> s' = s.
Proof.
  destruct (seq_header_pkt s); [intros H; inversion H; reflexivity|].
  destruct (type p =? 9); [|intros H; inversion H; reflexivity].
  unfold bind at 1. destruct (data_byte p 0 s) as [d0 s1| | |] eqn:D0; try discriminate.
  apply data_byte_state in D0. subst s1.
  destruct (Z.land d0 15 =? 7); [|intros H; inversion H; reflexivity].
  unfold bind. destruct (data_byte p 1 s) as [d1 s1| | |] eqn:D1; try discriminate.
  apply data_byte_state in D1. subst s1. intros H; inversion H; reflexivity.
Qed.

Lemma key_test_state (p : FLVpacket) (b : bool) (s s' : state) :
  (if type p =? 8 then ret true
   else d0 <- data_byte p 0 ;; ret (Z.shiftr (Z.land d0 240) 4 =? 1)) s = Ok b s' ->
  s' = s.
Proof.
  destruct (type p =? 8); [intros H; inversion H; reflexivity|].
  unfold bind. destruct (data_byte p 0 s) as [d0 s1| | |] eqn:D0; try discriminate.
  apply data_byte_state in D0. subst s1. intros H; inversion H; reflexivity.
Qed.

(** What a step does to the packets waiting. *)
Lemma route_pending (mark_in mark_out : Z) (l l' : locals) (s s' : state) :
  route be no_meta frame_interval mark_in mark_out l s = Ok l' s' ->
  (pktarray s' = pktarray s
   /\ (file_start_timestamp l = -999999 -> written s' = written s))
  \/ (file_start_timestamp l = -999999 /\ file_start_timestamp l' = -999999
      /\ type (packet s) = 8
      /\ pktarray s' = pktarray s ++ [copy_packet (packet s)]
      /\ written s' = written s)
  \/ (file_start_timestamp l = -999999 /\ type (packet s) = 9
      /\ pktarray s' = []
      /\ exists s1 s2,
           written s1 = written s
           /\ flush_loop be (pktarray s ++ [copy_packet (packet s)])
                         (file_start_timestamp l') s1 = Ok tt s2
           /\ s' = set_pktarray [] s2).
Proof.
  unfold route. rewrite bind_gets. set (p := packet s).
  destruct (type p =? 18).
  { rewrite bind_gets.
    destruct (negb (metadata_extracted s) && negb no_meta).
    - rewrite bind_gets. unfold bind, lift_res.
      destruct (extract_metadata be p (meta s)); try discriminate.
      intros H. inversion H. left. split; [reflexivity|intros; reflexivity].
    - intros H. inversion H. left. split; [reflexivity|intros; reflexivity]. }
  rewrite bind_gets. unfold bind at 1.
  match goal with
  | |- match ?m s with _ => _ end = _ -> _ =>
      destruct (m s) as [is_seq s1| | |] eqn:HT; try discriminate
  end.
  apply header_test_state in HT. subst s1.
  destruct is_seq.
  { intros H. inversion H. left. split; [reflexivity|intros; reflexivity]. }
  destruct ((timestamp p <? mark_in) || (mark_out <=? timestamp p)
            || negb (type p =? 8) && negb (type p =? 9)) eqn:Tr.
  { intros H. inversion H. left. split; [reflexivity|intros; reflexivity]. }
  assert (T89 : type p = 8 \/ type p = 9).
  { apply orb_false_iff in Tr. destruct Tr as [_ Tr].
    destruct (Z.eqb_spec (type p) 8); [auto|].
    destruct (Z.eqb_spec (type p) 9); [auto|discriminate]. }
  clear Tr. unfold bind at 1.
  match goal with
  | |- match ?m s with _ => _ end = _ -> _ =>
      destruct (m s) as [key_frame s1| | |] eqn:HK; try discriminate
  end.
  apply key_test_state in HK. subst s1.
  set (l1 := if (first_keyframe_timestamp l =? -1) && key_frame then _ else l).
  assert (FS1 : file_start_timestamp l1 = file_start_timestamp l)
    by (subst l1; destruct ((first_keyframe_timestamp l =? -1) && key_frame); reflexivity).
  rewrite FS1.
  destruct (Z.eqb_spec (file_start_timestamp l) (-999999)) as [FS|FS].
  - destruct (Z.eqb_spec (type p) 9) as [T9|T9].
    + destruct key_frame.
      * (* the flush *)
        rewrite bind_gets.
        set (s1 := if first_time s then set_first_time false s else s).
        assert (B : forall k : unit -> M locals,
                   (x <- (if first_time s then modify (set_first_time false) else ret tt) ;;
                    k x) s = k tt s1)
          by (intros k; subst s1; destruct (first_time s); reflexivity).
        rewrite B. unfold buffer_packet.
        destruct (Z.of_nat (length (data p)) <? datasize p); [discriminate|].
        assert (P1 : pktarray s1 = pktarray s)
          by (subst s1; destruct (first_time s); reflexivity).
        assert (W1 : written s1 = written s)
          by (subst s1; destruct (first_time s); reflexivity).
        unfold bind, modify, gets, ret. cbn [pktarray set_pktarray].
        rewrite P1.
        match goal with
        | |- match match flush_loop be ?es ?off ?st with _ => _ end with _ => _ end = _ -> _ =>
            destruct (flush_loop be es off st) as [u s2| | |] eqn:FL; try discriminate
        end.
        intros H. inversion H. subst l' s'.
        right. right. split; [exact FS|]. split; [exact T9|]. split; [reflexivity|].
        cbn [file_start_timestamp]. destruct u.
        eexists. exists s2. split; [|split; [exact FL|reflexivity]].
        exact W1.
      * intros H. inversion H. left. split; [reflexivity|intros; reflexivity].
    + (* buffering *)
      unfold buffer_packet.
      destruct (Z.of_nat (length (data p)) <? datasize p); [discriminate|].
      intros H. inversion H. subst l' s'.
      right. left. rewrite FS1. repeat split; try assumption. tauto.
  - unfold bind at 1.
    destruct (write_packet be p (file_start_timestamp l) s) as [r s2| | |] eqn:WP;
      try discriminate.
    intros H. inversion H. left. split; [|intros; contradiction].
    cbn [pktarray set_packet]. eapply write_packet_pktarray. exact WP.
Qed.

End EngineFacts.

(** ** The whole run *)

Section RunFacts.
Import DataConv Stdio FlvJoinH Metadata Machine FlvJoin Spec.
Open Scope flv_scope.
Variables (be no_meta : bool) (frame_interval audio_bitrate : Z).

Lemma generate_metadata_packet_ftell (m : FLVmetadata) (f f' : FILE) :
  ftell f = ftell f' ->
  generate_metadata_packet be m f = generate_metadata_packet be m f'.
Proof. unfold generate_metadata_packet. intros ->. reflexivity. Qed.

Lemma generate_metadata_packet_type (m : FLVmetadata) (f : FILE) :
  type (fst (generate_metadata_packet be m f)) = 18.
Proof. reflexivity. Qed.

Lemma generate_metadata_packet_shifted (m : FLVmetadata) (f : FILE) :
  shifted 0 (fst (generate_metadata_packet be m f)) =
  fst (generate_metadata_packet be m f).
Proof. reflexivity. Qed.

(** When a byte can be written after the header, the header is complete. *)
Lemma header_complete (lim : option nat) (b : Z) :
  fst (fwrite [b] (snd (fwrite flv_header (fopen_wb lim)))) = 1%nat ->
  contents (snd (fwrite flv_header (fopen_wb lim))) = flv_header
  /\ fpos (snd (fwrite flv_header (fopen_wb lim))) = 13%nat.
Proof.
  unfold fwrite, room, fopen_wb. cbn [fst snd contents fpos limit length repeat app].
  destruct lim as [l|]; [|intros _; split; reflexivity].
  change (length flv_header) with 13%nat.
  rewrite Nat.sub_0_r. cbn [Nat.add firstn skipn app].
  intros H.
  assert (K : Nat.min 13 l = 13%nat) by lia.
  rewrite K. split; reflexivity.
Qed.

Lemma state0_Inv (lim : option nat) :
  Inv be (contents (snd (fwrite flv_header (fopen_wb lim))))
         [] (meta_offsets meta0)
         (set_outfile (snd (fwrite flv_header (fopen_wb lim))) (state0 (fopen_wb lim))).
Proof.
  pose proof (fwrite_at_end flv_header (fopen_wb lim) eq_refl) as [C E].
  assert (W : within_limit (snd (fwrite flv_header (fopen_wb lim)))).
  { apply fwrite_within_limit; [reflexivity|].
    unfold within_limit. cbn. destruct lim; [cbn; lia|exact I]. }
  unfold Inv, Core, audio_ok, pending_audio.
  cbn [written last_audio_timestamp outfile meta pktarray set_outfile state0
       audio_timestamps filter map concat].
  repeat split; try assumption; try constructor.
  - now rewrite app_nil_r.
  - eexists. reflexivity.
Qed.

(** The state [main] reaches at the end of the input satisfies the
    invariant; with metadata, the output begins with the header and the
    placeholder packet, whose offsets [meta] holds. *)
Lemma join_spec (lim : option nat) (lines : list input_line) :
  post (fun _ s =>
          exists H0 P0 O0,
            Inv be H0 P0 O0 s /\
            (no_meta = false ->
             H0 = flv_header /\ P0 = meta_prefix be /\ O0 = placeholder_offsets be))
       audio_ok
       (join be no_meta frame_interval lim lines).
Proof.
  unfold join. unfold bind at 1. unfold write_flv_header, modify.
  change (outfile (state0 (fopen_wb lim))) with (fopen_wb lim).
  set (f1 := snd (fwrite flv_header (fopen_wb lim))).
  pose proof (state0_Inv lim) as I0. fold f1 in I0.
  set (s1 := set_outfile f1 (state0 (fopen_wb lim))). fold s1 in I0.
  destruct no_meta eqn:NM.
  - unfold bind at 1. unfold ret at 1.
    pose proof (append_lines_keeps be true frame_interval _ _ _ lines s1 I0) as K.
    destruct (append_lines be true frame_interval lines s1);
      cbv beta iota delta [post] in K |- *; auto.
    destruct K as [K _]. do 3 eexists. split; [exact K|discriminate].
  - unfold bind at 1. unfold bind at 1. unfold bind at 1. unfold gets.
    change (meta s1) with meta0. change (outfile s1) with f1.
    destruct (generate_metadata_packet be meta0 f1) as [pkt m] eqn:G.
    unfold bind at 1.
    set (s2 := set_meta m (metadata_extracted s1) s1).
    pose proof (write_packet_cases be pkt 0 s2) as H.
    destruct (write_packet be pkt 0 s2) as [r s3|c s3| |];
      cbv beta iota delta [ret]; [| |exact I|contradiction].
    + (* the placeholder has been written *)
      destruct H as [_ [[Ov _]|[Ov [f2 [Pc ->]]]]].
      { exfalso. unfold overlapping, shifted in Ov. cbn [type set_timestamp] in Ov.
        pose proof (generate_metadata_packet_type meta0 f1) as Ty.
        rewrite G in Ty. cbn [fst] in Ty. rewrite Ty in Ov. discriminate. }
      change (outfile s2) with f1 in Pc.
      assert (HC : contents f1 = flv_header /\ fpos f1 = 13%nat).
      { apply (header_complete lim (type (shifted 0 pkt))).
        unfold tag_chunks in Pc. cbn [put_chunks] in Pc. fold f1.
        destruct (fwrite [type (shifted 0 pkt)] f1) as [k fa]. cbn [fst].
        destruct (Nat.eqb_spec k (length [type (shifted 0 pkt)])) as [K|K];
          [exact K|discriminate]. }
      destruct HC as [HC HP].
      assert (GP : (pkt, m) = placeholder be).
      { rewrite <- G. unfold placeholder. apply generate_metadata_packet_ftell.
        unfold ftell. rewrite HP. reflexivity. }
      assert (SP : shifted 0 pkt = pkt).
      { pose proof (generate_metadata_packet_shifted meta0 f1) as Sh.
        rewrite G in Sh. exact Sh. }
      rewrite SP in *.
      destruct I0 as [(A & E & W & X & C & O) K].
      change (outfile s1) with f1 in E, W, X, C.
      assert (I3 : Core be flv_header [] (placeholder_offsets be) s2).
      { unfold Core. change (outfile s2) with f1. change (written s2) with (written s1).
        change (meta s2) with m.
        split; [exact A|]. split; [exact E|]. split; [exact W|].
        split; [rewrite HC; reflexivity|]. split; [eexists; reflexivity|].
        unfold placeholder_offsets. rewrite <- GP. reflexivity. }
      pose proof (Core_note_written be _ _ _ pkt f2 s2 I3 Ov Pc) as (A4 & E4 & W4 & X4 & _ & O4).
      assert (I4 : Inv be flv_header (meta_prefix be) (placeholder_offsets be)
                     (note_written pkt (set_outfile f2 s2))).
      { unfold Inv. split; [|apply Forall_nil].
        split; [exact A4|]. split; [exact E4|]. split; [exact W4|].
        split; [exact X4|]. split; [|exact O4].
        exists []. rewrite app_nil_r.
        change (outfile (note_written pkt (set_outfile f2 s2))) with f2.
        rewrite (put_chunks_true _ _ _ E Pc), HC.
        unfold meta_prefix. rewrite <- GP. reflexivity. }
      pose proof (append_lines_keeps be false frame_interval _ _ _ lines _ I4) as K4.
      destruct (append_lines be false frame_interval lines _);
        cbv beta iota delta [post] in K4 |- *; auto.
      destruct K4 as [K4 _]. do 3 eexists. split; [exact K4|auto].
    + destruct H as (_ & _ & f & ->). cbv beta iota delta [post].
      unfold audio_ok.
      change (written (set_outfile f s2)) with (@nil FLVpacket).
      split; constructor.
Qed.

End RunFacts.

(** ** The steps of the loop and the files *)

Section StepFacts.
Import DataConv Stdio FlvJoinH Metadata Machine FlvJoin Spec.
Open Scope flv_scope.

Variables (be no_meta : bool) (frame_interval : Z).

(** The two tests of [route] on the payload give what [is_sequence_header]
    and [is_key_frame] say. *)
Lemma header_test_value (p : FLVpacket) (b : bool) (s s' : state) :
  match seq_header_pkt s with
  | Some _ => ret false
  | None =>
      if type p =? 9
      then d0 <- data_byte p 0 ;;
           (if Z.land d0 15 =? 7 then d1 <- data_byte p 1 ;; ret (d1 =? 0)
            else ret false)
      else ret false
  end s = Ok b s' ->
  s' = s
  /\ b = match seq_header_pkt s with
         | Some _ => false
         | None => is_sequence_header p
         end.
Proof.
  unfold is_sequence_header.
  destruct (seq_header_pkt s); [intros H; inversion H; auto|].
  destruct (type p =? 9).
  - unfold bind, data_byte.
    destruct (data p) as [|d0 [|d1 rest]]; cbn [nth_error ret andb]; try discriminate.
    + destruct (Z.land d0 15 =? 7); [discriminate|].
      intros H; inversion H; auto.
    + destruct (Z.land d0 15 =? 7); intros H; inversion H; auto.
  - intros H; inversion H. split; [reflexivity|].
    destruct (data p) as [|d0 [|d1 rest]]; reflexivity.
Qed.

Lemma key_test_value (p : FLVpacket) (b : bool) (s s' : state) :
  (if type p =? 8 then ret true
   else d0 <- data_byte p 0 ;; ret (Z.shiftr (Z.land d0 240) 4 =? 1)) s = Ok b s' ->
  s' = s /\ b = is_key_frame p.
Proof.
  unfold is_key_frame.
  destruct (type p =? 8).
  - intros H; inversion H. split; [reflexivity|].
    destruct (data p); reflexivity.
  - unfold bind, data_byte.
    destruct (data p) as [|d0 rest]; cbn [nth_error ret orb]; [discriminate|].
    intros H; inversion H; auto.
Qed.

(** What a step of the loop does, case by case: nothing to the packets
    waiting or written; or the packet is buffered; or the buffer is flushed;
    or the packet is handed to [write_packet]. *)
Lemma route_step (mark_in mark_out : Z) (l l' : locals) (s s' : state) :
  route be no_meta frame_interval mark_in mark_out l s = Ok l' s' ->
  lastfile_video_timestamp l' = lastfile_video_timestamp l
  /\ ((file_start_timestamp l' = file_start_timestamp l
       /\ pktarray s' = pktarray s /\ written s' = written s
       /\ first_time s' = first_time s
       /\ (seq_header_pkt s' = seq_header_pkt s
           \/ (type (packet s) = 9
               /\ seq_header_pkt s' = Some (copy_packet (packet s))))
       /\ (type (packet s) = 18
           \/ (seq_header_pkt s = None /\ is_sequence_header (packet s) = true)
           \/ (timestamp (packet s) < mark_in \/ mark_out <= timestamp (packet s)
               \/ (type (packet s) <> 8 /\ type (packet s) <> 9))
           \/ (file_start_timestamp l = -999999 /\ type (packet s) = 9
               /\ is_key_frame (packet s) = false)))
      \/ (file_start_timestamp l = -999999 /\ file_start_timestamp l' = -999999
          /\ type (packet s) = 8
          /\ mark_in <= timestamp (packet s) < mark_out
          /\ s' = set_pktarray (pktarray s ++ [copy_packet (packet s)]) s)
      \/ (file_start_timestamp l = -999999 /\ type (packet s) = 9
          /\ mark_in <= timestamp (packet s) < mark_out
          /\ is_key_frame (packet s) = true
          /\ file_start_timestamp l' =
             (if first_time s
              then - (if first_keyframe_timestamp l =? -1 then timestamp (packet s)
                      else first_keyframe_timestamp l)
              else (lastfile_video_timestamp l + frame_interval
                    - timestamp (packet s)) mod 2 ^ 32)
          /\ exists s2,
               flush_loop be (pktarray s ++ [copy_packet (packet s)])
                 (file_start_timestamp l')
                 (set_pktarray (pktarray s ++ [copy_packet (packet s)])
                    (if first_time s then set_first_time false s else s))
               = Ok tt s2
               /\ s' = set_pktarray [] s2)
      \/ (file_start_timestamp l <> -999999
          /\ file_start_timestamp l' = file_start_timestamp l
          /\ (type (packet s) = 8 \/ type (packet s) = 9)
          /\ mark_in <= timestamp (packet s) < mark_out
          /\ exists r s2,
               write_packet be (packet s) (file_start_timestamp l) s = Ok r s2
               /\ s' = set_packet r s2)).
Proof.
  unfold route. rewrite bind_gets. set (p := packet s).
  destruct (Z.eqb_spec (type p) 18) as [T18|T18].
  { rewrite bind_gets.
    destruct (negb (metadata_extracted s) && negb no_meta).
    - rewrite bind_gets. unfold bind, lift_res.
      destruct (extract_metadata be p (meta s)) as [[fd m']| |]; try discriminate.
      intros H. inversion H. subst l' s'. split; [reflexivity|]. left.
      repeat split; auto.
    - intros H. inversion H. subst l' s'. split; [reflexivity|]. left.
      repeat split; auto. }
  rewrite bind_gets. unfold bind at 1.
  match goal with
  | |- match ?m s with _ => _ end = _ -> _ =>
      destruct (m s) as [is_seq s1| | |] eqn:HT; try discriminate
  end.
  apply header_test_value in HT. destruct HT as [-> IS].
  destruct is_seq.
  { intros H. inversion H. subst l' s'. split; [reflexivity|]. left.
    assert (Q : seq_header_pkt s = None /\ is_sequence_header p = true).
    { destruct (seq_header_pkt s); [discriminate|]. auto. }
    assert (T9 : type p = 9).
    { destruct Q as [_ Q]. unfold is_sequence_header in Q.
      destruct (data p) as [|d0 [|d1 r]]; try discriminate.
      destruct (Z.eqb_spec (type p) 9); [assumption|discriminate]. }
    repeat split; auto. }
  destruct ((timestamp p <? mark_in) || (mark_out <=? timestamp p)
            || negb (type p =? 8) && negb (type p =? 9)) eqn:Tr.
  { intros H. inversion H. subst l' s'. split; [reflexivity|]. left.
    repeat split; auto. right. right. left.
    apply orb_true_iff in Tr. destruct Tr as [Tr|Tr].
    - apply orb_true_iff in Tr. destruct Tr as [Tr|Tr].
      + left. apply Z.ltb_lt. exact Tr.
      + right. left. apply Z.leb_le. exact Tr.
    - right. right. apply andb_true_iff in Tr. destruct Tr as [A B].
      split; intros E; rewrite E in *; discriminate. }
  assert (Mk : mark_in <= timestamp p < mark_out).
  { apply orb_false_iff in Tr. destruct Tr as [Tr _].
    apply orb_false_iff in Tr. destruct Tr as [A B].
    apply Z.ltb_ge in A. apply Z.leb_gt in B. lia. }
  assert (T89 : type p = 8 \/ type p = 9).
  { apply orb_false_iff in Tr. destruct Tr as [_ Tr].
    destruct (Z.eqb_spec (type p) 8); [auto|].
    destruct (Z.eqb_spec (type p) 9); [auto|discriminate]. }
  clear Tr. unfold bind at 1.
  match goal with
  | |- match ?m s with _ => _ end = _ -> _ =>
      destruct (m s) as [key_frame s1| | |] eqn:HK; try discriminate
  end.
  apply key_test_value in HK. destruct HK as [-> KF].
  set (l1 := if (first_keyframe_timestamp l =? -1) && key_frame then _ else l).
  assert (FS1 : file_start_timestamp l1 = file_start_timestamp l)
    by (subst l1; destruct ((first_keyframe_timestamp l =? -1) && key_frame); reflexivity).
  assert (LF1 : lastfile_video_timestamp l1 = lastfile_video_timestamp l)
    by (subst l1; destruct ((first_keyframe_timestamp l =? -1) && key_frame); reflexivity).
  rewrite FS1.
  destruct (Z.eqb_spec (file_start_timestamp l) (-999999)) as [FS|FS].
  - destruct (Z.eqb_spec (type p) 9) as [T9|T9].
    + destruct key_frame.
      * (* the flush *)
        rewrite bind_gets.
        set (s1 := if first_time s then set_first_time false s else s).
        assert (B : forall k : unit -> M locals,
                   (x <- (if first_time s then modify (set_first_time false) else ret tt) ;;
                    k x) s = k tt s1)
          by (intros k; subst s1; destruct (first_time s); reflexivity).
        rewrite B. unfold buffer_packet.
        destruct (Z.of_nat (length (data p)) <? datasize p); [discriminate|].
        assert (P1 : pktarray s1 = pktarray s)
          by (subst s1; destruct (first_time s); reflexivity).
        unfold bind, modify, gets, ret. cbn [pktarray set_pktarray].
        rewrite P1.
        match goal with
        | |- match match flush_loop be ?es ?off ?st with _ => _ end with _ => _ end = _ -> _ =>
            destruct (flush_loop be es off st) as [u s2| | |] eqn:FL; try discriminate
        end.
        intros H. inversion H. subst l' s'. clear H.
        split; [exact LF1|].
        right. right. left. split; [exact FS|]. split; [exact T9|].
        split; [exact Mk|]. split; [symmetry; exact KF|].
        assert (K1 : first_keyframe_timestamp l1 =
                     if first_keyframe_timestamp l =? -1 then timestamp p
                     else first_keyframe_timestamp l).
        { subst l1. rewrite andb_true_r.
          destruct (first_keyframe_timestamp l =? -1); reflexivity. }
        cbn [file_start_timestamp]. rewrite K1, LF1 in *.
        split; [reflexivity|]. destruct u. exists s2. split; [exact FL|reflexivity].
      * intros H. inversion H. subst l' s'. split; [exact LF1|]. left.
        repeat split; auto. right. right. right. auto.
    + (* buffering *)
      assert (T8 : type p = 8) by (destruct T89; [assumption|contradiction]).
      unfold buffer_packet.
      destruct (Z.of_nat (length (data p)) <? datasize p); [discriminate|].
      intros H. inversion H. subst l' s'. split; [exact LF1|].
      right. left. rewrite FS1. repeat split; try assumption; try lia.
  - unfold bind at 1.
    destruct (write_packet be p (file_start_timestamp l) s) as [r s2| | |] eqn:WP;
      try discriminate.
    intros H. inversion H. subst l' s'. split; [exact LF1|].
    right. right. right. split; [exact FS|]. split; [exact FS1|].
    split; [exact T89|]. split; [exact Mk|]. exists r, s2. auto.
Qed.

End StepFacts.

Section FileFacts.
Import DataConv Stdio FlvJoinH Metadata Machine FlvJoin Spec.
Open Scope flv_scope.

Variables (be no_meta : bool) (frame_interval : Z).

(** *** Reading changes only the two buffers and the position *)

Lemma read_tag_frame (l : locals) (s : state) :
  exists r s1,
    read_tag be l s = Ok r s1
    /\ match r with
       | None => exists b, s1 = set_buff b s
       | Some l1 =>
           (remaining (infile l1) < remaining (infile l))%nat
           /\ exists f b d, l1 = set_infile f l /\ s1 = set_packet d (set_buff b s)
       end.
Proof.
  unfold read_tag.
  pose proof (fread_spec 11 (infile l)) as (C1 & F1 & R1).
  destruct (fread 11 (infile l)) as [hd f1]. cbn [fst snd] in *.
  destruct (Nat.eqb_spec (length hd) 0) as [E|E].
  { do 2 eexists. split; [reflexivity|]. eexists. reflexivity. }
  set (dsize := conv_ui24 be _ 0).
  pose proof (fread_spec dsize f1) as (C2 & F2 & R2).
  destruct (fread dsize f1) as [payload f2]. cbn [fst snd] in *.
  pose proof (fread_spec 4 f2) as (C3 & F3 & R3).
  destruct (fread 4 f2) as [bp f3]. cbn [fst snd] in *.
  do 2 eexists. split; [reflexivity|]. split.
  - cbn [infile set_infile]. unfold remaining in *. rewrite C3, C2, C1. lia.
  - do 3 eexists. split; reflexivity.
Qed.

Lemma open_input_frame (bytes : list Z) (s : state) :
  match open_input be bytes s with
  | Ok o s1 =>
      (exists b, s1 = set_buff b s)
      /\ match o with
         | Some f => (remaining f <= length bytes)%nat
         | None => True
         end
  | Exit _ _ => False
  | Undef => True
  | Timeout => False
  end.
Proof.
  unfold open_input.
  pose proof (fread_spec 9 (fopen_rb bytes)) as (C1 & F1 & R1).
  destruct (fread 9 (fopen_rb bytes)) as [hd f1]. cbn [fst snd] in *.
  destruct (negb (length hd =? 9)%nat).
  { split; [eexists; reflexivity|exact I]. }
  destruct (list_eq_dec Z.eq_dec _ _).
  - match goal with
    | |- context [fread ?n f1] =>
        pose proof (fread_spec n f1) as (C2 & F2 & R2);
        destruct (fread n f1) as [ex f2]
    end.
    cbn [fst snd] in *.
    destruct (_ <? _)%nat; [exact I|].
    split; [eexists; reflexivity|].
    unfold remaining in *. cbn [fopen_rb contents fpos] in *. rewrite C2, C1. lia.
  - split; [eexists; reflexivity|].
    unfold remaining, rewind. cbn [contents fpos]. rewrite C1. cbn. lia.
Qed.

(** *** Nothing in the loop body runs out of rounds *)

Lemma write_packet_returns (q : FLVpacket) (off : Z) (s : state) :
  write_packet be q off s <> Timeout.
Proof.
  pose proof (write_packet_cases be q off s) as H. intros E. rewrite E in H. exact H.
Qed.

Lemma flush_loop_returns (entries : list FLVpacket) (off : Z) :
  forall s, flush_loop be entries off s <> Timeout.
Proof.
  induction entries as [|e rest IH]; intros s; cbn [flush_loop]; [discriminate|].
  unfold bind at 1, gets.
  assert (T : forall (m : M unit) (s0 : state),
            m s0 <> Timeout ->
            (m ;; write_packet be e off ;; flush_loop be rest off) s0 <> Timeout).
  { intros m s0 Hm. unfold bind at 1.
    destruct (m s0) as [u s1| | |]; try discriminate; [|contradiction].
    unfold bind at 1.
    pose proof (write_packet_returns e off s1) as W.
    destruct (write_packet be e off s1) as [r s2| | |]; try discriminate; [|contradiction].
    apply IH. }
  apply T.
  destruct (seq_header_pkt s) as [sh|]; [|discriminate].
  destruct (type e =? 9); [|discriminate].
  unfold bind.
  pose proof (write_packet_returns (set_timestamp (timestamp e) sh) off s) as W.
  destruct (write_packet be _ off s); try discriminate. contradiction.
Qed.

Lemma route_returns (mark_in mark_out : Z) (l : locals) (s : state) :
  route be no_meta frame_interval mark_in mark_out l s <> Timeout.
Proof.
  unfold route. rewrite bind_gets. set (p := packet s).
  destruct (type p =? 18).
  { rewrite bind_gets.
    destruct (negb (metadata_extracted s) && negb no_meta); [|discriminate].
    rewrite bind_gets. unfold bind, lift_res.
    pose proof (extract_metadata_spec be p (meta s)) as H.
    destruct (extract_metadata be p (meta s)) as [[fd m']| |];
      try discriminate. contradiction. }
  rewrite bind_gets. unfold bind at 1.
  match goal with
  | |- match ?m s with _ => _ end <> _ =>
      assert (HT : m s <> Timeout);
      [|destruct (m s) as [is_seq s1| | |]; try discriminate; try contradiction]
  end.
  { destruct (seq_header_pkt s); [discriminate|].
    destruct (type p =? 9); [|discriminate].
    cbv beta iota delta [bind data_byte ret undef].
    destruct (nth_error (data p) 0) as [d0|]; [|discriminate].
    destruct (Z.land d0 15 =? 7); [|discriminate].
    destruct (nth_error (data p) 1); discriminate. }
  destruct is_seq; [discriminate|].
  destruct ((timestamp p <? mark_in) || (mark_out <=? timestamp p)
            || negb (type p =? 8) && negb (type p =? 9)); [discriminate|].
  unfold bind at 1.
  match goal with
  | |- match ?m s1 with _ => _ end <> _ =>
      assert (HK : m s1 <> Timeout);
      [|destruct (m s1) as [key_frame s2| | |]; try discriminate; try contradiction]
  end.
  { destruct (type p =? 8); [discriminate|].
    cbv beta iota delta [bind data_byte ret undef].
    destruct (nth_error (data p) 0); discriminate. }
  set (l1 := if (first_keyframe_timestamp l =? -1) && key_frame then _ else l).
  destruct (file_start_timestamp l1 =? -999999).
  - destruct (type p =? 9).
    + destruct key_frame; [|discriminate].
      rewrite bind_gets. unfold bind at 1.
      destruct (first_time s2).
      * unfold modify. unfold buffer_packet.
        destruct (_ <? _); [discriminate|].
        unfold bind, modify, gets.
        match goal with
        | |- match match flush_loop be ?es ?off ?st with _ => _ end with _ => _ end <> _ =>
            pose proof (flush_loop_returns es off st) as F;
            destruct (flush_loop be es off st); try discriminate; contradiction
        end.
      * unfold ret at 1. unfold buffer_packet.
        destruct (_ <? _); [discriminate|].
        unfold bind, modify, gets.
        match goal with
        | |- match match flush_loop be ?es ?off ?st with _ => _ end with _ => _ end <> _ =>
            pose proof (flush_loop_returns es off st) as F;
            destruct (flush_loop be es off st); try discriminate; contradiction
        end.
    + unfold buffer_packet. destruct (_ <? _); discriminate.
  - unfold bind at 1.
    pose proof (write_packet_returns p (file_start_timestamp l1) s2) as W.
    destruct (write_packet be p (file_start_timestamp l1) s2); try discriminate.
    contradiction.
Qed.

(** *** What is true of every step is true of the file *)

Section Loop.

Variable K : locals -> state -> Prop.
Variables (mark_in mark_out : Z).

Hypothesis K_infile : forall l s f, K l s -> K (set_infile f l) s.
Hypothesis K_buff : forall l s b, K l s -> K l (set_buff b s).
Hypothesis K_packet : forall l s d, K l s -> K l (set_packet d s).
Hypothesis K_route :
  forall l s l' s',
    K l s -> route be no_meta frame_interval mark_in mark_out l s = Ok l' s' ->
    K l' s'.

Lemma append_loop_invariant (fuel : nat) :
  forall l s, (remaining (infile l) < fuel)%nat -> K l s ->
    post (fun l' s' => K l' s') (fun _ => True)
         (append_loop be no_meta frame_interval fuel mark_in mark_out l s).
Proof.
  induction fuel as [|fuel IH]; intros l s R Hs; [lia|].
  cbn [append_loop]. destruct (feof (infile l)); [exact Hs|].
  unfold bind at 1.
  destruct (read_tag_frame l s) as (r & s1 & E & H). rewrite E.
  destruct r as [l1|].
  - destruct H as (R1 & f & b & d & -> & ->).
    assert (K1 : K (set_infile f l) (set_packet d (set_buff b s)))
      by (apply K_packet, K_buff, K_infile; exact Hs).
    unfold bind at 1.
    pose proof (route_returns mark_in mark_out (set_infile f l)
                  (set_packet d (set_buff b s))) as NT.
    pose proof (route_infile be no_meta frame_interval mark_in mark_out (set_infile f l)) as RI.
    destruct (route be no_meta frame_interval mark_in mark_out (set_infile f l)
                    (set_packet d (set_buff b s))) as [l2 s2| | |] eqn:Rt;
      cbn; try exact I; [|contradiction].
    apply IH.
    + rewrite (RI l2 _ s2 Rt). lia.
    + eapply K_route; [exact K1|exact Rt].
  - destruct H as [b ->]. cbn. apply K_buff. exact Hs.
Qed.

Lemma append_file_invariant (bytes : list Z) (s0 : state) :
  (forall f, K (mkLocals (-999999) (-1) (last_video_timestamp s0) f) s0) ->
  post (fun _ s' => exists l', K l' s') (fun _ => True)
       (append_file be no_meta frame_interval (Some bytes) mark_in mark_out s0).
Proof.
  intros K0. unfold append_file. rewrite bind_gets. unfold bind at 1.
  pose proof (open_input_frame bytes s0) as O.
  destruct (open_input be bytes s0) as [[f|] s1| | |];
    try exact I; try contradiction.
  - destruct O as [[b ->] R].
    pose proof (append_loop_invariant (S (length bytes))
                  (mkLocals (-999999) (-1) (last_video_timestamp s0) f)
                  (set_buff b s0)) as L.
    cbn [infile] in L. specialize (L ltac:(lia) (K_buff _ _ _ (K0 f))).
    unfold bind.
    destruct (append_loop be no_meta frame_interval (S (length bytes)) mark_in mark_out
                (mkLocals (-999999) (-1) (last_video_timestamp s0) f) (set_buff b s0))
      as [l' s'| | |]; cbv beta iota delta [post ret] in L |- *; try exact L.
    exists l'. exact L.
  - destruct O as [[b ->] _]. cbv beta iota delta [post ret].
    exists (mkLocals (-999999) (-1) (last_video_timestamp s0) (fopen_rb [])).
    apply K_buff, K0.
Qed.

End Loop.


(** *** What the flush writes *)

Lemma write_packet_written (q r : FLVpacket) (off : Z) (s s' : state) :
  write_packet be q off s = Ok r s' ->
  seq_header_pkt s' = seq_header_pkt s /\ first_time s' = first_time s
  /\ pktarray s' = pktarray s
  /\ ((written s' = written s /\ type q = 8)
      \/ written s' = written s ++ [copy_packet (shifted off q)]).
Proof.
  intros H. pose proof (write_packet_cases be q off s) as C. rewrite H in C.
  destruct C as [_ [[Ov ->]|[_ [f [_ ->]]]]].
  - repeat split. left. split; [reflexivity|].
    unfold overlapping in Ov. apply andb_true_iff in Ov. destruct Ov as [T _].
    apply Z.eqb_eq in T. exact T.
  - repeat split. right. reflexivity.
Qed.

Lemma flush_loop_cons_inv (e : FLVpacket) (rest : list FLVpacket) (off : Z)
    (s s' : state) :
  flush_loop be (e :: rest) off s = Ok tt s' ->
  exists s1 r s2,
    ((s1 = s /\ (seq_header_pkt s = None \/ type e <> 9))
     \/ (exists sh r0 s0,
           seq_header_pkt s = Some sh /\ type e = 9
           /\ write_packet be (set_timestamp (timestamp e) sh) off s = Ok r0 s0
           /\ s1 = set_seq_header_pkt None s0))
    /\ write_packet be e off s1 = Ok r s2
    /\ flush_loop be rest off s2 = Ok tt s'.
Proof.
  cbn [flush_loop]. unfold bind at 1, gets. unfold bind at 1.
  destruct (seq_header_pkt s) as [sh|] eqn:Q.
  - destruct (Z.eqb_spec (type e) 9) as [T|T].
    + unfold bind at 1.
      destruct (write_packet be (set_timestamp (timestamp e) sh) off s)
        as [r0 s0| | |] eqn:W0; try discriminate.
      unfold modify. unfold bind at 1.
      destruct (write_packet be e off (set_seq_header_pkt None s0))
        as [r s2| | |] eqn:W; try discriminate.
      intros F. exists (set_seq_header_pkt None s0), r, s2.
      split; [|split; [exact W|exact F]].
      right. exists sh, r0, s0. auto.
    + unfold ret at 1. unfold bind at 1.
      destruct (write_packet be e off s) as [r s2| | |] eqn:W; try discriminate.
      intros F. exists s, r, s2. split; [|split; [exact W|exact F]]. left. auto.
  - unfold ret at 1. unfold bind at 1.
    destruct (write_packet be e off s) as [r s2| | |] eqn:W; try discriminate.
    intros F. exists s, r, s2. split; [|split; [exact W|exact F]]. left. auto.
Qed.

(** A flush that ends with a video packet writes it last. *)
Lemma flush_ends_with_video (e : FLVpacket) (off : Z) (pre : list FLVpacket) :
  type e = 9 ->
  forall s s', flush_loop be (pre ++ [e]) off s = Ok tt s' ->
    exists ws, written s' = written s ++ ws ++ [copy_packet (shifted off e)].
Proof.
  intros T. induction pre as [|a pre IH]; intros s s' F.
  - cbn [app] in F. apply flush_loop_cons_inv in F.
    destruct F as (s1 & r & s2 & H & W & F). cbn [flush_loop] in F.
    inversion F. subst s'. clear F.
    apply write_packet_written in W. destruct W as (_ & _ & _ & [[_ T8]|W]);
      [rewrite T in T8; discriminate|].
    destruct H as [[-> _]|(sh & r0 & s0 & _ & _ & W0 & ->)].
    + exists []. exact W.
    + apply write_packet_written in W0. destruct W0 as (_ & _ & _ & [[W0 _]|W0]);
        cbn [written set_seq_header_pkt] in W; rewrite W0 in W.
      * exists []. exact W.
      * rewrite <- app_assoc in W. eexists. exact W.
  - cbn [app] in F. apply flush_loop_cons_inv in F.
    destruct F as (s1 & r & s2 & H & W & F).
    destruct (IH s2 s' F) as (ws & E).
    assert (G : exists w1, written s1 = written s ++ w1).
    { destruct H as [[-> _]|(sh & r0 & s0 & _ & _ & W0 & ->)].
      - exists []. rewrite app_nil_r. reflexivity.
      - apply write_packet_written in W0. destruct W0 as (_ & _ & _ & [[W0 _]|W0]);
          cbn [written set_seq_header_pkt]; rewrite W0.
        + exists []. rewrite app_nil_r. reflexivity.
        + eexists. reflexivity. }
    destruct G as [w1 G].
    apply write_packet_written in W. destruct W as (_ & _ & _ & [[W _]|W]);
      rewrite E, W, G.
    + exists (w1 ++ ws). rewrite <- !app_assoc. reflexivity.
    + exists (w1 ++ [copy_packet (shifted off a)] ++ ws).
      rewrite <- !app_assoc. reflexivity.
Qed.

(** Audio packets and then a video packet: the first video packet written
    is the cached sequence header, if there is one, and otherwise the video
    packet, either with the shifted timestamp of the video packet. *)
Lemma flush_audio_then_video (e : FLVpacket) (off : Z) (pre : list FLVpacket) :
  type e = 9 -> Forall (fun a => type a = 8) pre ->
  forall s s', video_header s ->
    flush_loop be (pre ++ [e]) off s = Ok tt s' ->
    exists ws v,
      written s' = written s ++ ws /\ first_video ws = Some v
      /\ timestamp v = (timestamp e + off) mod 2 ^ 32.
Proof.
  intros T A. induction pre as [|a pre IH]; intros s s' Vh F.
  - cbn [app] in F. apply flush_loop_cons_inv in F.
    destruct F as (s1 & r & s2 & H & W & F). cbn [flush_loop] in F.
    inversion F. subst s'. clear F.
    apply write_packet_written in W. destruct W as (_ & _ & _ & [[_ T8]|W]);
      [rewrite T in T8; discriminate|].
    destruct H as [[-> _]|(sh & r0 & s0 & Q & _ & W0 & ->)].
    + exists [copy_packet (shifted off e)], (copy_packet (shifted off e)).
      split; [exact W|]. split; [|reflexivity].
      unfold first_video. cbn [find].
      change (type (copy_packet (shifted off e))) with (type e). rewrite T. reflexivity.
    + pose proof (Vh sh Q) as Tsh.
      apply write_packet_written in W0. destruct W0 as (_ & _ & _ & [[_ T8]|W0]).
      { change (type (set_timestamp (timestamp e) sh)) with (type sh) in T8.
        rewrite Tsh in T8. discriminate. }
      cbn [written set_seq_header_pkt] in W. rewrite W0, <- app_assoc in W.
      exists ([copy_packet (shifted off (set_timestamp (timestamp e) sh))]
              ++ [copy_packet (shifted off e)]),
             (copy_packet (shifted off (set_timestamp (timestamp e) sh))).
      split; [exact W|]. split; [|reflexivity].
      unfold first_video. cbn [find app].
      change (type (copy_packet (shifted off (set_timestamp (timestamp e) sh))))
        with (type sh).
      rewrite Tsh. reflexivity.
  - apply Forall_cons_iff in A as [Ta A].
    cbn [app] in F. apply flush_loop_cons_inv in F.
    destruct F as (s1 & r & s2 & H & W & F).
    destruct H as [[-> _]|(sh & r0 & s0 & _ & T9 & _)];
      [|rewrite Ta in T9; discriminate].
    apply write_packet_written in W. destruct W as (Q & _ & _ & W).
    assert (Vh2 : video_header s2) by (unfold video_header; rewrite Q; exact Vh).
    destruct (IH A s2 s' Vh2 F) as (ws & v & E & Fv & Tv).
    destruct W as [[W _]|W]; rewrite E, W.
    + exists ws, v. auto.
    + exists ([copy_packet (shifted off a)] ++ ws), v.
      split; [rewrite <- app_assoc; reflexivity|]. split; [|exact Tv].
      unfold first_video. cbn [find app].
      change (type (copy_packet (shifted off a))) with (type a). rewrite Ta.
      exact Fv.
Qed.


(** *** A file writes nothing before it has flushed *)

Lemma append_file_pending (bytes : list Z) (mark_in mark_out : Z) (s0 : state) :
  post (fun _ s' =>
          exists new,
            written s' = written s0 ++ new
            /\ (new = [] -> exists more, pktarray s' = pktarray s0 ++ more)
            /\ (new <> [] -> has_video new))
       (fun _ => True)
       (append_file be no_meta frame_interval (Some bytes) mark_in mark_out s0).
Proof.
  set (W0 := written s0). set (P0 := pktarray s0).
  set (K := fun (l : locals) (s : state) =>
              (only_buffered W0 P0 s \/ wrote_video W0 s)
              /\ (file_start_timestamp l <> -999999 -> wrote_video W0 s)).
  eapply post_weaken; [apply (append_file_invariant K mark_in mark_out)| |auto].
  - intros l s f H. exact H.
  - intros l s b H. exact H.
  - intros l s d H. exact H.
  - intros l s l' s' [GV St] R.
    apply route_step in R. destruct R as [_ R].
    assert (Same : written s' = written s -> wrote_video W0 s -> wrote_video W0 s').
    { intros E (new & Wn & V). exists new. rewrite E. auto. }
    destruct R as [(FS & Pk & Wr & _)
                  |[(_ & FS & _ & _ & ->)
                   |[(_ & T9 & _ & _ & _ & s2 & F & ->)
                    |(FS & FS' & _ & _ & r & s2 & Wp & ->)]]].
    + split.
      * destruct GV as [[Gw [more Gp]]|V]; [left|right; auto].
        split; [rewrite Wr; exact Gw|]. exists more. rewrite Pk. exact Gp.
      * rewrite FS. intros N. apply Same; auto.
    + split; [|intros N; contradiction].
      destruct GV as [[Gw [more Gp]]|V]; [left|right; apply Same; auto].
      split; [exact Gw|]. cbn [pktarray set_pktarray]. rewrite Gp.
      eexists. rewrite <- app_assoc. reflexivity.
    + assert (V : wrote_video W0 (set_pktarray [] s2)).
      { apply flush_ends_with_video in F; [|exact T9].
        destruct F as (ws0 & E).
        set (ws := ws0 ++ [copy_packet
                             (shifted (file_start_timestamp l')
                                      (copy_packet (packet s)))]) in *.
        assert (V : has_video ws).
        { apply Exists_app. right. constructor. exact T9. }
        assert (A : exists new, written s = W0 ++ new).
        { destruct GV as [[Gw _]|(new & Wn & _)].
          - exists []. rewrite app_nil_r. exact Gw.
          - exists new. exact Wn. }
        destruct A as [new Wn].
        exists (new ++ ws). cbn [written set_pktarray]. rewrite E.
        replace (written (set_pktarray (pktarray s ++ [copy_packet (packet s)])
                            (if first_time s then set_first_time false s else s)))
          with (written s) by (destruct (first_time s); reflexivity).
        rewrite Wn, app_assoc. split; [reflexivity|].
        apply Exists_app. right. exact V. }
      split; [right; exact V|intros _; exact V].
    + assert (V : wrote_video W0 (set_packet r s2)).
      { destruct (St FS) as (new & Wn & V).
        apply write_packet_written in Wp. destruct Wp as (_ & _ & _ & [[Wp _]|Wp]).
        - exists new. cbn [written set_packet]. rewrite Wp. auto.
        - eexists. cbn [written set_packet]. rewrite Wp, Wn, <- app_assoc.
          split; [reflexivity|]. apply Exists_app. left. exact V. }
      split; [right; exact V|intros _; exact V].
  - intros f. split; [|intros N; contradiction]. left.
    split; [reflexivity|]. exists []. rewrite app_nil_r. reflexivity.
  - cbv beta. intros _ s' [l' [[[Gw [more Gp]]|(new & Wn & V)] _]].
    + exists []. rewrite app_nil_r. split; [exact Gw|].
      split; [intros _; exists more; exact Gp|intros N; contradiction].
    + exists new. split; [exact Wn|]. split; [|intros _; exact V].
      intros ->. inversion V.
Qed.

(** *** The first video packet of a later file *)

Lemma first_video_app (l1 l2 : list FLVpacket) (v : FLVpacket) :
  first_video l1 = Some v -> first_video (l1 ++ l2) = Some v.
Proof.
  unfold first_video. induction l1 as [|a l1 IH]; cbn [find app]; [discriminate|].
  destruct (type a =? 9); [auto|exact IH].
Qed.


Lemma append_file_resumes (bytes : list Z) (mark_in mark_out : Z) (s0 : state) :
  first_time s0 = false -> pending_audio s0 -> video_header s0 ->
  post (fun _ s' =>
          exists new,
            written s' = written s0 ++ new
            /\ forall v, first_video new = Some v ->
                 timestamp v = (last_video_timestamp s0 + frame_interval) mod 2 ^ 32)
       (fun _ => True)
       (append_file be no_meta frame_interval (Some bytes) mark_in mark_out s0).
Proof.
  intros F0 A0 H0.
  set (W0 := written s0). set (V0 := last_video_timestamp s0).
  set (t := (V0 + frame_interval) mod 2 ^ 32).
  set (K := fun (l : locals) (s : state) =>
              lastfile_video_timestamp l = V0
              /\ (file_start_timestamp l = -999999 -> seeking W0 s)
              /\ (file_start_timestamp l <> -999999 -> video_resumed_at W0 t s)).
  eapply post_weaken; [apply (append_file_invariant K mark_in mark_out)| |auto].
  - intros l s f H. exact H.
  - intros l s b H. exact H.
  - intros l s d H. exact H.
  - intros l s l' s' (Lf & Sk & St) R.
    apply route_step in R. destruct R as [Lf' R]. rewrite Lf in Lf'.
    destruct R as [(FS & Pk & Wr & Ft & Sq & _)
                  |[(FS0 & FS & T8 & _ & ->)
                   |[(FS0 & T9 & _ & _ & FS & s2 & F & ->)
                    |(FS & FS' & _ & _ & r & s2 & Wp & ->)]]].
    + split; [exact Lf'|]. rewrite FS. split.
      * intros N. destruct (Sk N) as (A & B & C & D).
        unfold seeking, pending_audio, video_header.
        rewrite Ft, Wr, Pk. repeat split; try assumption.
        destruct Sq as [Sq|[T9 Sq]]; rewrite Sq; [exact D|].
        intros sh E. inversion E. exact T9.
      * intros N. destruct (St N) as (new & v & Wn & Fv & Tv).
        exists new, v. rewrite Wr. auto.
    + split; [exact Lf'|]. split; [|intros N; contradiction].
      intros _. destruct (Sk FS0) as (A & B & C & D).
      unfold seeking, pending_audio. cbn [first_time written pktarray set_pktarray].
      repeat split; try assumption.
      apply Forall_app. split; [exact C|]. constructor; [exact T8|constructor].
    + destruct (Sk FS0) as (A & B & C & D).
      rewrite A in FS, F. rewrite Lf in FS.
      assert (P : 0 <= file_start_timestamp l') by (rewrite FS; apply Z.mod_pos_bound; lia).
      split; [exact Lf'|]. split; [intros N; lia|]. intros _.
      apply flush_audio_then_video in F;
        [|exact T9|exact C|exact D].
      destruct F as (ws & v & E & Fv & Tv).
      exists ws, v. cbn [written set_pktarray]. rewrite E.
      cbn [written set_pktarray]. split; [rewrite B; reflexivity|].
      split; [exact Fv|]. rewrite Tv.
      change (timestamp (copy_packet (packet s))) with (timestamp (packet s)).
      rewrite FS. unfold t. rewrite Zplus_mod_idemp_r. f_equal. lia.
    + split; [exact Lf'|]. rewrite FS'. split; [intros N; contradiction|].
      intros _. destruct (St FS) as (new & v & Wn & Fv & Tv).
      apply write_packet_written in Wp. destruct Wp as (_ & _ & _ & [[Wp _]|Wp]).
      * exists new, v. cbn [written set_packet]. rewrite Wp. auto.
      * eexists. exists v. cbn [written set_packet]. rewrite Wp, Wn, <- app_assoc.
        split; [reflexivity|]. split; [|exact Tv].
        apply first_video_app. exact Fv.
  - intros f. split; [reflexivity|]. split; [|intros N; contradiction].
    intros _. repeat split; assumption.
  - cbv beta. intros _ s' [l' (_ & Sk & St)].
    destruct (Z.eq_dec (file_start_timestamp l') (-999999)) as [N|N].
    + destruct (Sk N) as (_ & B & _). exists []. rewrite app_nil_r.
      split; [exact B|]. intros v E. discriminate E.
    + destruct (St N) as (new & v & Wn & Fv & Tv).
      exists new. split; [exact Wn|]. intros v' E. rewrite Fv in E.
      inversion E. subst v'. exact Tv.
Qed.

End FileFacts.

(* ================================================================= *)
(** * The properties of the specification *)

Section Claims.
Import DataConv Stdio FlvJoinH Metadata Machine FlvJoin Spec.
Open Scope flv_scope.

(** C7.  For each binary primitive codec pair (16-bit unsigned, 24-bit
    unsigned without and with the extension high byte, 32-bit unsigned,
    64-bit double) decoding the encoded wire bytes recovers the original
    value, for every representable value and on hosts of either byte order.
    A double is taken by its 64-bit encoding. *)
Theorem primitive_codecs_roundtrip (be : bool) (x16 x24 x32 : Z) (d : double) :
  0 <= x16 < 2 ^ 16 -> 0 <= x24 < 2 ^ 24 -> 0 <= x32 < 2 ^ 32 ->
  0 <= d < 2 ^ 64 ->
  conv_ui16 be (format_ui16 be x16) = x16 /\
  conv_ui24 be (format_ui24 be x24) 0 = x24 /\
  conv_ui24 be (format_ui24 be x32) (nth 3 (format_ui24 be x32) 0) = x32 /\
  conv_ui32 be (format_ui32 be x32) = x32 /\
  conv_double be (format_double be d) = d.
Proof.
  intros H16 H24 H32 H64.
  repeat split.
  - apply ui16_roundtrip; assumption.
  - apply ui24_roundtrip; assumption.
  - apply ui24_ext_roundtrip; assumption.
  - apply ui32_roundtrip; assumption.
  - apply double_roundtrip; assumption.
Qed.

Lemma primitive_codecs_roundtrip_witness :
  conv_ui16 false (format_ui16 false 65535) = 65535 /\
  conv_ui24 false (format_ui24 false 16777215) 0 = 16777215 /\
  conv_ui24 false (format_ui24 false 4294967295)
            (nth 3 (format_ui24 false 4294967295) 0) = 4294967295 /\
  conv_ui32 false (format_ui32 false 4294967295) = 4294967295 /\
  conv_double false (format_double false (Double.of_Z 1)) = Double.of_Z 1.
Proof.
  apply (primitive_codecs_roundtrip false 65535 16777215 4294967295 (Double.of_Z 1));
    vm_compute; split; congruence.
Defined.

(** The record of written packets and the order of the audio timestamps at
    the end of [main]; [main] always ends. *)
Lemma main_spec (be no_meta : bool) (frame_interval audio_bitrate : Z)
    (lim : option nat) (lines : list input_line) :
  post (fun _ s => audio_ok s) audio_ok
       (main be no_meta frame_interval audio_bitrate lim lines).
Proof.
  unfold main.
  pose proof (join_spec be no_meta frame_interval lim lines) as J.
  destruct (join be no_meta frame_interval lim lines) as [a s|c s| |];
    cbv beta iota delta [post] in J |- *; try exact J.
  destruct J as (H0 & P0 & O0 & [[A _] _] & _).
  destruct no_meta; [exact A|].
  unfold finalize. destruct (final_duration _ _ s); [|exact I].
  destruct (write_metadata be (meta s) (outfile s) z) as [m f]. exact A.
Qed.

(** C2.  Emitted audio timestamps strictly increase across the whole joined
    output.  [last_audio_timestamp] starts below every timestamp; an audio
    packet whose shifted timestamp is not above it is dropped and nothing is
    written; an audio packet that is written is above it and becomes the new
    value; at the end of a run, and at an [exit], the audio timestamps of the
    packets written increase strictly; up to the final metadata patch the
    output consists of the bytes of these packets after the header. *)
Theorem audio_timestamps_strictly_increase
    (be no_meta : bool) (frame_interval audio_bitrate : Z)
    (lim : option nat) (lines : list input_line)
    (p : FLVpacket) (off : Z) (s : state) :
  type p = 8 ->
  last_audio_timestamp (state0 (fopen_wb lim)) < 0 <= timestamp (shifted off p)
  /\ (timestamp (shifted off p) <= last_audio_timestamp s ->
      write_packet be p off s = Ok (shifted off p) s)
  /\ (forall r s', write_packet be p off s = Ok r s' -> written s' <> written s ->
      last_audio_timestamp s < timestamp (shifted off p)
      /\ written s' = written s ++ [copy_packet (shifted off p)]
      /\ last_audio_timestamp s' = timestamp (shifted off p))
  /\ post (fun _ s' => increasing (audio_timestamps (written s')))
          (fun s' => increasing (audio_timestamps (written s')))
          (main be no_meta frame_interval audio_bitrate lim lines)
  /\ post (fun _ s' => exists H0,
             contents (outfile s') = H0 ++ concat (map (tag_bytes be) (written s')))
          (fun _ => True)
          (join be no_meta frame_interval lim lines).
Proof.
  intros T.
  assert (Ty : (type (shifted off p) =? 8) = true) by (apply Z.eqb_eq; exact T).
  split; [|split; [|split; [|split]]].
  - split; [reflexivity|]. unfold shifted. cbn [timestamp set_timestamp].
    apply Z.mod_pos_bound. lia.
  - intros L. unfold write_packet, bind at 1, gets. fold (shifted off p).
    rewrite Ty. apply Z.leb_le in L. rewrite L. reflexivity.
  - intros r s' W N. pose proof (write_packet_cases be p off s) as H.
    rewrite W in H. destruct H as [_ [[_ ->]|[Ov [f [_ ->]]]]]; [contradiction|].
    unfold overlapping in Ov. rewrite Ty in Ov. cbn [andb] in Ov.
    apply Z.leb_gt in Ov. split; [exact Ov|]. split; [reflexivity|].
    cbn [last_audio_timestamp note_written]. rewrite Ty. reflexivity.
  - eapply post_weaken; [apply main_spec| |]; cbv beta; intros; unfold audio_ok in *; tauto.
  - eapply post_weaken; [apply join_spec| |]; cbv beta; [|auto].
    intros _ s' (H0 & P0 & O0 & [(_ & _ & _ & X & _) _] & _). exists H0. exact X.
Qed.

Lemma audio_timestamps_strictly_increase_witness :
  write_packet false (mkPacket 8 4 0 0 Examples.audio 15) 0
               (note_written (mkPacket 8 4 0 0 Examples.audio 15)
                             (state0 (fopen_wb None)))
  = Ok (mkPacket 8 4 0 0 Examples.audio 15)
       (note_written (mkPacket 8 4 0 0 Examples.audio 15) (state0 (fopen_wb None)))
  /\ post (fun _ s' => increasing (audio_timestamps (written s')))
          (fun s' => increasing (audio_timestamps (written s')))
          (main false true 100 32000 None
                [Examples.line Examples.file_a; Examples.line Examples.file_a]).
Proof.
  destruct (audio_timestamps_strictly_increase false true 100 32000 None
              [Examples.line Examples.file_a; Examples.line Examples.file_a]
              (mkPacket 8 4 0 0 Examples.audio 15) 0
              (note_written (mkPacket 8 4 0 0 Examples.audio 15)
                            (state0 (fopen_wb None)))
              eq_refl)
    as (_ & D & _ & M & _).
  split; [|exact M].
  apply D. vm_compute. discriminate.
Defined.

(** C1 (amended).  While the offset of the file is undetermined, a video key
    frame inside the marks that is not taken as sequence header fixes it.
    If no file has fixed an offset before, the offset is minus the timestamp
    of the first key frame of this file inside the marks, audio packets
    counting as key frames: the video key frame's own timestamp only when no
    such audio packet came first, and then the frame is written at 0.
    Otherwise the offset is [lastfile_video_timestamp + frame_interval -
    timestamp] in 32-bit unsigned arithmetic and the frame is written at
    [(lastfile_video_timestamp + frame_interval) mod 2^32].  The frame is the
    last packet written by the step.  [lastfile_video_timestamp] is the value
    [last_video_timestamp] had when the file was opened: in every file that
    [append_file] joins after a file has fixed an offset, the first video
    packet written, if there is one, has the timestamp
    [(last_video_timestamp + frame_interval) mod 2^32], with
    [last_video_timestamp] as it stood at the opening of the file; and
    [append_file] never runs out of rounds. *)
Theorem key_frame_fixes_offset
    (be no_meta : bool) (frame_interval mark_in mark_out : Z)
    (l : locals) (s : state) :
  ready s -> wf_packet (packet s) -> type (packet s) = 9 ->
  (2 <= length (data (packet s)))%nat ->
  (seq_header_pkt s = None -> is_sequence_header (packet s) = false) ->
  mark_in <= timestamp (packet s) < mark_out ->
  is_key_frame (packet s) = true ->
  file_start_timestamp l = -999999 ->
  let p := packet s in
  let fk := if first_keyframe_timestamp l =? -1 then timestamp p
            else first_keyframe_timestamp l in
  (exists l' s',
    route be no_meta frame_interval mark_in mark_out l s = Ok l' s'
    /\ file_start_timestamp l' =
       (if first_time s then - fk
        else (lastfile_video_timestamp l + frame_interval - timestamp p) mod 2 ^ 32)
    /\ first_time s' = false
    /\ (exists w, written s' =
                  w ++ [copy_packet (shifted (file_start_timestamp l') p)])
    /\ last_video_timestamp s' = (timestamp p + file_start_timestamp l') mod 2 ^ 32
    /\ (first_time s = false ->
        last_video_timestamp s' =
        (lastfile_video_timestamp l + frame_interval) mod 2 ^ 32)
    /\ (first_time s = true -> first_keyframe_timestamp l = -1 ->
        file_start_timestamp l' = - timestamp p /\ last_video_timestamp s' = 0))
  /\ (forall (bytes : list Z) (s0 : state),
        first_time s0 = false -> pending_audio s0 -> video_header s0 ->
        post (fun _ sf =>
                exists new,
                  written sf = written s0 ++ new
                  /\ forall v, first_video new = Some v ->
                       timestamp v =
                       (last_video_timestamp s0 + frame_interval) mod 2 ^ 32)
             (fun _ => True)
             (append_file be no_meta frame_interval (Some bytes)
                          mark_in mark_out s0)).
Proof.
  intros R W T Len NS Mk KF FS p fk.
  split; [|intros bytes s0; apply append_file_resumes].
  pose proof (route_flush be no_meta frame_interval mark_in mark_out l s
                R W T Len NS Mk KF FS) as E.
  cbv zeta in E. fold p in E. fold fk in E.
  set (start := if first_time s then - fk
                else (lastfile_video_timestamp l + frame_interval - timestamp p) mod 2 ^ 32) in *.
  set (s1 := if first_time s then set_first_time false s else s) in *.
  set (s2 := set_pktarray (pktarray s ++ [copy_packet p]) s1) in *.
  eexists. eexists. split; [exact E|].
  cbn [file_start_timestamp].
  rewrite flush_pure_app.
  set (s3 := flush_pure be start (pktarray s) s2).
  assert (F3 : first_time s3 = false).
  { subst s3. destruct (flush_pure_other be start (pktarray s) s2) as (A & _).
    rewrite A. subst s2 s1. destruct (first_time s) eqn:F; [reflexivity|exact F]. }
  cbn [flush_pure].
  set (s4 := match seq_header_pkt s3 with
             | Some sh => if type (copy_packet p) =? 9
                          then set_seq_header_pkt None
                                 (remux be start (set_timestamp (timestamp (copy_packet p)) sh) s3)
                          else s3
             | None => s3
             end).
  assert (F4 : first_time s4 = false).
  { subst s4. destruct (seq_header_pkt s3) as [sh|]; [|exact F3].
    destruct (type (copy_packet p) =? 9); [|exact F3].
    cbn [first_time set_seq_header_pkt].
    destruct (remux_other be (set_timestamp (timestamp (copy_packet p)) sh) start s3) as (A & _).
    rewrite A. exact F3. }
  destruct (remux_video be (copy_packet p) start s4 T) as (V & Wr & _).
  destruct (remux_other be (copy_packet p) start s4) as (A & _).
  cbn [first_time last_video_timestamp written set_pktarray].
  assert (C : copy_packet (shifted start (copy_packet p)) = copy_packet (shifted start p)).
  { unfold copy_packet, shifted. cbn. rewrite firstn_firstn, Nat.min_id. reflexivity. }
  assert (TS : timestamp (shifted start (copy_packet p)) = (timestamp p + start) mod 2 ^ 32)
    by reflexivity.
  split; [reflexivity|]. split; [rewrite A; exact F4|].
  split; [exists (written s4); rewrite Wr, C; reflexivity|].
  split; [rewrite V; exact TS|].
  split.
  - intros F. rewrite V, TS. subst start. rewrite F.
    rewrite Zplus_mod_idemp_r. f_equal. lia.
  - intros F K. rewrite V, TS. subst start fk. rewrite F.
    replace (first_keyframe_timestamp l =? -1) with true by (symmetry; apply Z.eqb_eq; exact K).
    split; [reflexivity|].
    replace (timestamp p + - timestamp p) with 0 by lia. reflexivity.
Qed.

Lemma key_frame_fixes_offset_witness :
  (exists l' s',
     route false true 100 0 99999000
           Examples.seeking_locals Examples.seeking_state = Ok l' s'
     /\ file_start_timestamp l' = -5
     /\ last_video_timestamp s' = 5)
  /\ last_video_timestamp Examples.resumed = 5
  /\ first_time Examples.resumed_state = false
  /\ timestamp (packet Examples.resumed_state) = 1000
  /\ (exists l' s',
        route false true 100 0 99999000
              Examples.resumed_locals Examples.resumed_state = Ok l' s'
        /\ file_start_timestamp l' = (5 + 100 - 1000) mod 2 ^ 32
        /\ last_video_timestamp s' = 105)
  /\ post (fun _ sf =>
             exists new,
               written sf = written Examples.resumed ++ new
               /\ forall v, first_video new = Some v -> timestamp v = 105)
          (fun _ => True)
          (append_file false true 100 (Some Examples.late_start) 0 99999000
                       Examples.resumed).
Proof.
  split.
  { destruct (key_frame_fixes_offset false true 100 0 99999000
                Examples.seeking_locals Examples.seeking_state)
      as [(l' & s' & E & F & _ & _ & V & _) _].
    - vm_compute. split; [reflexivity|]. split.
      + repeat constructor. discriminate.
      + discriminate.
    - vm_compute. discriminate.
    - reflexivity.
    - vm_compute. lia.
    - reflexivity.
    - vm_compute. split; [discriminate|reflexivity].
    - reflexivity.
    - reflexivity.
    - exists l', s'. split; [exact E|]. split; [exact F|].
      rewrite V, F. reflexivity. }
  destruct (key_frame_fixes_offset false true 100 0 99999000
              Examples.resumed_locals Examples.resumed_state)
    as [(l' & s' & E & F & _ & _ & _ & V & _) H].
  - vm_compute. split; [reflexivity|]. split.
    + repeat constructor; discriminate.
    + discriminate.
  - vm_compute. discriminate.
  - reflexivity.
  - vm_compute. lia.
  - reflexivity.
  - vm_compute. split; [discriminate|reflexivity].
  - reflexivity.
  - reflexivity.
  - split; [reflexivity|]. split; [reflexivity|]. split; [reflexivity|]. split.
    + exists l', s'. split; [exact E|]. split; [exact F|]. exact (V eq_refl).
    + apply (H Examples.late_start Examples.resumed).
      * reflexivity.
      * vm_compute. constructor.
      * intros sh Q. vm_compute in Q. discriminate Q.
Defined.

(** C1 as stated fails on the first file of a run whose audio starts before
    its first video key frame: at the key frame (timestamp 10) the offset
    becomes -5, minus the timestamp of the audio packet, and the frame is
    written at 5. *)
Lemma key_frame_offset_counterexample :
  first_time Examples.seeking_state = true
  /\ file_start_timestamp Examples.seeking_locals = -999999
  /\ type (packet Examples.seeking_state) = 9
  /\ is_key_frame (packet Examples.seeking_state) = true
  /\ timestamp (packet Examples.seeking_state) = 10
  /\ match route false true 100 0 99999000
                Examples.seeking_locals Examples.seeking_state with
     | Ok l' _ => file_start_timestamp l' = -5
     | _ => False
     end
  /\ Examples.trace (main false true 100 32000 None
                       [Examples.line Examples.audio_leads])
     = Some (0, [(8, 0, Examples.audio); (9, 5, Examples.key)]).
Proof. vm_compute. repeat split. Qed.

(** C3 (amended).  When the first key-frame video packet of a file fixes the
    offset while a Sequence Header is cached and audio packets are pending,
    the packets are written in this order: the pending packets in arrival
    order (those that overlap the audio already written are dropped), then
    the cached sequence header with its timestamp set to the key frame's,
    then the key frame; the cache and the Pending Buffer are then empty. *)
Theorem sequence_header_written_before_key_frame
    (be no_meta : bool) (frame_interval mark_in mark_out : Z)
    (l : locals) (s : state) (sh : FLVpacket) :
  ready s -> wf_packet (packet s) -> type (packet s) = 9 ->
  (2 <= length (data (packet s)))%nat ->
  mark_in <= timestamp (packet s) < mark_out ->
  is_key_frame (packet s) = true ->
  file_start_timestamp l = -999999 ->
  seq_header_pkt s = Some sh -> type sh = 9 -> pending_audio s ->
  exists l' s',
    route be no_meta frame_interval mark_in mark_out l s = Ok l' s'
    /\ written s' =
       written s
       ++ survivors (file_start_timestamp l') (last_audio_timestamp s) (pktarray s)
       ++ [copy_packet (shifted (file_start_timestamp l')
                                (set_timestamp (timestamp (packet s)) sh));
           copy_packet (shifted (file_start_timestamp l') (packet s))]
    /\ seq_header_pkt s' = None
    /\ pktarray s' = [].
Proof.
  intros R W T Len Mk KF FS Q Tsh PA.
  assert (NS : seq_header_pkt s = None -> is_sequence_header (packet s) = false)
    by (rewrite Q; discriminate).
  pose proof (route_flush be no_meta frame_interval mark_in mark_out l s
                R W T Len NS Mk KF FS) as E.
  cbv zeta in E.
  set (p := packet s) in *.
  set (fk := if first_keyframe_timestamp l =? -1 then timestamp p
             else first_keyframe_timestamp l) in *.
  set (start := if first_time s then - fk
                else (lastfile_video_timestamp l + frame_interval - timestamp p) mod 2 ^ 32) in *.
  set (s1 := if first_time s then set_first_time false s else s) in *.
  set (s2 := set_pktarray (pktarray s ++ [copy_packet p]) s1) in *.
  eexists. eexists. split; [exact E|].
  cbn [file_start_timestamp pktarray written seq_header_pkt set_pktarray].
  rewrite flush_pure_app.
  destruct (flush_pure_audio be start (pktarray s) s2 PA) as (A & B & _).
  set (s3 := flush_pure be start (pktarray s) s2) in *.
  assert (Q2 : seq_header_pkt s2 = Some sh)
    by (subst s2 s1; destruct (first_time s); exact Q).
  assert (W2 : written s2 = written s)
    by (subst s2 s1; destruct (first_time s); reflexivity).
  assert (L2 : last_audio_timestamp s2 = last_audio_timestamp s)
    by (subst s2 s1; destruct (first_time s); reflexivity).
  rewrite Q2 in A. rewrite W2, L2 in B.
  cbn [flush_pure]. rewrite A.
  change (type (copy_packet p)) with (type p). rewrite T.
  change (9 =? 9) with true. cbv iota.
  change (timestamp (copy_packet p)) with (timestamp p).
  destruct (remux_video be (set_timestamp (timestamp p) sh) start s3 Tsh) as (_ & Wh & _).
  set (s4 := set_seq_header_pkt None (remux be start (set_timestamp (timestamp p) sh) s3)).
  destruct (remux_video be (copy_packet p) start s4 T) as (_ & Wk & _).
  destruct (remux_other be (copy_packet p) start s4) as (_ & _ & Sq & _).
  rewrite Wk, Sq. subst s4. cbn [written seq_header_pkt set_seq_header_pkt].
  rewrite Wh, B, copy_packet_shifted.
  repeat split. rewrite <- !app_assoc. reflexivity.
Qed.

Lemma sequence_header_written_before_key_frame_witness :
  exists l' s',
    route false true 100 0 99999000
          Examples.config_locals Examples.config_state = Ok l' s'
    /\ written s' =
       written Examples.config_state
       ++ survivors (file_start_timestamp l')
                    (last_audio_timestamp Examples.config_state)
                    (pktarray Examples.config_state)
       ++ [copy_packet (shifted (file_start_timestamp l')
                                (set_timestamp (timestamp (packet Examples.config_state))
                                               (mkPacket 9 7 0 0 Examples.avc_config 18)));
           copy_packet (shifted (file_start_timestamp l') (packet Examples.config_state))]
    /\ seq_header_pkt s' = None
    /\ pktarray s' = [].
Proof.
  apply (sequence_header_written_before_key_frame false true 100 0 99999000
           Examples.config_locals Examples.config_state
           (mkPacket 9 7 0 0 Examples.avc_config 18)).
  - vm_compute. split; [reflexivity|]. split.
    + repeat constructor. discriminate.
    + intros sh H. inversion H. discriminate.
  - vm_compute. discriminate.
  - reflexivity.
  - vm_compute. lia.
  - vm_compute. split; [discriminate|reflexivity].
  - reflexivity.
  - reflexivity.
  - reflexivity.
  - reflexivity.
  - vm_compute. repeat constructor.
Defined.

(** C3 as stated fails on its own example: for a first file holding an AVC
    configuration record, an audio packet at 0 ms and a video key frame at
    0 ms, the packets are written in the order audio packet, configuration
    record, key frame. *)
Lemma sequence_header_order_counterexample :
  Examples.trace (main false true 100 32000 None
                       [Examples.line Examples.with_config])
  = Some (0, [(8, 0, Examples.audio); (9, 0, Examples.avc_config);
              (9, 0, Examples.avc_key)]).
Proof. vm_compute. reflexivity. Qed.

(** C4 (amended).  A video packet whose payload starts with a byte of low
    nibble 7 followed by a byte 0 (an AVC configuration record) that arrives
    while no Sequence Header is cached is not forwarded: it becomes the
    cached Sequence Header and nothing else changes.  One that arrives while
    a Sequence Header is cached does not replace it and is handled as an
    ordinary video packet: once the offset of the file is known and the
    packet lies inside the marks, it is written to the output.  The cache
    holds at most one packet. *)
Theorem configuration_record_cached_when_cache_empty
    (be no_meta : bool) (frame_interval mark_in mark_out : Z)
    (l : locals) (s : state) :
  is_sequence_header (packet s) = true ->
  (seq_header_pkt s = None ->
   route be no_meta frame_interval mark_in mark_out l s =
   Ok l (set_seq_header_pkt (Some (copy_packet (packet s))) s))
  /\ (forall sh,
        seq_header_pkt s = Some sh ->
        mark_in <= timestamp (packet s) < mark_out ->
        file_start_timestamp l <> -999999 ->
        limit (outfile s) = None -> wf_packet (packet s) ->
        exists l' s',
          route be no_meta frame_interval mark_in mark_out l s = Ok l' s'
          /\ seq_header_pkt s' = Some sh
          /\ written s' =
             written s ++ [copy_packet (shifted (file_start_timestamp l) (packet s))]).
Proof.
  intros IS. split.
  - intros Q. apply route_capture; assumption.
  - intros sh Q Mk FS L W.
    assert (T : type (packet s) = 9 /\ (2 <= length (data (packet s)))%nat).
    { unfold is_sequence_header in IS.
      destruct (data (packet s)) as [|d0 [|d1 rest]]; try discriminate.
      destruct (Z.eqb_spec (type (packet s)) 9); [|discriminate].
      cbn [length]. split; [assumption|lia]. }
    destruct T as [T Len].
    pose proof (route_stream be no_meta frame_interval mark_in mark_out l s
                  (or_intror T) (fun _ => Len)
                  ltac:(rewrite Q; discriminate) Mk FS L W) as E.
    cbv zeta in E. eexists. eexists. split; [exact E|].
    destruct (remux_video be (packet s) (file_start_timestamp l) s T) as (_ & Wr & _).
    destruct (remux_other be (packet s) (file_start_timestamp l) s) as (_ & _ & Sq & _).
    cbn [seq_header_pkt written set_packet]. rewrite Sq, Wr. split; [exact Q|reflexivity].
Qed.

Lemma configuration_record_cached_when_cache_empty_witness :
  route false true 100 0 99999000
        (Examples.locals_at 0 Examples.with_config)
        (Examples.state_at 0 Examples.with_config)
  = Ok (Examples.locals_at 0 Examples.with_config)
       (set_seq_header_pkt
          (Some (copy_packet (packet (Examples.state_at 0 Examples.with_config))))
          (Examples.state_at 0 Examples.with_config))
  /\ exists l' s',
       route false true 100 0 99999000
             (Examples.locals_at 3 Examples.late_configs)
             (Examples.state_at 3 Examples.late_configs) = Ok l' s'
       /\ seq_header_pkt s' = Some (mkPacket 9 7 40 0 Examples.avc_config2 18)
       /\ written s' =
          written (Examples.state_at 3 Examples.late_configs)
          ++ [copy_packet
                (shifted (file_start_timestamp (Examples.locals_at 3 Examples.late_configs))
                         (packet (Examples.state_at 3 Examples.late_configs)))].
Proof.
  split.
  - apply (configuration_record_cached_when_cache_empty false true 100 0 99999000
             (Examples.locals_at 0 Examples.with_config)
             (Examples.state_at 0 Examples.with_config));
      reflexivity.
  - apply (configuration_record_cached_when_cache_empty false true 100 0 99999000
             (Examples.locals_at 3 Examples.late_configs)
             (Examples.state_at 3 Examples.late_configs)).
    + reflexivity.
    + reflexivity.
    + vm_compute. split; [discriminate|reflexivity].
    + vm_compute. discriminate.
    + reflexivity.
    + vm_compute. discriminate.
Defined.

(** C4 as stated fails when a configuration record arrives while one is
    cached: in a first file with two configuration records before its audio,
    the second record does not replace the first and is written to the output
    as a video key frame, after the first. *)
Lemma configuration_record_counterexample :
  Examples.trace (main false true 100 32000 None
                       [Examples.line Examples.two_configs])
  = Some (0, [(9, 0, Examples.avc_config); (9, 0, Examples.avc_config2);
              (8, 0, Examples.audio)]).
Proof. vm_compute. reflexivity. Qed.

(** C6 (amended).  With the marks of the input line ([mark_in] 0 and
    [mark_out] 99999 s when the line gives none), an audio or video packet
    that is not captured as Sequence Header and whose source timestamp is
    below [mark_in] or not below [mark_out] is dropped before state handling:
    the step leaves the whole state unchanged (nothing buffered, nothing
    written, the continuity counters, the Sequence Header cache and the
    metadata as they were).  Script packets and the capture of a
    configuration record come before the trimming and are not subject to
    it. *)
Theorem packets_outside_marks_are_dropped
    (be no_meta : bool) (frame_interval mark_in mark_out : Z)
    (l : locals) (s : state) (file : option (list Z)) :
  type (packet s) = 8 \/ type (packet s) = 9 ->
  (type (packet s) = 9 -> (2 <= length (data (packet s)))%nat) ->
  (seq_header_pkt s = None -> is_sequence_header (packet s) = false) ->
  timestamp (packet s) < mark_in \/ mark_out <= timestamp (packet s) ->
  route be no_meta frame_interval mark_in mark_out l s = Ok l s
  /\ marks_of_line (mkLine file None None) = (Some 0, Some 99999000).
Proof.
  intros T Len NS Tr. split; [|reflexivity].
  apply route_trim; try assumption.
  - destruct T as [T|T]; rewrite T; discriminate.
  - intros T9 _. apply Len. exact T9.
Qed.

Lemma packets_outside_marks_are_dropped_witness :
  route false true 100 1000 99999000
        Examples.seeking_locals Examples.seeking_state
  = Ok Examples.seeking_locals Examples.seeking_state
  /\ marks_of_line (mkLine None None None) = (Some 0, Some 99999000).
Proof.
  apply (packets_outside_marks_are_dropped false true 100 1000 99999000
           Examples.seeking_locals Examples.seeking_state None).
  - right. reflexivity.
  - intros _. vm_compute. lia.
  - intros _. reflexivity.
  - left. vm_compute. reflexivity.
Defined.

(** C6 as stated fails for a configuration record: with an in point of 1 s,
    the record at 0 ms is cached all the same and is written to the output
    before the first key frame inside the marks. *)
Lemma packets_outside_marks_counterexample :
  marks_of_line (Examples.from_one_second Examples.early_config)
  = (Some 1000, Some 99999000)
  /\ Examples.trace (main false true 100 32000 None
                          [Examples.from_one_second Examples.early_config])
     = Some (0, [(8, 0, Examples.audio); (9, 0, Examples.avc_config);
                 (9, 0, Examples.avc_key)]).
Proof. vm_compute. split; reflexivity. Qed.




(** C9 (amended).  During script-data decoding a variable type byte the
    decoder does not know does not abort anything: the variable counts as
    having no numerical value (-1) and no payload, so the cursor moves past
    the type byte only and the metadata collected so far is kept; the loop
    of [extract_metadata] that met it after a name goes on with the bytes
    that follow, as the next name/value pair. *)
Theorem unrecognized_variant_tag_is_skipped
    (be : bool) (fuel rounds : nat) (data : list Z) (pos0 pos : nat)
    (m : FLVmetadata) (t : Z) (l2 name : list Z) (datasize : Z) (found : bool) :
  peek data pos 1 = Done [t] -> handled_tag t = false ->
  peek data pos0 2 = Done l2 ->
  parse_script_string data (pos0 + 2) (conv_ui16 be l2) true = Done (name, pos) ->
  Z.of_nat pos0 <= (datasize - 6) mod 2 ^ 32 ->
  parse_number be (S fuel) data pos m = Done (Double.minus_one, S pos, m)
  /\ extract_loop be (S rounds) data datasize pos0 found m =
     extract_loop be rounds data datasize (S pos)
                  (found || streq name s_onMetaData) m.
Proof.
  intros P H P2 St B.
  assert (PN : forall f, parse_number be (S f) data pos m = Done (Double.minus_one, S pos, m)).
  { intros f. cbn [parse_number]. rewrite P. cbn [rbind nth].
    unfold handled_tag in H.
    repeat (apply orb_false_iff in H; destruct H as [H ?]).
    repeat match goal with
           | E : (t =? ?k) = false |- _ => rewrite E; clear E
           end.
    reflexivity. }
  split; [apply PN|].
  cbn [extract_loop].
  replace (Z.of_nat pos0 <=? (datasize - 6) mod 2 ^ 32) with true
    by (symmetry; apply Z.leb_le; exact B).
  rewrite P2. cbn [rbind]. rewrite St. cbn [rbind].
  rewrite PN. cbn [rbind].
  assert (A : add_meta_item name Double.minus_one m = Done m) by reflexivity.
  rewrite A. reflexivity.
Qed.

Lemma unrecognized_variant_tag_is_skipped_witness :
  parse_number false 1 Examples.script_with_null 21 meta0
  = Done (Double.minus_one, 22%nat, meta0)
  /\ extract_loop false 1 Examples.script_with_null 44 18 false meta0 =
     extract_loop false 0 Examples.script_with_null 44 22
                  (false || streq (cstr "x") s_onMetaData) meta0.
Proof.
  apply (unrecognized_variant_tag_is_skipped false 0 0 Examples.script_with_null
           18 21 meta0 5 [0; 1] (cstr "x") 44 false).
  - reflexivity.
  - reflexivity.
  - reflexivity.
  - reflexivity.
  - vm_compute. discriminate.
Defined.

(** C9 as stated fails: in a script packet whose ECMA array holds a value
    of the unknown type 5 and then the pair "width" = 320, the decoding goes
    on after the unknown type byte, the width is extracted and the packet
    counts as the definitive metadata. *)
Lemma unrecognized_variant_tag_counterexample :
  handled_tag 5 = false
  /\ extract_metadata false Examples.script_packet meta0
     = Done (true, set_width (Double.of_Z 320) meta0).
Proof. vm_compute. split; reflexivity. Qed.




(** C5 (amended).  Each new input file starts in SeekingStart: whatever a
    file writes holds a video packet, so that a file writes nothing before
    one of its video key frames has flushed the buffer.  The Pending Buffer
    is not reset when a file is opened, nor by reading a tag, nor at the end
    of a file: a file that writes nothing leaves the packets that waited
    where they were, before those it has buffered itself.  In SeekingStart
    an audio packet inside the marks is appended to the buffer and nothing
    is written; a video key frame inside the marks that is not taken as
    sequence header flushes it: the buffered packets, whichever file
    buffered them, followed by the key frame, are handed to the remuxer once
    each, in arrival order, with the offset just fixed for the current file,
    the key frame is the last packet written, and the buffer is then empty.
    No other step changes the buffer, and [append_file] never runs out of
    rounds. *)
Theorem pending_buffer_emptied_only_by_flush
    (be no_meta : bool) (frame_interval mark_in mark_out : Z)
    (bytes : list Z) (l l' : locals) (s s' : state) :
  route be no_meta frame_interval mark_in mark_out l s = Ok l' s' ->
  (file_start_timestamp l = -999999 -> type (packet s) = 9 ->
   mark_in <= timestamp (packet s) < mark_out ->
   (seq_header_pkt s = None -> is_sequence_header (packet s) = false) ->
   is_key_frame (packet s) = true ->
   pktarray s' = []
   /\ (exists s2,
         flush_loop be (pktarray s ++ [copy_packet (packet s)])
           (file_start_timestamp l')
           (set_pktarray (pktarray s ++ [copy_packet (packet s)])
              (if first_time s then set_first_time false s else s))
         = Ok tt s2
         /\ s' = set_pktarray [] s2)
   /\ exists ws,
        written s' =
        written s ++ ws
        ++ [copy_packet (shifted (file_start_timestamp l') (packet s))])
  /\ (file_start_timestamp l = -999999 -> type (packet s) = 8 ->
      mark_in <= timestamp (packet s) < mark_out ->
      file_start_timestamp l' = -999999
      /\ pktarray s' = pktarray s ++ [copy_packet (packet s)]
      /\ written s' = written s)
  /\ ((pktarray s' = pktarray s
       /\ (file_start_timestamp l = -999999 -> written s' = written s))
      \/ (file_start_timestamp l = -999999 /\ file_start_timestamp l' = -999999
          /\ type (packet s) = 8
          /\ pktarray s' = pktarray s ++ [copy_packet (packet s)]
          /\ written s' = written s)
      \/ (file_start_timestamp l = -999999 /\ type (packet s) = 9
          /\ mark_in <= timestamp (packet s) < mark_out
          /\ is_key_frame (packet s) = true
          /\ pktarray s' = []
          /\ exists s2,
               flush_loop be (pktarray s ++ [copy_packet (packet s)])
                 (file_start_timestamp l')
                 (set_pktarray (pktarray s ++ [copy_packet (packet s)])
                    (if first_time s then set_first_time false s else s))
               = Ok tt s2
               /\ s' = set_pktarray [] s2))
  /\ post (fun _ s1 => pktarray s1 = pktarray s /\ written s1 = written s)
          (fun _ => False) (open_input be bytes s)
  /\ post (fun _ s1 => pktarray s1 = pktarray s /\ written s1 = written s)
          (fun _ => False) (read_tag be l s)
  /\ (forall s0,
        post (fun _ sf =>
                exists new,
                  written sf = written s0 ++ new
                  /\ (new = [] -> exists more, pktarray sf = pktarray s0 ++ more)
                  /\ (new <> [] -> has_video new))
             (fun _ => True)
             (append_file be no_meta frame_interval (Some bytes)
                          mark_in mark_out s0)).
Proof.
  intros R.
  pose proof (route_step be no_meta frame_interval mark_in mark_out l l' s s' R)
    as [_ St].
  split; [|split; [|split; [|split; [|split]]]].
  - intros FS T9 Mk NS KF.
    destruct St as [(_ & _ & _ & _ & _ & Why)
                   |[(_ & _ & T8 & _)
                    |[(_ & _ & _ & _ & _ & s2 & F & ->)
                     |(N & _)]]].
    + exfalso. destruct Why as [T|[[Q IS]|[Tr|(_ & _ & K)]]].
      * rewrite T9 in T. discriminate.
      * rewrite (NS Q) in IS. discriminate.
      * destruct Tr as [Tr|[Tr|[_ Tr]]]; [lia|lia|contradiction].
      * rewrite KF in K. discriminate.
    + rewrite T9 in T8. discriminate.
    + split; [reflexivity|]. split.
      * exists s2. split; [exact F|reflexivity].
      * apply flush_ends_with_video in F; [|exact T9].
        destruct F as [ws E]. exists ws. cbn [written set_pktarray]. rewrite E.
        replace (written (set_pktarray (pktarray s ++ [copy_packet (packet s)])
                            (if first_time s then set_first_time false s else s)))
          with (written s) by (destruct (first_time s); reflexivity).
        rewrite copy_packet_shifted. reflexivity.
    + contradiction.
  - intros FS T8 Mk.
    destruct St as [(_ & _ & _ & _ & _ & Why)
                   |[(_ & FS' & _ & _ & ->)
                    |[(_ & T9 & _)
                     |(N & _)]]].
    + exfalso. destruct Why as [T|[[Q IS]|[Tr|(_ & T9 & _)]]].
      * rewrite T8 in T. discriminate.
      * unfold is_sequence_header in IS. rewrite T8 in IS.
        destruct (data (packet s)) as [|d0 [|d1 r]]; discriminate.
      * destruct Tr as [Tr|[Tr|[Tr _]]]; [lia|lia|contradiction].
      * rewrite T8 in T9. discriminate.
    + repeat split. exact FS'.
    + rewrite T8 in T9. discriminate.
    + contradiction.
  - destruct St as [(_ & Pk & Wr & _)
                   |[(FS & FS' & T8 & _ & ->)
                    |[(FS & T9 & Mk & KF & _ & s2 & F & ->)
                     |(N & _ & _ & _ & r & s2 & Wp & ->)]]].
    + left. split; [exact Pk|intros _; exact Wr].
    + right. left. repeat split; assumption.
    + right. right. split; [exact FS|]. split; [exact T9|].
      split; [exact Mk|]. split; [exact KF|]. split; [reflexivity|].
      exists s2. split; [exact F|reflexivity].
    + left. split; [|intros FS; contradiction].
      cbn [pktarray set_packet]. eapply write_packet_pktarray. exact Wp.
  - pose proof (open_input_frame be bytes s) as O.
    destruct (open_input be bytes s) as [o s1| | |]; cbn; try exact O; try exact I.
    destruct O as [[b ->] _]. split; reflexivity.
  - destruct (read_tag_frame be l s) as (r & s1 & E & H). rewrite E. cbn.
    destruct r as [l1|].
    + destruct H as (_ & f & b & d & _ & ->). split; reflexivity.
    + destruct H as [b ->]. split; reflexivity.
  - intros s0. apply append_file_pending.
Qed.

Lemma pending_buffer_emptied_only_by_flush_witness :
  (exists l' s',
     route false true 100 0 99999000
           Examples.seeking_locals Examples.seeking_state = Ok l' s'
     /\ length (pktarray Examples.seeking_state) = 1%nat
     /\ pktarray s' = []
     /\ exists ws,
          written s' =
          written Examples.seeking_state ++ ws
          ++ [copy_packet (shifted (file_start_timestamp l')
                                   (packet Examples.seeking_state))])
  /\ post (fun _ sf =>
             exists new,
               written sf = written (state0 (fopen_wb None)) ++ new
               /\ (new = [] ->
                   exists more,
                     pktarray sf = pktarray (state0 (fopen_wb None)) ++ more)
               /\ (new <> [] -> has_video new))
          (fun _ => True)
          (append_file false true 100 (Some Examples.audio_only) 0 99999000
                       (state0 (fopen_wb None))).
Proof.
  destruct (route false true 100 0 99999000
                  Examples.seeking_locals Examples.seeking_state)
    as [l' s'| | |] eqn:R; try (vm_compute in R; discriminate R).
  destruct (pending_buffer_emptied_only_by_flush false true 100 0 99999000
              Examples.audio_only Examples.seeking_locals l'
              Examples.seeking_state s' R)
    as (Fl & _ & _ & _ & _ & Fi).
  split.
  - exists l', s'. split; [reflexivity|]. split; [reflexivity|].
    destruct Fl as (P & _ & Wr).
    + reflexivity.
    + reflexivity.
    + vm_compute. split; [discriminate|reflexivity].
    + reflexivity.
    + reflexivity.
    + split; [exact P|exact Wr].
  - exact (Fi (state0 (fopen_wb None))).
Defined.

(** C5 as stated fails when a file ends before a qualifying key frame: the
    audio packet of a first file without video stays in the buffer (a run on
    that file alone ends with nothing written and the packet never flushed),
    and is written when the second file fixes its offset, with that file's
    offset of -50: at timestamp 2^32 - 50; the second file's own audio packet
    is then dropped as overlapping. *)
Lemma pending_buffer_counterexample :
  match main false true 100 32000 None [Examples.line Examples.audio_only] with
  | Ok _ s => written s = [] /\ length (pktarray s) = 1%nat
  | _ => False
  end
  /\ Examples.trace (main false true 100 32000 None
                          [Examples.line Examples.audio_only;
                           Examples.line Examples.late_start])
     = Some (0, [(8, 4294967246, Examples.audio); (9, 950, Examples.key)]).
Proof. vm_compute. repeat split. Qed.

End Claims.

(* ================================================================= *)
(** * Further properties of the code *)

(** ** data_conv.c: the wire format *)

Section WireFormat.
Import DataConv Behaviour.

Ltac unfold_wire :=
  cbv [conv_double conv_ui32 conv_ui24 conv_ui16 conv_si16
       format_double format_ui32 format_ui24 format_ui16
       host_store host_load bytes_at le_bytes le_value be_value fold_left
       rev app map seq nth].

(** X1.  The encoders produce the same bytes on hosts of either byte order:
    the most significant byte comes first; [format_ui24] gives the three
    low bytes in that order and then the high byte of the 32-bit number. *)
Theorem encoders_write_big_endian (be : bool) (n : Z) :
  format_ui16 be n = [(n / 2 ^ 8) mod 256; n mod 256]
  /\ format_ui24 be n =
     [(n / 2 ^ 16) mod 256; (n / 2 ^ 8) mod 256; n mod 256; (n / 2 ^ 24) mod 256]
  /\ format_ui32 be n =
     [(n / 2 ^ 24) mod 256; (n / 2 ^ 16) mod 256; (n / 2 ^ 8) mod 256; n mod 256]
  /\ format_double be n =
     [(n / 2 ^ 56) mod 256; (n / 2 ^ 48) mod 256; (n / 2 ^ 40) mod 256;
      (n / 2 ^ 32) mod 256; (n / 2 ^ 24) mod 256; (n / 2 ^ 16) mod 256;
      (n / 2 ^ 8) mod 256; n mod 256].
Proof.
  assert (D : forall a k, 0 <= k -> a / 2 ^ k / 256 = a / 2 ^ (k + 8)).
  { intros a k K. rewrite Z.pow_add_r by lia. rewrite Z.div_div by lia. reflexivity. }
  assert (D0 : forall a, a / 256 = a / 2 ^ 8) by reflexivity.
  destruct be; unfold_wire; rewrite !D0; rewrite ?D by lia; cbn [Z.add Pos.add Pos.succ];
    repeat split; reflexivity.
Qed.

(** X2.  The decoders read the wire bytes most significant first, on hosts
    of either byte order; [conv_ui24] takes [highbyte] as the top byte of the
    32-bit result. *)
Theorem decoders_read_big_endian (be : bool) (ptr : list Z) (highbyte : Z) :
  conv_ui16 be ptr = be_value (bytes_at ptr 2)
  /\ conv_ui24 be ptr highbyte = be_value (highbyte :: bytes_at ptr 3)
  /\ conv_ui32 be ptr = be_value (bytes_at ptr 4)
  /\ conv_double be ptr = be_value (bytes_at ptr 8).
Proof.
  destruct be; unfold_wire; repeat split; lia.
Qed.

Lemma le_bytes_value (bs : list Z) :
  bytes bs -> le_bytes (length bs) (le_value bs) = bs.
Proof.
  induction 1 as [|b r B _ IH]; [reflexivity|].
  unfold byte in B. cbn [length le_bytes le_value].
  replace ((b + 256 * le_value r) mod 256) with b
    by (Z.to_euclidean_division_equations; lia).
  replace ((b + 256 * le_value r) / 256) with (le_value r)
    by (Z.to_euclidean_division_equations; lia).
  rewrite IH. reflexivity.
Qed.

(** X3.  Encoding undoes decoding: for wire bytes (each in [0, 256)) the
    encoder applied to the decoded number gives the bytes back, the fourth
    byte of [format_ui24] being the [highbyte] given to [conv_ui24]. *)
Theorem encoding_undoes_decoding (be : bool) (b0 b1 b2 b3 b4 b5 b6 b7 : Z) :
  bytes [b0; b1; b2; b3; b4; b5; b6; b7] ->
  format_ui16 be (conv_ui16 be [b0; b1]) = [b0; b1]
  /\ format_ui24 be (conv_ui24 be [b0; b1; b2] b3) = [b0; b1; b2; b3]
  /\ format_ui32 be (conv_ui32 be [b0; b1; b2; b3]) = [b0; b1; b2; b3]
  /\ format_double be (conv_double be [b0; b1; b2; b3; b4; b5; b6; b7])
     = [b0; b1; b2; b3; b4; b5; b6; b7].
Proof.
  intros B. unfold bytes in B.
  apply Forall_cons_iff in B as [H0 B]. apply Forall_cons_iff in B as [H1 B].
  apply Forall_cons_iff in B as [H2 B]. apply Forall_cons_iff in B as [H3 B].
  apply Forall_cons_iff in B as [H4 B]. apply Forall_cons_iff in B as [H5 B].
  apply Forall_cons_iff in B as [H6 B]. apply Forall_cons_iff in B as [H7 _].
  assert (B8 : bytes [b7; b6; b5; b4; b3; b2; b1; b0])
    by (repeat (apply Forall_cons; [assumption|]); apply Forall_nil).
  assert (B4 : bytes [b3; b2; b1; b0])
    by (repeat (apply Forall_cons; [assumption|]); apply Forall_nil).
  assert (B3 : bytes [b2; b1; b0; b3])
    by (repeat (apply Forall_cons; [assumption|]); apply Forall_nil).
  assert (B2 : bytes [b1; b0])
    by (repeat (apply Forall_cons; [assumption|]); apply Forall_nil).
  apply le_bytes_value in B8, B4, B3, B2. cbn [length] in B8, B4, B3, B2.
  destruct be;
    cbv [conv_double conv_ui32 conv_ui24 conv_ui16
         format_double format_ui32 format_ui24 format_ui16
         host_store host_load bytes_at rev app map seq nth];
    rewrite B8, B4, B3, B2; repeat split; reflexivity.
Qed.

Lemma encoding_undoes_decoding_witness :
  format_ui16 false (conv_ui16 false [1; 2]) = [1; 2]
  /\ format_ui24 false (conv_ui24 false [1; 2; 3] 4) = [1; 2; 3; 4]
  /\ format_ui32 false (conv_ui32 false [1; 2; 3; 4]) = [1; 2; 3; 4]
  /\ format_double false (conv_double false [1; 2; 3; 4; 5; 6; 7; 255])
     = [1; 2; 3; 4; 5; 6; 7; 255].
Proof.
  apply (encoding_undoes_decoding false 1 2 3 4 5 6 7 255).
  repeat constructor; unfold byte; lia.
Defined.

(** X4.  [conv_si16] reads the two wire bytes as a two's complement number:
    it agrees with [conv_ui16] while the first byte is below 128 and is 2^16
    less otherwise, so it lies in [-2^15, 2^15); it recovers every such
    number from the bytes [format_ui16] gives for its 16-bit pattern. *)
Theorem conv_si16_is_twos_complement (be : bool) (b0 b1 x : Z) :
  byte b0 -> byte b1 -> - 2 ^ 15 <= x < 2 ^ 15 ->
  conv_si16 be [b0; b1] =
    (if b0 <? 128 then conv_ui16 be [b0; b1] else conv_ui16 be [b0; b1] - 2 ^ 16)
  /\ - 2 ^ 15 <= conv_si16 be [b0; b1] < 2 ^ 15
  /\ conv_si16 be (format_ui16 be (x mod 2 ^ 16)) = x.
Proof.
  unfold byte. intros B0 B1 X.
  assert (E : conv_ui16 be [b0; b1] = b0 * 256 + b1) by (destruct be; unfold_wire; lia).
  assert (S : conv_si16 be [b0; b1] = short_of_bits (conv_ui16 be [b0; b1]))
    by (destruct be; reflexivity).
  assert (R : conv_si16 be (format_ui16 be (x mod 2 ^ 16))
              = short_of_bits (conv_ui16 be (format_ui16 be (x mod 2 ^ 16))))
    by (destruct be; reflexivity).
  rewrite R, S, E. clear R S E.
  change (2 ^ 16) with 65536 in *. change (2 ^ 15) with 32768 in *.
  assert (M : 0 <= x mod 65536 < 65536) by (apply Z.mod_pos_bound; lia).
  rewrite (ui16_roundtrip be (x mod 65536) M).
  unfold short_of_bits. change (2 ^ 16) with 65536. change (2 ^ 15) with 32768.
  repeat split.
  - destruct (Z.ltb_spec b0 128), (Z.ltb_spec (b0 * 256 + b1) 32768); lia.
  - destruct (Z.ltb_spec (b0 * 256 + b1) 32768); lia.
  - destruct (Z.ltb_spec (b0 * 256 + b1) 32768); lia.
  - destruct (Z.ltb_spec (x mod 65536) 32768);
      Z.to_euclidean_division_equations; lia.
Qed.

Lemma conv_si16_is_twos_complement_witness :
  conv_si16 false [255; 196] = conv_ui16 false [255; 196] - 2 ^ 16
  /\ - 2 ^ 15 <= conv_si16 false [255; 196] < 2 ^ 15
  /\ conv_si16 false (format_ui16 false ((-60) mod 2 ^ 16)) = -60.
Proof.
  apply (conv_si16_is_twos_complement false 255 196 (-60)); unfold byte; lia.
Defined.
End WireFormat.

(** ** metadata.c: script data written and read *)

Section ScriptData.
Import DataConv Stdio FlvJoinH Metadata Machine Spec Behaviour.
Open Scope res_scope.

Lemma fwrite_fresh (bs : list Z) (f : FILE) :
  at_end f -> limit f = None ->
  snd (fwrite bs f) = mkFILE (contents f ++ bs) (fpos f + length bs) (eof f) None.
Proof.
  intros E L. unfold fwrite, room. rewrite L. unfold at_end in E.
  rewrite E, Nat.sub_diag. cbn [repeat snd]. rewrite app_nil_r.
  rewrite firstn_all, firstn_all.
  rewrite skipn_all2 by lia. rewrite app_nil_r. reflexivity.
Qed.

Lemma c_str_no_nul (l : list Z) : ~ In 0 l -> c_str l = l.
Proof.
  induction l as [|b r IH]; [reflexivity|]. intros N. cbn [c_str].
  destruct (Z.eqb_spec b 0) as [->|_]; [exfalso; apply N; left; reflexivity|].
  rewrite IH; [reflexivity|]. intros H. apply N. right. exact H.
Qed.

(** X5.  A string written by [put_string] reads back: for a string without
    NUL byte and shorter than the 1024-byte name buffer, the bytes written
    are the 16-bit length and the string, and [parse_script_string] with that
    length returns the string and the position after it. *)
Theorem written_string_reads_back (be : bool) (str : list Z) :
  ~ In 0 str -> (length str < 1024)%nat ->
  let data := contents (put_string be str (fopen_wb None)) in
  data = format_ui16 be (Z.of_nat (length str)) ++ str
  /\ parse_script_string data 2 (conv_ui16 be data) true
     = Done (str, (2 + length str)%nat).
Proof.
  intros N L data.
  assert (F16 : length (format_ui16 be (Z.of_nat (length str))) = 2%nat)
    by (destruct be; reflexivity).
  assert (D : data = format_ui16 be (Z.of_nat (length str)) ++ str).
  { subst data. unfold put_string.
    rewrite Z.mod_small by (change (2 ^ 16) with 65536; lia).
    rewrite Nat2Z.id, firstn_all.
    rewrite (fwrite_fresh _ (fopen_wb None)) by reflexivity.
    rewrite fwrite_fresh by (unfold at_end; cbn; rewrite ?length_app; cbn; lia || reflexivity).
    reflexivity. }
  split; [exact D|]. rewrite D.
  assert (C : conv_ui16 be (format_ui16 be (Z.of_nat (length str)) ++ str)
              = Z.of_nat (length str)).
  { rewrite <- (ui16_roundtrip be (Z.of_nat (length str))) at 2
      by (change (2 ^ 16) with 65536; lia).
    destruct (format_ui16 be (Z.of_nat (length str))) as [|a [|b [|c r]]] eqn:E;
      try discriminate F16.
    destruct be; reflexivity. }
  rewrite C. unfold parse_script_string, peek.
  rewrite Nat2Z.id, length_app, F16.
  replace (2 + length str <=? 2 + length str)%nat with true
    by (symmetry; apply Nat.leb_le; lia).
  cbn [rbind].
  replace (1024 <=? Z.of_nat (length str)) with false
    by (symmetry; apply Z.leb_gt; lia).
  rewrite skipn_app, F16, Nat.sub_diag.
  rewrite skipn_all2 by lia. cbn [skipn app]. rewrite firstn_all.
  rewrite c_str_no_nul by exact N. reflexivity.
Qed.

(** X6.  A value written by [put_double] or [put_boolean] reads back with
    [parse_number]: the double itself (any 64-bit pattern) with the cursor 9
    bytes on, and the flag byte as a number with the cursor 2 bytes on; the
    metadata is left as it is. *)
Theorem written_values_read_back (be : bool) (number : double) (value : Z) (fuel : nat)
    (m : FLVmetadata) :
  0 <= number < 2 ^ 64 ->
  parse_number be (S fuel) (contents (put_double be number (fopen_wb None))) 0 m
    = Done (number, 9%nat, m)
  /\ parse_number be (S fuel) (contents (put_boolean value (fopen_wb None))) 0 m
    = Done (Double.of_Z (value mod 256), 2%nat, m).
Proof.
  intros R.
  assert (L : length (format_double be number) = 8%nat) by (destruct be; reflexivity).
  assert (D : contents (put_double be number (fopen_wb None))
              = 0 :: format_double be number).
  { unfold put_double, fputc.
    rewrite (fwrite_fresh _ (fopen_wb None)) by reflexivity.
    rewrite fwrite_fresh by reflexivity. reflexivity. }
  assert (B : contents (put_boolean value (fopen_wb None)) = [1; value mod 256]).
  { unfold put_boolean, fputc.
    rewrite (fwrite_fresh _ (fopen_wb None)) by reflexivity.
    rewrite fwrite_fresh by reflexivity.
    reflexivity. }
  rewrite D, B. split.
  - assert (P1 : peek (0 :: format_double be number) 0 1 = Done [0]) by reflexivity.
    assert (P8 : peek (0 :: format_double be number) 1 8 = Done (format_double be number)).
    { unfold peek. cbn [length skipn]. rewrite L. cbn [Nat.add Nat.leb].
      rewrite firstn_all2 by lia. reflexivity. }
    cbn [parse_number]. rewrite P1. cbn [rbind nth Z.eqb]. rewrite P8. cbn [rbind].
    rewrite double_roundtrip by exact R. reflexivity.
  - reflexivity.
Qed.

Lemma written_values_read_back_witness :
  parse_number false 1 (contents (put_double false (Double.of_Z 25) (fopen_wb None)))
               0 meta0
    = Done (Double.of_Z 25, 9%nat, meta0)
  /\ parse_number false 1 (contents (put_boolean 1 (fopen_wb None))) 0 meta0
    = Done (Double.of_Z (1 mod 256), 2%nat, meta0).
Proof.
  apply (written_values_read_back false (Double.of_Z 25) 1 0 meta0).
  vm_compute. split; [discriminate|reflexivity].
Defined.

Lemma written_string_reads_back_witness :
  contents (put_string false s_width (fopen_wb None))
  = format_ui16 false (Z.of_nat (length s_width)) ++ s_width
  /\ parse_script_string (contents (put_string false s_width (fopen_wb None))) 2
       (conv_ui16 false (contents (put_string false s_width (fopen_wb None)))) true
     = Done (s_width, (2 + length s_width)%nat).
Proof.
  apply (written_string_reads_back false s_width).
  - vm_compute. intuition discriminate.
  - vm_compute. lia.
Defined.

(** What a successful decoding leaves of the metadata it was given. *)
Lemma add_meta_item_patcher_fields (name : list Z) (value : double)
    (m m' : FLVmetadata) :
  add_meta_item name value m = Done m' -> patcher_fields m' = patcher_fields m.
Proof.
  unfold add_meta_item. intros H.
  repeat match type of H with
         | (if ?c then _ else _) = _ => destruct c
         | match ?c with _ => _ end = _ => destruct c
         end;
    inversion H; reflexivity.
Qed.

Lemma parse_pairs_patcher_fields (be : bool)
    (pn : nat -> FLVmetadata -> res parsed) (data : list Z) :
  leaves_patcher_fields pn ->
  forall lf count n pos m pos' m',
    parse_pairs be pn lf data count n pos m = Done (pos', m') ->
    patcher_fields m' = patcher_fields m.
Proof.
  intros Hpn. induction lf as [|lf IH]; intros count n pos m pos' m';
    cbn [parse_pairs]; destruct (count <? n);
    try discriminate; try (intros H; inversion H; reflexivity).
  destruct (peek data pos 2) as [l| |]; cbn [rbind]; try discriminate.
  destruct (parse_script_string data (pos + 2) (conv_ui16 be l) true)
    as [[name pos2]| |]; cbn [rbind]; try discriminate.
  destruct (pn pos2 m) as [[[v pos3] m3]| |] eqn:E; cbn [rbind]; try discriminate.
  destruct (add_meta_item name v m3) as [m4| |] eqn:A; cbn [rbind]; try discriminate.
  intros H. apply IH in H. apply Hpn in E. apply add_meta_item_patcher_fields in A.
  congruence.
Qed.

Lemma parse_values_patcher_fields (pn : nat -> FLVmetadata -> res parsed) :
  leaves_patcher_fields pn ->
  forall lf count n value pos m v' pos' m',
    parse_values pn lf count n value pos m = Done (v', pos', m') ->
    patcher_fields m' = patcher_fields m.
Proof.
  intros Hpn. induction lf as [|lf IH]; intros count n value pos m v' pos' m';
    cbn [parse_values]; destruct (count <? n);
    try discriminate; try (intros H; inversion H; reflexivity).
  destruct (pn pos m) as [[[v pos3] m3]| |] eqn:E; cbn [rbind]; try discriminate.
  intros H. apply IH in H. apply Hpn in E. congruence.
Qed.

Lemma parse_script_object_patcher_fields (be : bool)
    (pn : nat -> FLVmetadata -> res parsed) (data : list Z) :
  leaves_patcher_fields pn ->
  forall pos m pos' m',
    parse_script_object be pn data pos m = Done (pos', m') ->
    patcher_fields m' = patcher_fields m.
Proof.
  intros Hpn pos m pos' m'. unfold parse_script_object.
  destruct (peek data pos 1) as [mk| |]; cbn [rbind]; try discriminate.
  destruct (peek data _ 2) as [l| |]; cbn [rbind]; try discriminate.
  destruct (parse_script_string data _ (conv_ui16 be l) true)
    as [[name pos2]| |]; cbn [rbind]; try discriminate.
  destruct (pn pos2 m) as [[[v pos3] m3]| |] eqn:E; cbn [rbind]; try discriminate.
  destruct (add_meta_item name v m3) as [m4| |] eqn:A; cbn [rbind]; try discriminate.
  destruct (peek data pos3 3) as [e| |]; cbn [rbind]; try discriminate.
  apply Hpn in E. apply add_meta_item_patcher_fields in A.
  destruct (list_eq_dec Z.eq_dec e [0; 0; 9]); intros H; inversion H; congruence.
Qed.

Lemma parse_number_patcher_fields (be : bool) (data : list Z) (fuel : nat) :
  leaves_patcher_fields (parse_number be fuel data).
Proof.
  induction fuel as [|fuel IH]; intros pos m v pos' m'; [discriminate|].
  cbn [parse_number].
  destruct (peek data pos 1) as [t| |]; cbn [rbind]; try discriminate.
  destruct (nth 0 t 0 =? 0).
  { destruct (peek data _ 8); cbn [rbind]; try discriminate.
    intros H; inversion H; reflexivity. }
  destruct (nth 0 t 0 =? 1).
  { destruct (peek data _ 1); cbn [rbind]; try discriminate.
    intros H; inversion H; reflexivity. }
  destruct (nth 0 t 0 =? 2).
  { destruct (peek data _ 2); cbn [rbind]; try discriminate.
    intros H; inversion H; reflexivity. }
  destruct (nth 0 t 0 =? 3).
  { destruct (parse_script_object be _ data (S pos) m) as [[p2 m2]| |] eqn:E;
      cbn [rbind]; try discriminate.
    apply (parse_script_object_patcher_fields _ _ _ IH) in E.
    intros H; inversion H; congruence. }
  destruct (nth 0 t 0 =? 7).
  { destruct (peek data _ 2); cbn [rbind]; try discriminate.
    intros H; inversion H; reflexivity. }
  destruct (nth 0 t 0 =? 8).
  { destruct (peek data _ 4) as [b| |]; cbn [rbind]; try discriminate.
    destruct (parse_pairs be _ fuel data 0 _ _ m) as [[p2 m2]| |] eqn:E;
      cbn [rbind]; try discriminate.
    apply (parse_pairs_patcher_fields _ _ _ IH) in E.
    intros H; inversion H; congruence. }
  destruct (nth 0 t 0 =? 10).
  { destruct (peek data _ 4) as [b| |]; cbn [rbind]; try discriminate.
    apply (parse_values_patcher_fields _ IH). }
  destruct (nth 0 t 0 =? 11).
  { destruct (peek data _ 8); cbn [rbind]; try discriminate.
    intros H; inversion H; reflexivity. }
  destruct (nth 0 t 0 =? 12).
  { destruct (peek data _ 4); cbn [rbind]; try discriminate.
    intros H; inversion H; reflexivity. }
  intros H; inversion H; reflexivity.
Qed.

Lemma extract_loop_patcher_fields (be : bool) (data : list Z) (datasize : Z) :
  forall fuel pos found m found' m',
    extract_loop be fuel data datasize pos found m = Done (found', m') ->
    patcher_fields m' = patcher_fields m.
Proof.
  induction fuel as [|fuel IH]; intros pos found m found' m';
    cbn [extract_loop]; destruct (_ <=? _);
    try discriminate; try (intros H; inversion H; reflexivity).
  destruct (peek data pos 2) as [l| |]; cbn [rbind]; try discriminate.
  destruct (parse_script_string data (pos + 2) (conv_ui16 be l) true)
    as [[name pos2]| |]; cbn [rbind]; try discriminate.
  destruct (parse_number be _ data pos2 m) as [[[v pos3] m3]| |] eqn:E;
    cbn [rbind]; try discriminate.
  destruct (add_meta_item name v m3) as [m4| |] eqn:A; cbn [rbind]; try discriminate.
  intros H. apply IH in H. apply parse_number_patcher_fields in E.
  apply add_meta_item_patcher_fields in A. congruence.
Qed.

Lemma extract_metadata_patcher_fields (be : bool) (packet : FLVpacket)
    (m : FLVmetadata) (found : bool) (m' : FLVmetadata) :
  extract_metadata be packet m = Done (found, m') ->
  patcher_fields m' = patcher_fields m.
Proof.
  unfold extract_metadata. destruct (negb _).
  - intros E. inversion E. reflexivity.
  - destruct (peek (data packet) 0 1); cbn [rbind]; try discriminate.
    apply extract_loop_patcher_fields.
Qed.

(** X7.  Whatever the packet holds, [extract_metadata] comes to an end, and
    when it returns, the duration, the file size and the ten stored offsets
    are as they were: a script packet of the input can set only the eight
    other fields. *)
Theorem extract_metadata_leaves_patcher_fields (be : bool) (packet : FLVpacket)
    (m : FLVmetadata) :
  match extract_metadata be packet m with
  | Done (_, m') =>
      duration m' = duration m /\ filesize m' = filesize m
      /\ meta_offsets m' = meta_offsets m
  | UB => True
  | NoFuel => False
  end.
Proof.
  pose proof (extract_metadata_spec be packet m) as T.
  destruct (extract_metadata be packet m) as [[found m']| |] eqn:E;
    [|exact I|exact T].
  apply extract_metadata_patcher_fields in E.
  unfold patcher_fields in E. inversion E. repeat split; reflexivity || assumption.
Qed.

End ScriptData.

(** ** metadata.c: the patcher *)

Section Patcher.
Import DataConv Stdio FlvJoinH Metadata Machine Spec Behaviour.

Lemma patch_all_length (fields : list (nat * list Z)) :
  forall from l, in_order from fields (length l) ->
    length (patch_all fields l) = length l.
Proof.
  induction fields as [|[o bs] rest IH]; intros from l H; [reflexivity|].
  cbn [patch_all in_order] in *. destruct H as [_ H].
  assert (B : (o + length bs <= length l)%nat).
  { clear IH. revert H. generalize (o + length bs)%nat. 
    induction rest as [|[o' bs'] r IHr]; cbn [in_order]; intros k H; [exact H|].
    destruct H as [K H]. apply IHr in H. lia. }
  rewrite (IH (o + length bs)%nat) by (rewrite patch_length by exact B; exact H).
  apply patch_length. exact B.
Qed.

Lemma in_order_bound (fields : list (nat * list Z)) :
  forall from n, in_order from fields n -> (from <= n)%nat.
Proof.
  induction fields as [|[o bs] r IH]; cbn [in_order]; intros from n H; [exact H|].
  destruct H as [K H]. apply IH in H. lia.
Qed.

Lemma nth_patch_outside (i ofs : nat) (bs l : list Z) :
  (ofs + length bs <= length l)%nat -> (i < ofs \/ ofs + length bs <= i)%nat ->
  nth i (patch ofs bs l) 0 = nth i l 0.
Proof.
  intros B O. unfold patch.
  assert (L : length (firstn ofs l) = ofs) by (rewrite length_firstn; lia).
  destruct O as [O|O].
  - rewrite app_nth1 by lia. rewrite nth_firstn.
    destruct (Nat.ltb_spec i ofs); [reflexivity|lia].
  - rewrite app_nth2 by lia. rewrite app_nth2 by lia.
    rewrite nth_skipn. f_equal. lia.
Qed.

Lemma patch_all_outside (fields : list (nat * list Z)) (i : nat) :
  forall from l, in_order from fields (length l) ->
    (forall o bs, In (o, bs) fields -> (i < o \/ o + length bs <= i)%nat) ->
    nth i (patch_all fields l) 0 = nth i l 0.
Proof.
  induction fields as [|[o bs] rest IH]; intros from l H O; [reflexivity|].
  cbn [patch_all in_order] in *. destruct H as [_ H].
  pose proof (in_order_bound _ _ _ H) as B.
  rewrite (IH (o + length bs)%nat).
  - apply nth_patch_outside; [exact B|]. apply O. left. reflexivity.
  - rewrite patch_length by exact B. exact H.
  - intros o' bs' I'. apply O. right. exact I'.
Qed.

Lemma patch_all_before (fields : list (nat * list Z)) (o n : nat) :
  forall from l, in_order from fields (length l) -> (o + n <= from)%nat ->
    slice o n (patch_all fields l) = slice o n l.
Proof.
  induction fields as [|[o' bs'] rest IH]; intros from l H O; [reflexivity|].
  cbn [patch_all in_order] in *. destruct H as [K H].
  pose proof (in_order_bound _ _ _ H) as B.
  rewrite (IH (o' + length bs')%nat).
  - apply slice_patch_before; lia.
  - rewrite patch_length by exact B. exact H.
  - lia.
Qed.

Lemma patch_all_field (fields : list (nat * list Z)) (o : nat) (bs : list Z) :
  forall from l, in_order from fields (length l) -> In (o, bs) fields ->
    slice o (length bs) (patch_all fields l) = bs.
Proof.
  induction fields as [|[o' bs'] rest IH]; intros from l H I; [contradiction|].
  cbn [patch_all in_order] in *. destruct H as [K H].
  pose proof (in_order_bound _ _ _ H) as B.
  destruct I as [E|I].
  - inversion E; subst o' bs'.
    rewrite (patch_all_before rest o (length bs) (o + length bs)%nat).
    + apply slice_patch_same. exact B.
    + rewrite patch_length by exact B. exact H.
    + lia.
  - apply (IH (o' + length bs')%nat); [|exact I].
    rewrite patch_length by exact B. exact H.
Qed.

Lemma put_at_contents (o : nat) (bs : list Z) (f : FILE) :
  contents (put_at o bs f) = patch o bs (contents f).
Proof. reflexivity. Qed.

Lemma put_at_ok (o : nat) (bs : list Z) (f : FILE) (n : nat) :
  length (contents f) = n /\ within_limit f -> (o + length bs <= n)%nat ->
  length (contents (put_at o bs f)) = n /\ within_limit (put_at o bs f).
Proof.
  intros [L W] B. split.
  - rewrite put_at_length; [exact L|lia].
  - apply put_at_within_limit; [lia|exact W].
Qed.

Ltac put_number K x ofs :=
  match goal with
  | |- context [put_double ?be x (fseek_set ?f ofs)] =>
      rewrite (put_double_at be x f ofs);
      [ apply (put_at_ok (Z.to_nat ofs) (0 :: format_double be x)) in K;
        [|cbn [length]; rewrite format_double_length; lia]
      | pose proof (proj1 K); lia
      | exact (proj2 K) ]
  end.

Ltac put_flag K x ofs :=
  match goal with
  | |- context [put_boolean x (fseek_set ?f ofs)] =>
      rewrite (put_boolean_at x f ofs);
      [ apply (put_at_ok (Z.to_nat ofs) [1; x mod 256]) in K;
        [|cbn [length]; lia]
      | pose proof (proj1 K); lia
      | exact (proj2 K) ]
  end.

(** [write_metadata], when the ten fields lie one after the other inside the
    output: the completed metadata, and the output with the ten blocks
    written over it. *)
Lemma write_metadata_fields (be : bool) (m : FLVmetadata) (fd : FILE) (timestamp : Z) :
  within_limit fd ->
  in_order 0 (value_fields be (completed m fd timestamp)) (length (contents fd)) ->
  fst (write_metadata be m fd timestamp) = completed m fd timestamp
  /\ contents (snd (write_metadata be m fd timestamp))
     = patch_all (value_fields be (completed m fd timestamp)) (contents fd)
  /\ limit (snd (write_metadata be m fd timestamp)) = limit fd.
Proof.
  intros W O.
  unfold write_metadata. fold (completed m fd timestamp).
  set (c := completed m fd timestamp) in *.
  cbv zeta. cbn [fst snd].
  cbn [in_order value_fields] in O.
  assert (D9 : forall x, length (0 :: format_double be x) = 9%nat)
    by (intros x; cbn [length]; rewrite format_double_length; reflexivity).
  rewrite !D9 in O. cbn [length] in O.
  destruct O as (O1 & O2 & O3 & O4 & O5 & O6 & O7 & O8 & O9 & O10 & O11).
  assert (K : length (contents fd) = length (contents fd) /\ within_limit fd)
    by (split; [reflexivity|exact W]).
  put_number K (duration c) (ofs_duration c).
  put_number K (width c) (ofs_width c).
  put_number K (height c) (ofs_height c).
  put_number K (framerate c) (ofs_framerate c).
  put_number K (videocodecid c) (ofs_videocodecid c).
  put_number K (audiosamplerate c) (ofs_audiosamplerate c).
  put_number K (audiosamplesize c) (ofs_audiosamplesize c).
  put_flag K (stereo c) (ofs_stereo c).
  put_number K (audiocodecid c) (ofs_audiocodecid c).
  put_number K (filesize c) (ofs_filesize c).
  repeat split.
Qed.

(** X8.  [write_metadata] completes the metadata with the duration in
    seconds and the file size, and writes the ten values in place: when the
    ten stored offsets follow one another inside the output, the length of
    the output is unchanged, each field holds the bytes of its value (a type
    byte 0 and the double; for "stereo" a type byte 1 and the flag), and no
    byte outside the ten fields changes. *)
Theorem write_metadata_patches_in_place (be : bool) (m : FLVmetadata) (fd : FILE)
    (timestamp : Z) :
  within_limit fd ->
  in_order 0 (value_fields be (completed m fd timestamp)) (length (contents fd)) ->
  let m' := fst (write_metadata be m fd timestamp) in
  let fd' := snd (write_metadata be m fd timestamp) in
  m' = completed m fd timestamp
  /\ length (contents fd') = length (contents fd)
  /\ (forall o bs, In (o, bs) (value_fields be m') ->
        slice o (length bs) (contents fd') = bs)
  /\ (forall i,
        (forall o bs, In (o, bs) (value_fields be m') ->
                      (i < o \/ o + length bs <= i)%nat) ->
        nth i (contents fd') 0 = nth i (contents fd) 0).
Proof.
  intros W O m' fd'.
  destruct (write_metadata_fields be m fd timestamp W O) as (E & C & _).
  fold m' in E. fold fd' in C. rewrite E, C.
  split; [reflexivity|]. split; [|split].
  - eapply patch_all_length. exact O.
  - intros o bs I. eapply patch_all_field; [exact O|exact I].
  - intros i I. eapply patch_all_outside; [exact O|exact I].
Qed.

Lemma write_metadata_patches_in_place_witness :
  let fd := mkFILE (meta_prefix false) 281 false None in
  let m := snd (placeholder false) in
  let m' := fst (write_metadata false m fd 200) in
  let fd' := snd (write_metadata false m fd 200) in
  m' = completed m fd 200
  /\ length (contents fd') = length (contents fd)
  /\ (forall o bs, In (o, bs) (value_fields false m') ->
        slice o (length bs) (contents fd') = bs)
  /\ (forall i,
        (forall o bs, In (o, bs) (value_fields false m') ->
                      (i < o \/ o + length bs <= i)%nat) ->
        nth i (contents fd') 0 = nth i (contents fd) 0).
Proof.
  apply (write_metadata_patches_in_place false (snd (placeholder false))
           (mkFILE (meta_prefix false) 281 false None) 200).
  - exact I.
  - vm_compute. repeat split; lia.
Defined.

End Patcher.

(** ** metadata.c: the document written and read back *)

Section Document.
Import DataConv Stdio FlvJoinH Metadata Machine FlvJoin Spec Behaviour.
Open Scope res_scope.

Lemma parse_number_double (be : bool) (fuel : nat) (data : list Z) (pos : nat)
    (m : FLVmetadata) (b : list Z) :
  peek data pos 1 = Done [0] -> peek data (S pos) 8 = Done b ->
  parse_number be (S fuel) data pos m = Done (conv_double be b, (S pos + 8)%nat, m).
Proof. intros P1 P8. cbn [parse_number]. rewrite P1. cbn [rbind nth Z.eqb]. rewrite P8. reflexivity. Qed.

Lemma parse_number_boolean (be : bool) (fuel : nat) (data : list Z) (pos : nat)
    (m : FLVmetadata) (b : Z) :
  peek data pos 1 = Done [1] -> peek data (S pos) 1 = Done [b] ->
  parse_number be (S fuel) data pos m = Done (Double.of_Z b, S (S pos), m).
Proof. intros P1 P8. cbn [parse_number]. rewrite P1. cbn [rbind nth Z.eqb]. rewrite P8. reflexivity. Qed.

Lemma parse_number_string (be : bool) (fuel : nat) (data : list Z) (pos : nat)
    (m : FLVmetadata) (l : list Z) :
  peek data pos 1 = Done [2] -> peek data (S pos) 2 = Done l ->
  parse_number be (S fuel) data pos m
  = Done (Double.minus_one, (S pos + 2 + Z.to_nat (conv_ui16 be l))%nat, m).
Proof. intros P1 P8. cbn [parse_number]. rewrite P1. cbn [rbind nth Z.eqb]. rewrite P8. reflexivity. Qed.

Lemma parse_number_array (be : bool) (fuel : nat) (data : list Z) (pos : nat)
    (m : FLVmetadata) (b : list Z) (pos' : nat) (m' : FLVmetadata) :
  peek data pos 1 = Done [8] -> peek data (S pos) 4 = Done b ->
  parse_pairs be (parse_number be fuel data) fuel data 0
              (int_of_uint (conv_ui32 be b)) (S pos + 4) m = Done (pos', m') ->
  parse_number be (S fuel) data pos m = Done (Double.minus_one, pos', m').
Proof.
  intros P1 P4 PP. cbn [parse_number]. rewrite P1. cbn [rbind nth Z.eqb]. rewrite P4.
  cbn [rbind]. rewrite PP. reflexivity.
Qed.

Lemma parse_pairs_step (be : bool) (pn : nat -> FLVmetadata -> res parsed)
    (lf : nat) (data : list Z) (count n : Z) (pos : nat) (m : FLVmetadata)
    (l name : list Z) (pos2 : nat) (v : double) (pos3 : nat) (m3 m4 : FLVmetadata) :
  (count <? n) = true -> peek data pos 2 = Done l ->
  parse_script_string data (pos + 2) (conv_ui16 be l) true = Done (name, pos2) ->
  pn pos2 m = Done (v, pos3, m3) -> add_meta_item name v m3 = Done m4 ->
  parse_pairs be pn (S lf) data count n pos m
  = parse_pairs be pn lf data (count + 1) n pos3 m4.
Proof.
  intros C P S N A. cbn [parse_pairs]. rewrite C, P. cbn [rbind]. rewrite S.
  cbn [rbind]. rewrite N. cbn [rbind]. rewrite A. reflexivity.
Qed.

Lemma extract_loop_step (be : bool) (fuel : nat) (data : list Z) (datasize : Z)
    (pos : nat) (found : bool) (m : FLVmetadata)
    (l name : list Z) (pos2 : nat) (v : double) (pos3 : nat) (m3 m4 : FLVmetadata) :
  (Z.of_nat pos <=? (datasize - 6) mod 2 ^ 32) = true -> peek data pos 2 = Done l ->
  parse_script_string data (pos + 2) (conv_ui16 be l) true = Done (name, pos2) ->
  parse_number be (S (length data)) data pos2 m = Done (v, pos3, m3) ->
  add_meta_item name v m3 = Done m4 ->
  extract_loop be (S fuel) data datasize pos found m
  = extract_loop be fuel data datasize pos3 (found || streq name s_onMetaData) m4.
Proof.
  intros C P S N A. cbn [extract_loop]. rewrite C, P. cbn [rbind]. rewrite S.
  cbn [rbind]. rewrite N. cbn [rbind]. rewrite A. reflexivity.
Qed.

(** What [add_meta_item] does with the names the program writes. *)
Lemma add_meta_item_taken (v : double) (m : FLVmetadata) :
  Double.eqb v Double.minus_one = false ->
  add_meta_item s_width v m = Done (set_width v m)
  /\ add_meta_item s_height v m = Done (set_height v m)
  /\ add_meta_item s_framerate v m = Done (set_framerate v m)
  /\ add_meta_item s_videocodecid v m = Done (set_videocodecid v m)
  /\ add_meta_item s_audiosamplerate v m = Done (set_audiosamplerate v m)
  /\ add_meta_item s_audiosamplesize v m = Done (set_audiosamplesize v m)
  /\ add_meta_item s_audiocodecid v m = Done (set_audiocodecid v m).
Proof.
  intros E. unfold add_meta_item. rewrite E. repeat split; reflexivity.
Qed.

Lemma add_meta_item_ignored (v : double) (m : FLVmetadata) :
  add_meta_item s_duration v m = Done m
  /\ add_meta_item s_filesize v m = Done m
  /\ add_meta_item s_metadatacreator v m = Done m
  /\ add_meta_item s_onMetaData v m = Done m.
Proof.
  unfold add_meta_item. destruct (Double.eqb v Double.minus_one);
    repeat split; reflexivity.
Qed.

Lemma small_flag (b : Z) :
  0 <= b < 128 ->
  Double.eqb (Double.of_Z b) Double.minus_one = false
  /\ Double.to_int (-128) 127 (Double.of_Z b) = Some b.
Proof.
  intros R.
  assert (A : forallb (fun b => negb (Double.eqb (Double.of_Z b) Double.minus_one)
                                && match Double.to_int (-128) 127 (Double.of_Z b) with
                                   | Some c => c =? b
                                   | None => false
                                   end)
                      (map Z.of_nat (seq 0 128)) = true) by (vm_compute; reflexivity).
  rewrite forallb_forall in A.
  specialize (A b). 
  assert (I : In b (map Z.of_nat (seq 0 128))).
  { rewrite <- (Z2Nat.id b) by lia. apply in_map. apply in_seq. lia. }
  apply A in I. apply andb_true_iff in I. destruct I as [I1 I2].
  apply negb_true_iff in I1. split; [exact I1|].
  destruct (Double.to_int (-128) 127 (Double.of_Z b)) as [c|]; [|discriminate].
  apply Z.eqb_eq in I2. congruence.
Qed.

Lemma add_meta_item_stereo (b : Z) (m : FLVmetadata) :
  0 <= b < 128 -> add_meta_item s_stereo (Double.of_Z b) m = Done (set_stereo b m).
Proof.
  intros R. destruct (small_flag b R) as [E T].
  unfold add_meta_item. rewrite E.
  change (streq s_stereo s_width) with false.
  change (streq s_stereo s_height) with false.
  change (streq s_stereo s_framerate) with false.
  change (streq s_stereo s_videocodecid) with false.
  change (streq s_stereo s_audiosamplerate) with false.
  change (streq s_stereo s_audiosamplesize) with false.
  change (streq s_stereo s_stereo) with true.
  cbv iota. rewrite T. reflexivity.
Qed.

Lemma eight_bytes (be : bool) (x : double) :
  0 <= x < 2 ^ 64 ->
  exists a b c d e f g h,
    format_double be x = [a; b; c; d; e; f; g; h]
    /\ conv_double be [a; b; c; d; e; f; g; h] = x.
Proof.
  intros R. pose proof (format_double_length be x) as L.
  pose proof (double_roundtrip be x R) as T.
  destruct (format_double be x) as [|a [|b [|c [|d [|e [|f [|g [|h [|i r]]]]]]]]];
    try discriminate L.
  exists a, b, c, d, e, f, g, h. split; [reflexivity|exact T].
Qed.

Lemma eight_bytes_any (be : bool) (x : double) :
  exists a b c d e f g h, format_double be x = [a; b; c; d; e; f; g; h].
Proof.
  pose proof (format_double_length be x) as L.
  destruct (format_double be x) as [|a [|b [|c [|d [|e [|f [|g [|h [|i r]]]]]]]]];
    try discriminate L.
  exists a, b, c, d, e, f, g, h. reflexivity.
Qed.

Lemma parse_pairs_done (be : bool) (pn : nat -> FLVmetadata -> res parsed)
    (lf : nat) (data : list Z) (count n : Z) (pos : nat) (m : FLVmetadata) :
  (count <? n) = false -> parse_pairs be pn lf data count n pos m = Done (pos, m).
Proof. intros C. destruct lf; cbn [parse_pairs]; rewrite C; reflexivity. Qed.

Lemma extract_loop_done (be : bool) (fuel : nat) (data : list Z) (datasize : Z)
    (pos : nat) (found : bool) (m : FLVmetadata) :
  (Z.of_nat pos <=? (datasize - 6) mod 2 ^ 32) = false ->
  extract_loop be fuel data datasize pos found m = Done (found, m).
Proof. intros C. destruct fuel; cbn [extract_loop]; rewrite C; reflexivity. Qed.

Ltac run :=
  match goal with
  | |- ?l = _ => let r := eval vm_compute in l in change l with r; reflexivity
  end.

Ltac pick k A :=
  lazymatch k with
  | O => first [exact (proj1 A) | exact A]
  | S ?k' => let B := fresh in pose proof (proj2 A) as B; pick k' B
  end.

Ltac pair_taken Cx Nx k :=
  erewrite parse_pairs_step;
  [ | reflexivity | run | run
    | apply parse_number_double; run
    | rewrite Cx;
      match goal with
      | |- add_meta_item _ ?v ?m = _ =>
          let A := fresh in
          pose proof (add_meta_item_taken v m (proj2 Nx)) as A; pick k A
      end ].

Ltac pair_ignored k :=
  erewrite parse_pairs_step;
  [ | reflexivity | run | run
    | apply parse_number_double; run
    | match goal with
      | |- add_meta_item _ ?v ?m = _ =>
          let A := fresh in
          pose proof (add_meta_item_ignored v m) as A; pick k A
      end ].

Ltac decode_document b m mz sb Esb St C Cw Ch Cr Cv Ca Cs Cc N0 N1 N2 N3 N4 N5 N6 :=
  match type of C with
  | ?out = ?r =>
      let t := eval vm_compute in (firstn 281 r) in
      let F := fresh "F" in
      assert (F : firstn 281 out = t) by (rewrite C; vm_compute; reflexivity);
      rewrite F; clear F C
  end;
  match goal with
  | |- context [slice 24 253 ?t] =>
      let d := eval vm_compute in (slice 24 253 t) in
      change (slice 24 253 t) with d
  end;
  split; [vm_compute; reflexivity|];
  match goal with
  | |- extract_metadata _ (mkPacket _ _ _ _ ?d _) _ = _ =>
      let D := fresh "D" in
      set (D := d);
      assert (PP : parse_pairs b (parse_number b 253 D) 253 D 0 11 18 mz
                   = Done (250%nat, taken_from m mz));
      [ pair_ignored 0%nat;
        pair_taken Cw N0 0%nat; pair_taken Ch N1 1%nat; pair_taken Cr N2 2%nat;
        pair_taken Cv N3 3%nat; pair_taken Ca N4 4%nat; pair_taken Cs N5 5%nat;
        (erewrite parse_pairs_step;
         [ | reflexivity | run | run
           | apply parse_number_boolean; run
           | apply add_meta_item_stereo; exact St ]);
        pair_taken Cc N6 6%nat;
        pair_ignored 1%nat;
        (erewrite parse_pairs_step;
         [ | reflexivity | run | run
           | apply parse_number_string; run
           | match goal with
             | |- add_meta_item _ ?v ?m' = _ =>
                 exact (proj1 (proj2 (proj2 (add_meta_item_ignored v m'))))
             end ]);
        rewrite parse_pairs_done by reflexivity;
        clearbody D; subst sb; reflexivity
      | unfold extract_metadata; cbn [type data datasize];
        change (negb (18 =? 18)) with false; cbv iota;
        change (peek D 0 1) with (Done [2]); cbn [rbind nth];
        change (2 =? 2) with true; cbv iota;
        (erewrite extract_loop_step;
         [ | reflexivity | run | run
           | eapply parse_number_array; [run | run | exact PP]
           | match goal with
             | |- add_meta_item _ ?v ?m' = _ =>
                 exact (proj2 (proj2 (proj2 (add_meta_item_ignored v m'))))
             end ]);
        rewrite extract_loop_done by reflexivity; reflexivity ]
  end.

(** X9.  The metadata the patcher writes is read back by the program's own
    decoder.  In an output that begins with the header and the metadata
    packet, once [write_metadata] has written the values, the script tag
    stands complete after the header, and [extract_metadata] finds
    "onMetaData" in it and takes from it exactly the eight values written
    for width, height, framerate, videocodecid, audiosamplerate,
    audiosamplesize, stereo and audiocodecid (numbers other than -1, a flag
    in [0, 128)); the duration and the file size in the tag are not taken. *)
Theorem patched_metadata_reads_back (be : bool) (m mz : FLVmetadata)
    (rest : list Z) (timestamp : Z) :
  meta_offsets m = placeholder_offsets be ->
  Forall number [width m; height m; framerate m; videocodecid m;
                 audiosamplerate m; audiosamplesize m; audiocodecid m] ->
  0 <= stereo m < 128 ->
  let fd := mkFILE (meta_prefix be ++ rest) (length (meta_prefix be ++ rest))
                   false None in
  let out := contents (snd (write_metadata be m fd timestamp)) in
  firstn 281 out = flv_header ++ tag_bytes be (metadata_tag out)
  /\ extract_metadata be (metadata_tag out) mz = Done (true, taken_from m mz).
Proof.
  intros O N St fd out.
  destruct (placeholder_values be) as [PO PL]. rewrite PO in O.
  assert (IO : in_order 0 (value_fields be (completed m fd timestamp))
                        (length (contents fd))).
  { injection O as O1 O2 O3 O4 O5 O6 O7 O8 O9 O10.
    unfold value_fields, completed.
    cbn [ofs_duration ofs_width ofs_height ofs_framerate ofs_videocodecid
         ofs_audiosamplerate ofs_audiosamplesize ofs_stereo ofs_audiocodecid
         ofs_filesize set_duration set_filesize].
    rewrite O1, O2, O3, O4, O5, O6, O7, O8, O9, O10.
    cbn [in_order length]. rewrite !format_double_length.
    subst fd. cbn [contents]. rewrite length_app, PL. cbn. lia. }
  destruct (write_metadata_fields be m fd timestamp I IO) as (_ & C & _).
  fold out in C.
  assert (V : value_fields be (completed m fd timestamp) =
              [ (52%nat, 0 :: format_double be (duration (completed m fd timestamp)));
                (68%nat, 0 :: format_double be (width m));
                (85%nat, 0 :: format_double be (height m));
                (105%nat, 0 :: format_double be (framerate m));
                (128%nat, 0 :: format_double be (videocodecid m));
                (154%nat, 0 :: format_double be (audiosamplerate m));
                (180%nat, 0 :: format_double be (audiosamplesize m));
                (197%nat, [1; stereo m]);
                (213%nat, 0 :: format_double be (audiocodecid m));
                (232%nat, 0 :: format_double be (filesize (completed m fd timestamp))) ]).
  { injection O as O1 O2 O3 O4 O5 O6 O7 O8 O9 O10.
    unfold value_fields, completed.
    cbn [ofs_duration ofs_width ofs_height ofs_framerate ofs_videocodecid
         ofs_audiosamplerate ofs_audiosamplesize ofs_stereo ofs_audiocodecid
         ofs_filesize set_duration set_filesize
         duration width height framerate videocodecid audiosamplerate
         audiosamplesize stereo audiocodecid filesize].
    rewrite O1, O2, O3, O4, O5, O6, O7, O8, O9, O10.
    rewrite (Z.mod_small (stereo m)) by lia. reflexivity. }
  rewrite V in C. clear V IO.
  unfold number in N.
  repeat match goal with
         | H : Forall _ (_ :: _) |- _ =>
             let a := fresh "N" in apply Forall_cons_iff in H as [a H]
         end.
  destruct (eight_bytes_any be (duration (completed m fd timestamp)))
    as (d1 & d2 & d3 & d4 & d5 & d6 & d7 & d8 & Ed).
  destruct (eight_bytes_any be (filesize (completed m fd timestamp)))
    as (z1 & z2 & z3 & z4 & z5 & z6 & z7 & z8 & Ez).
  destruct (eight_bytes be (width m) (proj1 N0))
    as (w1 & w2 & w3 & w4 & w5 & w6 & w7 & w8 & Ew & Cw).
  destruct (eight_bytes be (height m) (proj1 N1))
    as (h1 & h2 & h3 & h4 & h5 & h6 & h7 & h8 & Eh & Ch).
  destruct (eight_bytes be (framerate m) (proj1 N2))
    as (r1 & r2 & r3 & r4 & r5 & r6 & r7 & r8 & Er & Cr).
  destruct (eight_bytes be (videocodecid m) (proj1 N3))
    as (v1 & v2 & v3 & v4 & v5 & v6 & v7 & v8 & Ev & Cv).
  destruct (eight_bytes be (audiosamplerate m) (proj1 N4))
    as (a1 & a2 & a3 & a4 & a5 & a6 & a7 & a8 & Ea & Ca).
  destruct (eight_bytes be (audiosamplesize m) (proj1 N5))
    as (s1 & s2 & s3 & s4 & s5 & s6 & s7 & s8 & Es & Cs).
  destruct (eight_bytes be (audiocodecid m) (proj1 N6))
    as (c1 & c2 & c3 & c4 & c5 & c6 & c7 & c8 & Ec & Cc).
  rewrite Ed, Ez, Ew, Eh, Er, Ev, Ea, Es, Ec in C.
  clear Ed Ez Ew Eh Er Ev Ea Es Ec.
  remember (stereo m) as sb eqn:Esb.
  subst fd. cbn [contents] in C. clear PO PL O.
  assert (SF : forall l, slice 24 253 l = slice 24 253 (firstn 281 l)).
  { intros l. unfold slice. rewrite skipn_firstn_comm. cbn [Nat.sub].
    rewrite firstn_firstn. reflexivity. }
  unfold metadata_tag. rewrite (SF out).
  destruct be.
  - decode_document true m mz sb Esb St C Cw Ch Cr Cv Ca Cs Cc N0 N1 N2 N3 N4 N5 N6.
  - decode_document false m mz sb Esb St C Cw Ch Cr Cv Ca Cs Cc N0 N1 N2 N3 N4 N5 N6.
Qed.

Lemma patched_metadata_reads_back_witness :
  let fd := mkFILE (meta_prefix false ++ Examples.tag 9 0 Examples.key)
                   (length (meta_prefix false ++ Examples.tag 9 0 Examples.key))
                   false None in
  let out := contents (snd (write_metadata false Cases.clip_meta fd 100)) in
  firstn 281 out = flv_header ++ tag_bytes false (metadata_tag out)
  /\ extract_metadata false (metadata_tag out) meta0
     = Done (true, taken_from Cases.clip_meta meta0).
Proof.
  apply (patched_metadata_reads_back false Cases.clip_meta meta0
           (Examples.tag 9 0 Examples.key) 100).
  - vm_compute. reflexivity.
  - repeat (apply Forall_cons;
            [split; [vm_compute; split; [discriminate|reflexivity]
                    |vm_compute; reflexivity]|]).
    apply Forall_nil.
  - vm_compute. split; [discriminate|reflexivity].
Defined.

Lemma slice_skipn (n k len : nat) (l : list Z) :
  slice (n + k) len l = slice k len (skipn n l).
Proof. unfold slice. rewrite skipn_skipn. f_equal. f_equal. lia. Qed.

Lemma generate_metadata_packet_fst (be : bool) (m : FLVmetadata) (fd : FILE) :
  fst (generate_metadata_packet be m fd) = fst (placeholder be).
Proof.
  unfold placeholder, generate_metadata_packet. cbv zeta. cbn [fst]. reflexivity.
Qed.

Lemma generate_metadata_packet_snd (be : bool) (m : FLVmetadata) (fd : FILE) :
  snd (generate_metadata_packet be m fd) =
  mkMeta (duration m) (width m) (height m) (framerate m) (videocodecid m)
         (audiosamplerate m) (audiosamplesize m) (stereo m) (audiocodecid m)
         (filesize m)
         (ftell fd + 11 + 28) (ftell fd + 11 + 44) (ftell fd + 11 + 61)
         (ftell fd + 11 + 81) (ftell fd + 11 + 104) (ftell fd + 11 + 130)
         (ftell fd + 11 + 156) (ftell fd + 11 + 173) (ftell fd + 11 + 189)
         (ftell fd + 11 + 208).
Proof.
  unfold generate_metadata_packet. cbv zeta. cbn [snd].
  f_equal; (f_equal; destruct be; vm_compute; reflexivity).
Qed.

(** X10.  [generate_metadata_packet] builds the same packet wherever it is to
    be written, with [datasize] the length of its data and [backptr] 11
    more; it leaves the values of the metadata alone and stores the ten
    offsets such that, once the tag stands in the output at the position the
    stream had, each offset is the place of the type byte (0 for a number, 1
    for the flag "stereo") that follows the length and the name of its
    field. *)
Theorem stored_offsets_point_at_values (be : bool) (m : FLVmetadata) (fd : FILE)
    (out rest : list Z) :
  let p := fst (generate_metadata_packet be m fd) in
  let m' := snd (generate_metadata_packet be m fd) in
  skipn (fpos fd) out = tag_bytes be p ++ rest ->
  p = fst (placeholder be)
  /\ datasize p = Z.of_nat (length (data p))
  /\ backptr p = datasize p + 11
  /\ duration m' = duration m /\ filesize m' = filesize m
  /\ taken_from m' m = m
  /\ Forall (fun '(name, ofs, marker) =>
               slice (Z.to_nat ofs - 2 - length name) (2 + length name + 1) out
               = format_ui16 be (Z.of_nat (length name)) ++ name ++ [marker])
            (named_offsets m').
Proof.
  intros p m'. subst p m'.
  rewrite generate_metadata_packet_fst, generate_metadata_packet_snd.
  intros S.
  split; [reflexivity|].
  split; [destruct be; vm_compute; reflexivity|].
  split; [destruct be; vm_compute; reflexivity|].
  split; [reflexivity|]. split; [reflexivity|].
  split; [destruct m; reflexivity|].
  unfold named_offsets.
  cbn [ofs_duration ofs_width ofs_height ofs_framerate ofs_videocodecid
       ofs_audiosamplerate ofs_audiosamplesize ofs_stereo ofs_audiocodecid
       ofs_filesize].
  assert (K : forall k name marker,
             (2 + length name <= 11 + k)%nat ->
             slice (11 + k - 2 - length name) (2 + length name + 1)
                   (tag_bytes be (fst (placeholder be)))
             = format_ui16 be (Z.of_nat (length name)) ++ name ++ [marker] ->
             (11 + k + 1 <= length (tag_bytes be (fst (placeholder be))))%nat ->
             slice (Z.to_nat (ftell fd + 11 + Z.of_nat k) - 2 - length name)
                   (2 + length name + 1) out
             = format_ui16 be (Z.of_nat (length name)) ++ name ++ [marker]).
  { intros k name marker B E L. unfold ftell.
    replace (Z.to_nat (Z.of_nat (fpos fd) + 11 + Z.of_nat k) - 2 - length name)%nat
      with (fpos fd + (11 + k - 2 - length name))%nat by lia.
    rewrite slice_skipn, S, slice_app_l by lia. exact E. }
  repeat (apply Forall_cons;
          [ match goal with
            | |- context [ftell fd + 11 + ?k] =>
                apply (K (Z.to_nat k));
                [ cbn; lia | destruct be; vm_compute; reflexivity
                | destruct be; vm_compute; lia ]
            end | ]).
  apply Forall_nil.
Qed.

Lemma stored_offsets_point_at_values_witness :
  let fd := snd (fwrite flv_header (fopen_wb None)) in
  let p := fst (generate_metadata_packet false meta0 fd) in
  let m' := snd (generate_metadata_packet false meta0 fd) in
  p = fst (placeholder false)
  /\ datasize p = Z.of_nat (length (data p))
  /\ backptr p = datasize p + 11
  /\ duration m' = duration meta0 /\ filesize m' = filesize meta0
  /\ taken_from m' meta0 = meta0
  /\ Forall (fun '(name, ofs, marker) =>
               slice (Z.to_nat ofs - 2 - length name) (2 + length name + 1)
                     (meta_prefix false)
               = format_ui16 false (Z.of_nat (length name)) ++ name ++ [marker])
            (named_offsets m').
Proof.
  apply (stored_offsets_point_at_values false meta0
           (snd (fwrite flv_header (fopen_wb None))) (meta_prefix false) []).
  vm_compute. reflexivity.
Defined.

End Document.

(** ** flvjoin.c: tags written and read *)

Section Tags.
Import DataConv Stdio FlvJoinH Metadata Machine FlvJoin Spec Behaviour.
Open Scope flv_scope.

Lemma fread_prefix (n : Z) (f : FILE) (a r : list Z) :
  skipn (fpos f) (contents f) = a ++ r -> n = Z.of_nat (length a) ->
  fread n f = (a, mkFILE (contents f) (fpos f + length a) (eof f) (limit f))
  /\ skipn (fpos f + length a) (contents f) = r.
Proof.
  intros S N. split.
  - unfold fread. rewrite S, N, length_app.
    replace (Z.to_nat (Z.min (Z.of_nat (length a)) (Z.of_nat (length a + length r))))
      with (length a) by lia.
    rewrite firstn_app, Nat.sub_diag, firstn_all. cbn [firstn]. rewrite app_nil_r.
    replace (Z.of_nat (length a) <? Z.of_nat (length a)) with false
      by (symmetry; apply Z.ltb_ge; lia).
    rewrite orb_false_r. reflexivity.
  - rewrite Nat.add_comm, <- skipn_skipn, S.
    rewrite skipn_app, Nat.sub_diag, skipn_all. reflexivity.
Qed.

(** The fields of a tag header, decoded from the bytes [write_packet]
    gives for them. *)
Lemma tag_header_decodes (be : bool) (ty sz ts sid : Z) (tail : list Z) :
  0 <= sz < 2 ^ 24 -> 0 <= ts < 2 ^ 32 -> 0 <= sid < 2 ^ 24 ->
  let b := [ty] ++ firstn 3 (format_ui24 be sz) ++ format_ui24 be ts
                ++ firstn 3 (format_ui24 be sid) ++ tail in
  nth 0 b 0 = ty
  /\ conv_ui24 be (skipn 1 b) 0 = sz
  /\ conv_ui24 be (skipn 4 b) (nth 7 b 0) = ts
  /\ conv_ui24 be (skipn 8 b) 0 = sid.
Proof.
  intros Hsz Hts Hsid b. subst b.
  destruct be;
    cbv [conv_ui24 format_ui24 host_store host_load bytes_at le_bytes le_value
         rev app map seq nth firstn skipn];
    repeat split; Z.to_euclidean_division_equations; lia.
Qed.

Lemma back_pointer_decodes (be : bool) (bp : Z) (tail : list Z) :
  0 <= bp < 2 ^ 32 -> conv_ui32 be (format_ui32 be bp ++ tail) = bp.
Proof.
  intros H.
  destruct be;
    cbv [conv_ui32 format_ui32 host_store host_load bytes_at le_bytes le_value
         rev app map seq nth];
    Z.to_euclidean_division_equations; lia.
Qed.

(** X11.  A tag written by [write_packet] reads back: when the bytes of the
    tag of [p] stand at the position of the input, the first half of the
    loop body of [append_file] decodes type, size, timestamp (with its
    extension byte), stream id and back-pointer as they are in [p], reads
    the payload whole, moves the position past the tag and changes nothing
    of the state but the two buffers. *)
Theorem written_tag_reads_back (be : bool) (p : FLVpacket) (l : locals) (s : state)
    (rest : list Z) :
  0 <= datasize p < 2 ^ 24 -> wf_packet p ->
  0 <= timestamp p < 2 ^ 32 -> 0 <= streamid p < 2 ^ 24 -> 0 <= backptr p < 2 ^ 32 ->
  skipn (fpos (infile l)) (contents (infile l)) = tag_bytes be p ++ rest ->
  exists l' s',
    read_tag be l s = Ok (Some l') s'
    /\ copy_packet (packet s') = copy_packet p
    /\ fpos (infile l') = (fpos (infile l) + length (tag_bytes be p))%nat
    /\ contents (infile l') = contents (infile l)
    /\ skipn (fpos (infile l')) (contents (infile l')) = rest
    /\ exists b d, s' = set_packet d (set_buff b s).
Proof.
  intros Hsz W Hts Hsid Hbp S.
  unfold wf_packet in W.
  set (H := [type p] ++ firstn 3 (format_ui24 be (datasize p))
                     ++ format_ui24 be (timestamp p)
                     ++ firstn 3 (format_ui24 be (streamid p))).
  set (P := firstn (Z.to_nat (datasize p)) (data p)).
  set (B := format_ui32 be (backptr p)).
  assert (T : tag_bytes be p = H ++ P ++ B).
  { unfold tag_bytes, tag_chunks, H, P, B. cbn [concat].
    rewrite app_nil_r, <- !app_assoc. reflexivity. }
  assert (LH : length H = 11%nat) by (destruct be; reflexivity).
  assert (LP : length P = Z.to_nat (datasize p))
    by (unfold P; rewrite length_firstn; lia).
  assert (LB : length B = 4%nat) by (destruct be; reflexivity).
  rewrite T, <- !app_assoc in S.
  unfold read_tag.
  destruct (fread_prefix 11 (infile l) H (P ++ B ++ rest) S) as [R1 S1];
    [rewrite LH; reflexivity|].
  rewrite LH in R1, S1. rewrite R1, LH. cbn [Nat.eqb].
  set (f1 := mkFILE (contents (infile l)) (fpos (infile l) + 11)
                    (eof (infile l)) (limit (infile l))) in *.
  set (b := blit H (buff s)).
  assert (Eb : b = [type p] ++ firstn 3 (format_ui24 be (datasize p))
                     ++ format_ui24 be (timestamp p)
                     ++ firstn 3 (format_ui24 be (streamid p))
                     ++ skipn 11 (buff s)).
  { unfold b, blit. rewrite LH. unfold H. rewrite <- !app_assoc. reflexivity. }
  destruct (tag_header_decodes be (type p) (datasize p) (timestamp p) (streamid p)
              (skipn 11 (buff s)) Hsz Hts Hsid) as (D0 & D1 & D2 & D3).
  cbv zeta in D0, D1, D2, D3. rewrite <- Eb in D0, D1, D2, D3.
  rewrite D0, D1, D2, D3.
  destruct (fread_prefix (datasize p) f1 P (B ++ rest)) as [R2 S2];
    [exact S1|rewrite LP; lia|].
  rewrite R2.
  set (f2 := mkFILE (contents f1) (fpos f1 + length P) (eof f1) (limit f1)) in *.
  destruct (fread_prefix 4 f2 B rest) as [R3 S3];
    [exact S2|rewrite LB; reflexivity|].
  rewrite R3.
  assert (Bp : conv_ui32 be (blit B b) = backptr p).
  { unfold blit. apply back_pointer_decodes. exact Hbp. }
  rewrite Bp.
  eexists. eexists. split; [reflexivity|].
  cbn [packet set_packet infile set_infile fpos contents].
  split; [|split; [|split; [|split]]].
  - unfold copy_packet, set_data.
    cbn [type datasize timestamp streamid data backptr]. f_equal.
    unfold blit. rewrite firstn_app, LP, Nat.sub_diag. cbn [firstn].
    rewrite app_nil_r. unfold P. rewrite firstn_firstn, Nat.min_id. reflexivity.
  - rewrite T, !length_app. unfold f2, f1. cbn [fpos]. lia.
  - reflexivity.
  - exact S3.
  - eexists. eexists. reflexivity.
Qed.

Lemma written_tag_reads_back_witness :
  exists l' s',
    read_tag false (mkLocals 0 0 0 (fopen_rb (Examples.tag 9 40 Examples.key)))
             Examples.idle_state = Ok (Some l') s'
    /\ copy_packet (packet s') = copy_packet (mkPacket 9 3 40 0 Examples.key 14)
    /\ fpos (infile l') = 18%nat.
Proof.
  destruct (written_tag_reads_back false (mkPacket 9 3 40 0 Examples.key 14)
              (mkLocals 0 0 0 (fopen_rb (Examples.tag 9 40 Examples.key)))
              Examples.idle_state [])
    as (l' & s' & R & C & F & _).
  - vm_compute. split; [discriminate|reflexivity].
  - vm_compute. discriminate.
  - vm_compute. split; [discriminate|reflexivity].
  - vm_compute. split; [discriminate|reflexivity].
  - vm_compute. split; [discriminate|reflexivity].
  - reflexivity.
  - exists l', s'. split; [exact R|]. split; [exact C|]. exact F.
Defined.

Lemma tag_bytes_length (be : bool) (p : FLVpacket) :
  0 <= datasize p <= Z.of_nat (length (data p)) ->
  Z.of_nat (length (tag_bytes be p)) = datasize p + 15.
Proof.
  intros W. unfold tag_bytes, tag_chunks. cbn [concat].
  rewrite !length_app, !length_firstn, !format_ui24_length, format_ui32_length.
  cbn [length]. lia.
Qed.

(** X12.  A packet that [write_packet] does not drop and can write is
    appended to the output as one tag of [datasize + 15] bytes, with the
    shifted timestamp and the back-pointer of the packet as it is; the
    packet is recorded, [last_packet_size] becomes its size whatever its
    type, and of the two timestamps only the one of its type changes. *)
Theorem write_packet_appends_tag (be : bool) (p : FLVpacket) (off : Z)
    (s : state) (r : FLVpacket) (s' : state) :
  at_end (outfile s) -> 0 <= datasize p <= Z.of_nat (length (data p)) ->
  overlapping (shifted off p) s = false ->
  write_packet be p off s = Ok r s' ->
  r = shifted off p
  /\ contents (outfile s') = contents (outfile s) ++ tag_bytes be (shifted off p)
  /\ Z.of_nat (length (tag_bytes be (shifted off p))) = datasize p + 15
  /\ at_end (outfile s')
  /\ written s' = written s ++ [copy_packet (shifted off p)]
  /\ last_packet_size s' = datasize p
  /\ last_video_timestamp s' =
     (if type p =? 9 then timestamp (shifted off p) else last_video_timestamp s)
  /\ last_audio_timestamp s' =
     (if type p =? 8 then timestamp (shifted off p) else last_audio_timestamp s).
Proof.
  intros E W Ov H.
  pose proof (write_packet_cases be p off s) as C. rewrite H in C.
  destruct C as [-> [[Ov' _]|[_ [f [Pc ->]]]]]; [congruence|].
  split; [reflexivity|].
  pose proof (put_chunks_true _ _ _ E Pc) as Cf.
  pose proof (put_chunks_at_end (tag_chunks be (shifted off p)) (outfile s) E) as (E' & _).
  rewrite Pc in E'. cbn [fst] in E'.
  cbn [outfile written last_packet_size last_video_timestamp last_audio_timestamp
       note_written set_outfile].
  repeat split; try assumption; try reflexivity.
  apply (tag_bytes_length be (shifted off p)). exact W.
Qed.

Lemma write_packet_appends_tag_witness :
  exists r s',
    write_packet false (mkPacket 9 3 40 0 Examples.key 14) 60
                 (state0 (fopen_wb None)) = Ok r s'
    /\ contents (outfile s')
       = tag_bytes false (shifted 60 (mkPacket 9 3 40 0 Examples.key 14))
    /\ last_video_timestamp s' = 100
    /\ last_audio_timestamp s' = -1
    /\ last_packet_size s' = 3.
Proof.
  destruct (write_packet false (mkPacket 9 3 40 0 Examples.key 14) 60
                         (state0 (fopen_wb None)))
    as [r s'| | |] eqn:H; try (vm_compute in H; discriminate H).
  exists r, s'. split; [reflexivity|].
  destruct (write_packet_appends_tag false (mkPacket 9 3 40 0 Examples.key 14) 60
              (state0 (fopen_wb None)) r s')
    as (_ & C & _ & _ & _ & P & V & A).
  - reflexivity.
  - vm_compute. split; discriminate.
  - reflexivity.
  - exact H.
  - repeat split; assumption.
Defined.

End Tags.

(** ** flvjoin.c: what holds throughout a run *)

Section Engine.
Import DataConv Stdio FlvJoinH Metadata Machine FlvJoin Spec Behaviour.
Open Scope flv_scope.

Lemma safe_weaken {A : Type} (R R' : A -> state -> Prop)
    (Q Q' : Z -> state -> Prop) (o : outcome A) :
  safe R Q o -> (forall a s, R a s -> R' a s) -> (forall c s, Q c s -> Q' c s) ->
  safe R' Q' o.
Proof. destruct o; cbn; auto. Qed.

Lemma partial_bind {A B : Type} (P : state -> Prop) (m : M A)
    (R : A -> state -> Prop) (k : A -> M B) (R' : B -> state -> Prop)
    (Q : Z -> state -> Prop) :
  partial P m R Q -> (forall a, partial (R a) (k a) R' Q) ->
  partial P (x <- m ;; k x) R' Q.
Proof.
  intros Hm Hk s Hs. unfold bind. specialize (Hm s Hs).
  destruct (m s) as [a s'|c s'| |]; cbn in *; try exact I; try exact Hm.
  exact (Hk a s' Hm).
Qed.

Lemma holds_ret {A : Type} (J : state -> Prop) (Q : Z -> state -> Prop) (V : A -> Prop) (a : A) :
  V a -> holds J Q V (ret a).
Proof. intros Va s Hs. cbn. auto. Qed.

Lemma holds_bind {A B : Type} (J : state -> Prop) (Q : Z -> state -> Prop) (V : A -> Prop)
    (W : B -> Prop) (m : M A) (k : A -> M B) :
  holds J Q V m -> (forall a, V a -> holds J Q W (k a)) ->
  holds J Q W (x <- m ;; k x).
Proof.
  intros Hm Hk. unfold holds. eapply partial_bind; [exact Hm|].
  intros a s [Hs Va]. exact (Hk a Va s Hs).
Qed.

Lemma holds_gets {A : Type} (J : state -> Prop) (Q : Z -> state -> Prop) (f : state -> A) :
  holds J Q (fun _ => True) (gets f).
Proof. intros s Hs. cbn. auto. Qed.

Lemma holds_modify (J : state -> Prop) (Q : Z -> state -> Prop) (f : state -> state) :
  (forall s, J s -> J (f s)) -> holds J Q (fun _ => True) (modify f).
Proof. intros H s Hs. cbn. auto. Qed.

Lemma holds_undef {A : Type} (J : state -> Prop) (Q : Z -> state -> Prop) (V : A -> Prop) :
  holds J Q V (@undef A).
Proof. intros s Hs. exact I. Qed.

Lemma holds_weaken {A : Type} (J : state -> Prop) (Q : Z -> state -> Prop) (V W : A -> Prop) (m : M A) :
  holds J Q V m -> (forall a, V a -> W a) -> holds J Q W m.
Proof.
  intros H VW s Hs. specialize (H s Hs).
  destruct (m s); cbn in *; try exact I; try exact H.
  destruct H. auto.
Qed.

Lemma holds_data_byte (J : state -> Prop) (Q : Z -> state -> Prop) (p : FLVpacket) (i : nat) :
  holds J Q (fun _ => True) (data_byte p i).
Proof.
  unfold data_byte. destruct (nth_error (data p) i);
    [apply holds_ret; exact I|apply holds_undef].
Qed.

(** *** An unbounded output device never makes the program exit *)

Lemma write_output_unbounded (buffer : list Z) (bytes : Z) :
  holds (fun s => limit (outfile s) = None) (fun _ _ => False) (fun _ => True)
        (write_output buffer bytes).
Proof.
  intros s L. unfold write_output. destruct (_ <? _); [exact I|].
  pose proof (fwrite_unbounded (firstn (Z.to_nat bytes) buffer) (outfile s) L) as K.
  pose proof (fwrite_limit (firstn (Z.to_nat bytes) buffer) (outfile s)) as Lf.
  destruct (fwrite _ (outfile s)) as [k f]. cbn [fst snd] in *.
  rewrite K, Nat.eqb_refl. cbn. rewrite Lf. auto.
Qed.

Lemma write_packet_unbounded (be : bool) (p : FLVpacket) (off : Z) :
  holds (fun s => limit (outfile s) = None) (fun _ _ => False) (fun _ => True)
        (write_packet be p off).
Proof.
  unfold write_packet.
  eapply holds_bind; [apply holds_gets|]. intros la _.
  destruct (_ && _); [apply holds_ret; exact I|].
  repeat (eapply holds_bind; [apply write_output_unbounded|]; intros _ _).
  eapply holds_bind; [apply holds_modify; intros s L; exact L|]; intros _ _.
  apply holds_ret. exact I.
Qed.

(** *** The invariant of a run *)

Lemma last_timestamp_snoc (ty init : Z) (l : list FLVpacket) (q : FLVpacket) :
  last_timestamp ty init (l ++ [q]) =
  if type q =? ty then timestamp q else last_timestamp ty init l.
Proof. unfold last_timestamp. rewrite fold_left_app. reflexivity. Qed.

Lemma last_size_snoc (l : list FLVpacket) (q : FLVpacket) :
  last_size (l ++ [q]) = datasize q.
Proof. unfold last_size. rewrite fold_left_app. reflexivity. Qed.

Lemma put_chunks_limit (cs : list (list Z)) :
  forall f, limit (fst (put_chunks cs f)) = limit f.
Proof.
  induction cs as [|c cs IH]; intros f; [reflexivity|].
  cbn [put_chunks]. pose proof (fwrite_limit c f) as L.
  destruct (fwrite c f) as [k f']. cbn [snd] in L.
  destruct (k =? length c)%nat; [rewrite IH; exact L|exact L].
Qed.

Lemma Run_note_written (lim : option nat) (pre : list FLVpacket) (q : FLVpacket)
    (f : FILE) (s : state) :
  Run lim pre s -> media q -> limit f = lim ->
  Run lim pre (note_written q (set_outfile f s)).
Proof.
  intros (L & (Cv & Ca & Cs) & (new & W & F) & K & Sq) Mq Lf.
  unfold Run, counters_match, media_after.
  cbn [outfile written last_video_timestamp last_audio_timestamp last_packet_size
       pktarray seq_header_pkt note_written set_outfile].
  rewrite !last_timestamp_snoc, last_size_snoc.
  change (type (copy_packet q)) with (type q).
  change (timestamp (copy_packet q)) with (timestamp q).
  change (datasize (copy_packet q)) with (datasize q).
  rewrite <- Cv, <- Ca.
  repeat split; try assumption.
  exists (new ++ [copy_packet q]). split; [rewrite W, app_assoc; reflexivity|].
  apply Forall_app. split; [exact F|]. constructor; [exact Mq|constructor].
Qed.

Lemma Run_frame (lim : option nat) (pre : list FLVpacket) (s s' : state) :
  outfile s' = outfile s -> written s' = written s ->
  last_video_timestamp s' = last_video_timestamp s ->
  last_audio_timestamp s' = last_audio_timestamp s ->
  last_packet_size s' = last_packet_size s ->
  Forall media (pktarray s') ->
  (forall sh, seq_header_pkt s' = Some sh -> type sh = 9) ->
  Run lim pre s -> Run lim pre s'.
Proof.
  intros Ho Hw Hv Ha Hs Hp Hq (L & (Cv & Ca & Cs) & M & _ & _).
  unfold Run, counters_match, media_after in *.
  rewrite Ho, Hw, Hv, Ha, Hs. repeat split; assumption.
Qed.

Lemma write_packet_holds (be : bool) (lim : option nat) (pre : list FLVpacket)
    (p : FLVpacket) (off : Z) :
  media p ->
  holds (Run lim pre) (Stopped lim) (fun _ => True) (write_packet be p off).
Proof.
  intros Mp s Hs.
  pose proof (write_packet_cases be p off s) as H.
  pose proof (write_packet_unbounded be p off s) as U.
  destruct (write_packet be p off s) as [r s'|c s'| |]; cbn; try exact I.
  - destruct H as [_ [[_ ->]|[_ [f [Pc ->]]]]]; [auto|].
    split; [|exact I]. apply Run_note_written; [exact Hs|exact Mp|].
    pose proof (put_chunks_limit (tag_chunks be (shifted off p)) (outfile s)) as Lf.
    rewrite Pc in Lf. cbn [fst] in Lf. rewrite Lf. apply Hs.
  - destruct H as (-> & _ & f & ->).
    destruct Hs as (L & C & _). split; [reflexivity|]. split; [|exact C].
    intros N. rewrite N in L. exact (U L).
Qed.

Lemma flush_loop_holds (be : bool) (lim : option nat) (pre : list FLVpacket)
    (entries : list FLVpacket) (off : Z) :
  Forall media entries ->
  holds (Run lim pre) (Stopped lim) (fun _ => True) (flush_loop be entries off).
Proof.
  induction entries as [|e rest IH]; intros F; cbn [flush_loop].
  - apply holds_ret. exact I.
  - apply Forall_cons_iff in F as [Me F].
    intros s Hs. unfold bind at 1, gets.
    assert (K : holds (Run lim pre) (Stopped lim) (fun _ => True)
                  (match seq_header_pkt s with
                   | Some sh =>
                       if type e =? 9
                       then write_packet be (set_timestamp (timestamp e) sh) off ;;
                            modify (set_seq_header_pkt None)
                       else ret tt
                   | None => ret tt
                   end ;; write_packet be e off ;; flush_loop be rest off)).
    { eapply holds_bind with (V := fun _ => True).
      - destruct (seq_header_pkt s) as [sh|] eqn:Q; [|apply holds_ret; exact I].
        destruct (type e =? 9); [|apply holds_ret; exact I].
        eapply holds_bind.
        + apply write_packet_holds. right.
          destruct Hs as (_ & _ & _ & _ & Sq). exact (Sq sh Q).
        + intros _ _. apply holds_modify. intros s0 H0.
          eapply Run_frame; [| | | | | | |exact H0]; try reflexivity.
          * apply H0.
          * discriminate.
      - intros _ _. eapply holds_bind; [apply write_packet_holds; exact Me|].
        intros _ _. apply IH. exact F. }
    exact (K s Hs).
Qed.

Lemma buffer_packet_holds (be : bool) (lim : option nat) (pre : list FLVpacket)
    (p : FLVpacket) (off : Z) (flush : bool) :
  media p ->
  holds (Run lim pre) (Stopped lim) (fun _ => True) (buffer_packet be p off flush).
Proof.
  intros Mp. unfold buffer_packet.
  destruct (_ <? _); [apply holds_undef|].
  assert (A : forall s, Run lim pre s ->
                Run lim pre (set_pktarray (pktarray s ++ [copy_packet p]) s)).
  { intros s Hs. eapply Run_frame; [| | | | | | |exact Hs]; try reflexivity.
    - cbn [pktarray set_pktarray]. apply Forall_app. split; [apply Hs|].
      constructor; [exact Mp|constructor].
    - apply Hs. }
  destruct flush.
  - intros s Hs. unfold bind at 1, modify. unfold bind at 1, gets.
    assert (K : holds (Run lim pre) (Stopped lim) (fun _ => True)
                  (flush_loop be (pktarray s ++ [copy_packet p]) off ;;
                   modify (set_pktarray []))).
    { eapply holds_bind.
      - apply flush_loop_holds. apply Forall_app. split; [apply Hs|].
        constructor; [exact Mp|constructor].
      - intros _ _. apply holds_modify. intros s0 H0.
        eapply Run_frame; [| | | | | | |exact H0]; try reflexivity.
        + constructor.
        + apply H0. }
    exact (K _ (A s Hs)).
  - eapply holds_bind; [apply holds_modify; exact A|].
    intros _ _. apply holds_ret. exact I.
Qed.

Lemma route_holds (be no_meta : bool) (frame_interval : Z) (lim : option nat)
    (pre : list FLVpacket) (mark_in mark_out : Z) (l : locals) :
  holds (Run lim pre) (Stopped lim) (fun _ => True)
        (route be no_meta frame_interval mark_in mark_out l).
Proof.
  unfold route.
  eapply holds_bind; [apply holds_gets|]. intros p _.
  destruct (type p =? 18).
  { intros s Hs. unfold bind, gets.
    destruct (negb (metadata_extracted s) && negb no_meta); [|cbn; auto].
    unfold lift_res.
    destruct (extract_metadata be p (meta s)) as [[found m']| |]; cbn; try exact I.
    split; [|exact I].
    eapply Run_frame; [| | | | | | |exact Hs]; try reflexivity; apply Hs. }
  eapply holds_bind; [apply holds_gets|]. intros seq _.
  eapply holds_bind with (V := fun b : bool => b = true -> type p = 9).
  { destruct seq; [apply holds_ret; discriminate|].
    destruct (Z.eqb_spec (type p) 9) as [T9|_]; [|apply holds_ret; discriminate].
    eapply holds_bind; [apply holds_data_byte|]. intros d0 _.
    destruct (Z.land d0 15 =? 7); [|apply holds_ret; discriminate].
    eapply holds_bind; [apply holds_data_byte|]. intros d1 _.
    apply holds_ret. intros _. exact T9. }
  intros is_seq T9. destruct is_seq.
  { eapply holds_bind.
    - apply holds_modify. intros s Hs.
      eapply Run_frame; [| | | | | | |exact Hs]; try reflexivity.
      + apply Hs.
      + intros sh E. inversion E. apply T9. reflexivity.
    - intros _ _. apply holds_ret. exact I. }
  clear T9.
  destruct ((timestamp p <? mark_in) || (mark_out <=? timestamp p)
            || (negb (type p =? 8) && negb (type p =? 9))) eqn:Tr.
  { apply holds_ret. exact I. }
  assert (T89 : media p).
  { apply orb_false_iff in Tr. destruct Tr as [_ Tr]. unfold media.
    destruct (Z.eqb_spec (type p) 8); [auto|].
    destruct (Z.eqb_spec (type p) 9); [auto|discriminate]. }
  clear Tr.
  eapply holds_bind with (V := fun _ => True).
  { destruct (type p =? 8); [apply holds_ret; exact I|].
    eapply holds_bind; [apply holds_data_byte|]. intros d0 _.
    apply holds_ret; exact I. }
  intros key_frame _.
  set (l1 := if (first_keyframe_timestamp l =? -1) && key_frame then _ else l).
  destruct (file_start_timestamp l1 =? -999999).
  - destruct (type p =? 9).
    + destruct key_frame; [|apply holds_ret; exact I].
      eapply holds_bind; [apply holds_gets|]. intros first _.
      eapply holds_bind with (V := fun _ => True).
      { destruct first; [|apply holds_ret; exact I].
        apply holds_modify. intros s Hs.
        eapply Run_frame; [| | | | | | |exact Hs]; try reflexivity; apply Hs. }
      intros _ _. eapply holds_bind; [apply buffer_packet_holds; exact T89|].
      intros _ _. apply holds_ret. exact I.
    + eapply holds_bind; [apply buffer_packet_holds; exact T89|].
      intros _ _. apply holds_ret. exact I.
  - eapply holds_bind; [apply write_packet_holds; exact T89|].
    intros p' _. eapply holds_bind.
    + apply holds_modify. intros s Hs.
      eapply Run_frame; [| | | | | | |exact Hs]; try reflexivity; apply Hs.
    + intros _ _. apply holds_ret. exact I.
Qed.

Lemma read_tag_holds (be : bool) (lim : option nat) (pre : list FLVpacket)
    (l : locals) :
  holds (Run lim pre) (Stopped lim) (fun _ => True) (read_tag be l).
Proof.
  intros s Hs. unfold read_tag.
  destruct (fread 11 (infile l)) as [hd f1].
  destruct (length hd =? 0)%nat.
  { cbn. split; [|exact I].
    eapply Run_frame; [| | | | | | |exact Hs]; try reflexivity; apply Hs. }
  destruct (fread _ f1) as [payload f2]. destruct (fread 4 f2) as [bp f3].
  cbn. split; [|exact I].
  eapply Run_frame; [| | | | | | |exact Hs]; try reflexivity; apply Hs.
Qed.

Lemma open_input_holds (be : bool) (lim : option nat) (pre : list FLVpacket)
    (bytes : list Z) :
  holds (Run lim pre) (Stopped lim) (fun _ => True) (open_input be bytes).
Proof.
  intros s Hs. unfold open_input.
  destruct (fread 9 (fopen_rb bytes)) as [hd f1].
  destruct (negb (length hd =? 9)%nat).
  { cbn. split; [|exact I].
    eapply Run_frame; [| | | | | | |exact Hs]; try reflexivity; apply Hs. }
  destruct (list_eq_dec Z.eq_dec _ _).
  - destruct (fread _ f1) as [ex f2].
    destruct (_ <? _)%nat; [exact I|].
    cbn. split; [|exact I].
    eapply Run_frame; [| | | | | | |exact Hs]; try reflexivity; apply Hs.
  - cbn. split; [|exact I].
    eapply Run_frame; [| | | | | | |exact Hs]; try reflexivity; apply Hs.
Qed.

Lemma append_loop_holds (be no_meta : bool) (frame_interval : Z)
    (lim : option nat) (pre : list FLVpacket) (mark_in mark_out : Z) (fuel : nat) :
  forall l,
    holds (Run lim pre) (Stopped lim) (fun _ => True)
          (append_loop be no_meta frame_interval fuel mark_in mark_out l).
Proof.
  induction fuel as [|fuel IH]; intros l; cbn [append_loop];
    (destruct (feof (infile l)); [apply holds_ret; exact I|]).
  - intros s Hs. exact I.
  - eapply holds_bind; [apply read_tag_holds|]. intros [l'|] _.
    + eapply holds_bind; [apply route_holds|]. intros l'' _. apply IH.
    + apply holds_ret. exact I.
Qed.

Lemma append_lines_holds (be no_meta : bool) (frame_interval : Z)
    (lim : option nat) (pre : list FLVpacket) (lines : list input_line) :
  holds (Run lim pre) (Stopped lim) (fun _ => True)
        (append_lines be no_meta frame_interval lines).
Proof.
  induction lines as [|ln rest IH]; cbn [append_lines].
  - apply holds_ret. exact I.
  - eapply holds_bind with (V := fun _ => True); [|intros _ _; exact IH].
    unfold append_line. destruct (marks_of_line ln) as [[mi|] [mo|]];
      try apply holds_undef.
    unfold append_file.
    eapply holds_bind; [apply holds_gets|]. intros lastfile _.
    destruct (line_file ln) as [bytes|]; [|apply holds_ret; exact I].
    eapply holds_bind; [apply open_input_holds|]. intros [f|] _.
    + eapply holds_bind; [apply append_loop_holds|]. intros _ _.
      apply holds_ret. exact I.
    + apply holds_ret. exact I.
Qed.

Lemma join_run (be no_meta : bool) (frame_interval : Z) (lim : option nat)
    (lines : list input_line) :
  safe (fun _ s => Run lim (preamble be no_meta) s) (Stopped lim)
       (join be no_meta frame_interval lim lines).
Proof.
  unfold join, write_flv_header. unfold bind at 1, modify.
  set (f0 := snd (fwrite flv_header (outfile (state0 (fopen_wb lim))))).
  set (s0 := set_outfile f0 (state0 (fopen_wb lim))).
  assert (L0 : limit f0 = lim) by (unfold f0; rewrite fwrite_limit; reflexivity).
  assert (R0 : Run lim [] s0).
  { unfold Run, counters_match, media_after. cbn. repeat split; try assumption.
    - exists []. split; [reflexivity|constructor].
    - constructor.
    - discriminate. }
  unfold preamble. destruct no_meta.
  - unfold bind at 1, ret.
    eapply safe_weaken;
      [exact (append_lines_holds be true frame_interval lim [] lines s0 R0)
      |intros a s [H _]; exact H|auto].
  - unfold bind at 1. unfold bind at 1, gets.
    pose proof (generate_metadata_packet_fst be (meta s0) (outfile s0)) as Ef.
    pose proof (generate_metadata_packet_type be (meta s0) (outfile s0)) as T.
    pose proof (generate_metadata_packet_shifted be (meta s0) (outfile s0)) as Sh.
    destruct (generate_metadata_packet be (meta s0) (outfile s0)) as [pkt m].
    cbn [fst] in Ef, T, Sh. rewrite <- Ef. clear Ef.
    unfold bind at 1, modify. unfold bind at 1.
    set (s1 := set_meta m (metadata_extracted s0) s0).
    pose proof (write_packet_cases be pkt 0 s1) as H.
    pose proof (write_packet_unbounded be pkt 0 s1) as U.
    rewrite Sh in H.
    destruct (write_packet be pkt 0 s1) as [r s2|c s2| |]; cbv beta iota; try exact I.
    + destruct H as [_ [[Ov _]|[_ [f [Pc ->]]]]].
      { unfold overlapping in Ov. rewrite T in Ov. discriminate Ov. }
      eapply safe_weaken;
        [apply (append_lines_holds be false frame_interval lim [copy_packet pkt] lines)
        |intros a s [H _]; exact H|auto].
      pose proof (put_chunks_limit (tag_chunks be pkt) (outfile s1)) as Lf.
      rewrite Pc in Lf. cbn [fst] in Lf.
      unfold Run, counters_match, media_after.
      cbn [outfile written last_video_timestamp last_audio_timestamp
           last_packet_size pktarray seq_header_pkt note_written set_outfile
           set_meta s1 s0 state0 app].
      unfold last_timestamp, last_size. cbn [fold_left].
      change (type (copy_packet pkt)) with (type pkt). rewrite T.
      repeat split; try reflexivity.
      * rewrite Lf. exact L0.
      * exists []. split; [reflexivity|constructor].
      * constructor.
      * discriminate.
    + destruct H as (-> & _ & f & ->). split; [reflexivity|]. split.
      * intros N. apply U. cbn [outfile s1 s0 set_meta set_outfile].
        rewrite L0. exact N.
      * unfold counters_match. repeat split; reflexivity.
Qed.

Lemma main_run (be no_meta : bool) (frame_interval audio_bitrate : Z)
    (lim : option nat) (lines : list input_line) :
  safe (fun _ s => counters_match s /\ media_after (preamble be no_meta) s)
       (Stopped lim) (main be no_meta frame_interval audio_bitrate lim lines).
Proof.
  unfold main. pose proof (join_run be no_meta frame_interval lim lines) as J.
  destruct (join be no_meta frame_interval lim lines) as [a s|c s| |];
    cbv beta iota delta [safe] in J |- *; try exact I; try exact J.
  destruct J as (_ & C & M & _).
  destruct no_meta; [split; assumption|].
  unfold finalize. destruct (final_duration _ _ s); [|exact I].
  destruct (write_metadata be (meta s) (outfile s) z) as [m f].
  split; assumption.
Qed.

Lemma post_of_safe {A : Type} (R1 R2 : A -> state -> Prop) (Q1 : state -> Prop)
    (Q2 : Z -> state -> Prop) (o : outcome A) :
  post R1 Q1 o -> safe R2 Q2 o -> post R2 (fun s => exists c, Q2 c s) o.
Proof. destruct o; cbn; eauto. Qed.

(** X14.  The three counters follow the output through a whole run: when
    [main] ends, and when it is ended by [exit], [last_video_timestamp] and
    [last_audio_timestamp] are the timestamps of the last video and audio
    packets written (0 and -1 when there is none) and [last_packet_size] is
    the size of the last packet written, of whatever type.  [main] never
    runs out of rounds. *)
Theorem counters_follow_the_output (be no_meta : bool)
    (frame_interval audio_bitrate : Z) (lim : option nat)
    (lines : list input_line) :
  post (fun _ s => counters_match s) counters_match
       (main be no_meta frame_interval audio_bitrate lim lines).
Proof.
  eapply post_weaken.
  - eapply post_of_safe; [apply main_spec|apply main_run].
  - cbv beta. intros _ s [C _]. exact C.
  - cbv beta. intros s [c (_ & _ & C)]. exact C.
Qed.

(** X15.  Only audio and video packets are copied: at the end of a run the
    packets written are the placeholder metadata packet (none with the
    option -n) followed by packets of type 8 or 9; no script packet and no
    packet of another type of an input reaches the output. *)
Theorem only_audio_and_video_are_copied (be no_meta : bool)
    (frame_interval audio_bitrate : Z) (lim : option nat)
    (lines : list input_line) :
  post (fun _ s => media_after (preamble be no_meta) s) (fun _ => True)
       (main be no_meta frame_interval audio_bitrate lim lines).
Proof.
  eapply post_weaken.
  - eapply post_of_safe; [apply main_spec|apply main_run].
  - cbv beta. intros _ s [_ M]. exact M.
  - auto.
Qed.

(** X16.  Between the opening and the closing of the output, [main] is
    ended by [exit] only with status 1 and only on an output device that is
    bounded: while every write is accepted whole, no input makes the program
    exit. *)
Theorem exit_means_short_write (be no_meta : bool)
    (frame_interval audio_bitrate : Z) (lim : option nat)
    (lines : list input_line) (code : Z) (s : state) :
  main be no_meta frame_interval audio_bitrate lim lines = Exit code s ->
  code = 1 /\ lim <> None.
Proof.
  intros E. pose proof (main_run be no_meta frame_interval audio_bitrate lim lines) as M.
  rewrite E in M. destruct M as (C & L & _). split; assumption.
Qed.

Lemma exit_means_short_write_witness :
  exists s,
    main false true 100 32000 (Some 20%nat) [Examples.line Examples.file_a]
    = Exit 1 s.
Proof.
  destruct (main false true 100 32000 (Some 20%nat) [Examples.line Examples.file_a])
    as [a s|c s| |] eqn:E; try (vm_compute in E; discriminate E).
  exists s.
  destruct (exit_means_short_write false true 100 32000 (Some 20%nat)
              [Examples.line Examples.file_a] c s E) as [-> _].
  reflexivity.
Defined.

End Engine.

(** ** flvjoin.c: the steps of the loop *)

Section Steps.
Import DataConv Stdio FlvJoinH Metadata Machine FlvJoin Spec Behaviour.
Open Scope flv_scope.

(** X17.  A packet whose type is not 8, 9 or 18 is skipped: whatever its
    timestamp, the marks and the state of the file, the second half of the
    loop body leaves the state and the variables of the loop as they are. *)
Theorem other_tag_types_are_skipped (be no_meta : bool)
    (frame_interval mark_in mark_out : Z) (l : locals) (s : state) :
  type (packet s) <> 8 -> type (packet s) <> 9 -> type (packet s) <> 18 ->
  route be no_meta frame_interval mark_in mark_out l s = Ok l s.
Proof.
  intros T8 T9 T18. unfold route. rewrite bind_gets.
  set (p := packet s) in *.
  destruct (Z.eqb_spec (type p) 18) as [E|_]; [contradiction|].
  rewrite bind_gets.
  rewrite (bind_ok _ _ _ _ _ (route_header_test p s (fun T _ => False_ind _ (T9 T)))).
  assert (F : match seq_header_pkt s with
              | Some _ => false
              | None => is_sequence_header p
              end = false).
  { destruct (seq_header_pkt s); [reflexivity|]. unfold is_sequence_header.
    destruct (Z.eqb_spec (type p) 9) as [E|_]; [contradiction|].
    destruct (data p) as [|d0 [|d1 r]]; reflexivity. }
  rewrite F. cbv iota.
  destruct (Z.eqb_spec (type p) 8) as [E|_]; [contradiction|].
  destruct (Z.eqb_spec (type p) 9) as [E|_]; [contradiction|].
  cbn [negb andb]. rewrite orb_true_r. reflexivity.
Qed.

Lemma other_tag_types_are_skipped_witness :
  route false true 100 0 99999000 (mkLocals 0 0 0 (fopen_rb []))
        (set_packet (mkPacket 15 3 0 0 Examples.key 14) Examples.idle_state)
  = Ok (mkLocals 0 0 0 (fopen_rb []))
       (set_packet (mkPacket 15 3 0 0 Examples.key 14) Examples.idle_state).
Proof.
  apply (other_tag_types_are_skipped false true 100 0 99999000
           (mkLocals 0 0 0 (fopen_rb []))
           (set_packet (mkPacket 15 3 0 0 Examples.key 14) Examples.idle_state));
    vm_compute; discriminate.
Defined.

Lemma set_meta_same (s : state) : set_meta (meta s) (metadata_extracted s) s = s.
Proof. destruct s; reflexivity. Qed.

(** X18.  A script packet is never buffered or written and never ends the
    run: its step changes at most the metadata and the flag
    [metadata_extracted], which become what [extract_metadata] returns, and
    never the duration, the file size or the stored offsets; once the flag
    is set, or with the option -n, the step changes nothing. *)
Theorem script_packets_only_feed_the_metadata (be no_meta : bool)
    (frame_interval mark_in mark_out : Z) (l : locals) (s : state) :
  type (packet s) = 18 ->
  match route be no_meta frame_interval mark_in mark_out l s with
  | Ok l' s' =>
      l' = l
      /\ s' = set_meta (meta s') (metadata_extracted s') s
      /\ patcher_fields (meta s') = patcher_fields (meta s)
      /\ (metadata_extracted s = true \/ no_meta = true -> s' = s)
      /\ (metadata_extracted s = false -> no_meta = false ->
          extract_metadata be (packet s) (meta s)
          = Done (metadata_extracted s', meta s'))
  | Exit _ _ => False
  | Undef => True
  | Timeout => False
  end.
Proof.
  intros T. unfold route. rewrite bind_gets. rewrite T.
  change (18 =? 18) with true. cbv iota. rewrite bind_gets.
  destruct (metadata_extracted s) eqn:Ex; cbn [negb andb].
  { cbv beta iota delta [ret]. repeat split; auto.
    - symmetry. apply set_meta_same.
    - rewrite Ex. discriminate. }
  destruct no_meta; cbn [negb].
  { cbv beta iota delta [ret]. repeat split; auto.
    - symmetry. apply set_meta_same.
    - discriminate. }
  rewrite bind_gets. unfold bind at 1, lift_res.
  pose proof (extract_metadata_spec be (packet s) (meta s)) as K.
  destruct (extract_metadata be (packet s) (meta s)) as [[found m']| |] eqn:E;
    [|exact I|exact K].
  apply extract_metadata_patcher_fields in E.
  cbn. repeat split; auto.
  intros [H|H]; discriminate H.
Qed.

Lemma script_packets_only_feed_the_metadata_witness :
  match route false false 100 0 99999000 (mkLocals 0 0 0 (fopen_rb []))
              (set_packet Examples.script_packet Examples.idle_state) with
  | Ok l' s' =>
      l' = mkLocals 0 0 0 (fopen_rb [])
      /\ s' = set_meta (meta s') (metadata_extracted s')
                       (set_packet Examples.script_packet Examples.idle_state)
      /\ patcher_fields (meta s')
         = patcher_fields (meta (set_packet Examples.script_packet Examples.idle_state))
      /\ (metadata_extracted (set_packet Examples.script_packet Examples.idle_state)
          = true \/ false = true ->
          s' = set_packet Examples.script_packet Examples.idle_state)
      /\ (metadata_extracted (set_packet Examples.script_packet Examples.idle_state)
          = false -> false = false ->
          extract_metadata false
            (packet (set_packet Examples.script_packet Examples.idle_state))
            (meta (set_packet Examples.script_packet Examples.idle_state))
          = Done (metadata_extracted s', meta s'))
  | Exit _ _ => False
  | Undef => True
  | Timeout => False
  end.
Proof.
  apply (script_packets_only_feed_the_metadata false false 100 0 99999000
           (mkLocals 0 0 0 (fopen_rb []))
           (set_packet Examples.script_packet Examples.idle_state)).
  reflexivity.
Defined.

(** X19.  While the offset of the file is undetermined, a video packet that
    is neither a key frame nor taken as sequence header is discarded: the
    step leaves the state and the variables of the loop as they are (it is
    not buffered, and it does not become the first key frame). *)
Theorem frames_before_the_first_key_frame_are_discarded (be no_meta : bool)
    (frame_interval mark_in mark_out : Z) (l : locals) (s : state) :
  type (packet s) = 9 -> (2 <= length (data (packet s)))%nat ->
  (seq_header_pkt s = None -> is_sequence_header (packet s) = false) ->
  is_key_frame (packet s) = false ->
  file_start_timestamp l = -999999 ->
  route be no_meta frame_interval mark_in mark_out l s = Ok l s.
Proof.
  intros T Len NS KF FS. unfold route. rewrite bind_gets.
  set (p := packet s) in *. rewrite T.
  change (9 =? 18) with false. cbv iota. rewrite bind_gets.
  pose proof (route_header_test p s (fun _ _ => Len)) as H.
  rewrite T in H. rewrite (bind_ok _ _ _ _ _ H).
  assert (F : match seq_header_pkt s with
              | Some _ => false
              | None => is_sequence_header p
              end = false)
    by (destruct (seq_header_pkt s); [reflexivity|apply NS; reflexivity]).
  rewrite F. cbv iota.
  destruct ((timestamp p <? mark_in) || (mark_out <=? timestamp p)
            || (negb (9 =? 8) && negb (9 =? 9))); [reflexivity|].
  change (9 =? 8) with false. cbv iota.
  unfold is_key_frame in KF. rewrite T in KF. change (9 =? 8) with false in KF.
  destruct (data p) as [|d0 rest] eqn:D; [cbn [length] in Len; lia|].
  cbn [orb] in KF.
  assert (KT : (b <- data_byte p 0 ;; ret (Z.shiftr (Z.land b 240) 4 =? 1)) s
               = Ok (Z.shiftr (Z.land d0 240) 4 =? 1) s)
    by (rewrite (bind_ok _ _ _ _ _ (data_byte_0 p d0 rest s D)); reflexivity).
  rewrite (bind_ok _ _ _ _ _ KT).
  rewrite KF, andb_false_r. rewrite FS.
  change (-999999 =? -999999) with true. cbv iota.
  change (9 =? 9) with true. cbv iota. reflexivity.
Qed.

Lemma frames_before_the_first_key_frame_are_discarded_witness :
  route false true 100 0 99999000 (mkLocals (-999999) (-1) 0 (fopen_rb []))
        (set_packet (mkPacket 9 3 0 0 Examples.inter 14) Examples.idle_state)
  = Ok (mkLocals (-999999) (-1) 0 (fopen_rb []))
       (set_packet (mkPacket 9 3 0 0 Examples.inter 14) Examples.idle_state).
Proof.
  apply (frames_before_the_first_key_frame_are_discarded false true 100 0 99999000
           (mkLocals (-999999) (-1) 0 (fopen_rb []))
           (set_packet (mkPacket 9 3 0 0 Examples.inter 14) Examples.idle_state)).
  - reflexivity.
  - vm_compute. lia.
  - reflexivity.
  - reflexivity.
  - reflexivity.
Defined.

Lemma holds_any {A : Type} (m : M A) :
  holds (fun _ => True) (fun _ _ => True) (fun _ => True) m.
Proof. intros s _. destruct (m s); cbn; auto. Qed.

Lemma route_locals (be no_meta : bool) (frame_interval mark_in mark_out : Z)
    (l : locals) :
  holds (fun _ => True) (fun _ _ => True)
        (fun l' =>
           infile l' = infile l
           /\ lastfile_video_timestamp l' = lastfile_video_timestamp l
           /\ (file_start_timestamp l <> -999999 ->
               file_start_timestamp l' = file_start_timestamp l)
           /\ (first_keyframe_timestamp l <> -1 ->
               first_keyframe_timestamp l' = first_keyframe_timestamp l))
        (route be no_meta frame_interval mark_in mark_out l).
Proof.
  assert (Same : infile l = infile l
                 /\ lastfile_video_timestamp l = lastfile_video_timestamp l
                 /\ (file_start_timestamp l <> -999999 ->
                     file_start_timestamp l = file_start_timestamp l)
                 /\ (first_keyframe_timestamp l <> -1 ->
                     first_keyframe_timestamp l = first_keyframe_timestamp l))
    by (repeat split; reflexivity).
  unfold route.
  eapply holds_bind; [apply holds_gets|]. intros p _.
  destruct (type p =? 18).
  { eapply holds_bind; [apply holds_gets|]. intros ex _.
    destruct (negb ex && negb no_meta); [|apply holds_ret; exact Same].
    eapply holds_bind; [apply holds_gets|]. intros m _.
    eapply holds_bind; [apply holds_any|]. intros r _.
    eapply holds_bind; [apply holds_any|]. intros _ _.
    apply holds_ret. exact Same. }
  eapply holds_bind; [apply holds_gets|]. intros seq _.
  eapply holds_bind; [apply holds_any|]. intros is_seq _.
  destruct is_seq.
  { eapply holds_bind; [apply holds_any|]. intros _ _. apply holds_ret. exact Same. }
  destruct ((timestamp p <? mark_in) || (mark_out <=? timestamp p)
            || (negb (type p =? 8) && negb (type p =? 9))).
  { apply holds_ret. exact Same. }
  eapply holds_bind; [apply holds_any|]. intros key_frame _.
  set (l1 := if (first_keyframe_timestamp l =? -1) && key_frame then _ else l).
  assert (L1 : infile l1 = infile l
               /\ lastfile_video_timestamp l1 = lastfile_video_timestamp l
               /\ file_start_timestamp l1 = file_start_timestamp l
               /\ (first_keyframe_timestamp l <> -1 ->
                   first_keyframe_timestamp l1 = first_keyframe_timestamp l)).
  { subst l1. destruct (Z.eqb_spec (first_keyframe_timestamp l) (-1)) as [E|E];
      cbn [andb]; [destruct key_frame|]; cbn; repeat split; congruence. }
  destruct L1 as (I1 & V1 & F1 & K1).
  destruct (Z.eqb_spec (file_start_timestamp l1) (-999999)) as [E|E].
  - destruct (type p =? 9).
    + destruct key_frame.
      * eapply holds_bind; [apply holds_gets|]. intros first _.
        eapply holds_bind; [apply holds_any|]. intros _ _.
        eapply holds_bind; [apply holds_any|]. intros _ _.
        apply holds_ret. cbn [infile lastfile_video_timestamp file_start_timestamp
                              first_keyframe_timestamp].
        repeat split; try assumption. intros N. congruence.
      * apply holds_ret. repeat split; try assumption. intros _. exact F1.
    + eapply holds_bind; [apply holds_any|]. intros _ _.
      apply holds_ret. repeat split; try assumption. intros _. exact F1.
  - eapply holds_bind; [apply holds_any|]. intros p' _.
    eapply holds_bind; [apply holds_any|]. intros _ _.
    apply holds_ret. repeat split; try assumption. intros _. exact F1.
Qed.

Lemma read_tag_locals (be : bool) (l : locals) :
  holds (fun _ => True) (fun _ _ => True)
        (fun r => match r with
                  | Some l' =>
                      lastfile_video_timestamp l' = lastfile_video_timestamp l
                      /\ file_start_timestamp l' = file_start_timestamp l
                      /\ first_keyframe_timestamp l' = first_keyframe_timestamp l
                  | None => True
                  end)
        (read_tag be l).
Proof.
  intros s _. unfold read_tag.
  destruct (fread 11 (infile l)) as [hd f1].
  destruct (length hd =? 0)%nat; [cbn; auto|].
  destruct (fread _ f1) as [payload f2]. destruct (fread 4 f2) as [bp f3].
  cbn. auto.
Qed.

Lemma append_loop_locals (be no_meta : bool) (frame_interval mark_in mark_out : Z)
    (fuel : nat) :
  forall l,
    holds (fun _ => True) (fun _ _ => True)
          (fun l' =>
             lastfile_video_timestamp l' = lastfile_video_timestamp l
             /\ (file_start_timestamp l <> -999999 ->
                 file_start_timestamp l' = file_start_timestamp l)
             /\ (first_keyframe_timestamp l <> -1 ->
                 first_keyframe_timestamp l' = first_keyframe_timestamp l))
          (append_loop be no_meta frame_interval fuel mark_in mark_out l).
Proof.
  induction fuel as [|fuel IH]; intros l; cbn [append_loop];
    (destruct (feof (infile l)); [apply holds_ret; repeat split; reflexivity|]).
  - intros s _. exact I.
  - eapply holds_bind; [apply read_tag_locals|]. intros [l1|] R1.
    + destruct R1 as (V1 & F1 & K1).
      eapply holds_bind; [apply route_locals|]. intros l2 (_ & V2 & F2 & K2).
      eapply holds_weaken; [apply IH|]. cbv beta. intros l3 (V3 & F3 & K3).
      split; [congruence|]. split.
      * intros N.
        assert (N1 : file_start_timestamp l1 <> -999999) by congruence.
        specialize (F2 N1).
        assert (N2 : file_start_timestamp l2 <> -999999) by congruence.
        specialize (F3 N2). congruence.
      * intros N.
        assert (N1 : first_keyframe_timestamp l1 <> -1) by congruence.
        specialize (K2 N1).
        assert (N2 : first_keyframe_timestamp l2 <> -1) by congruence.
        specialize (K3 N2). congruence.
    + apply holds_ret. repeat split; reflexivity.
Qed.

(** X20.  Through the loop over the tags of a file, the timestamp kept of
    the previous file never changes, and once the offset of the file is
    known (not -999999) and once the first key frame timestamp is set (not
    -1) they stay what they are to the end of the file. *)
Theorem offset_is_fixed_once_known (be no_meta : bool)
    (frame_interval mark_in mark_out : Z) (fuel : nat) (l l' : locals)
    (s s' : state) :
  append_loop be no_meta frame_interval fuel mark_in mark_out l s = Ok l' s' ->
  lastfile_video_timestamp l' = lastfile_video_timestamp l
  /\ (file_start_timestamp l <> -999999 ->
      file_start_timestamp l' = file_start_timestamp l)
  /\ (first_keyframe_timestamp l <> -1 ->
      first_keyframe_timestamp l' = first_keyframe_timestamp l).
Proof.
  intros E.
  pose proof (append_loop_locals be no_meta frame_interval mark_in mark_out fuel l s I)
    as H.
  rewrite E in H. destruct H as [_ H]. exact H.
Qed.

Lemma offset_is_fixed_once_known_witness :
  exists l' s',
    append_loop false true 100 20 0 99999000
                (mkLocals 60 0 0 (fopen_rb (Examples.tag 9 40 Examples.key)))
                Examples.idle_state = Ok l' s'
    /\ lastfile_video_timestamp l' = 0
    /\ (60 <> -999999 -> file_start_timestamp l' = 60)
    /\ (0 <> -1 -> first_keyframe_timestamp l' = 0).
Proof.
  destruct (append_loop false true 100 20 0 99999000
              (mkLocals 60 0 0 (fopen_rb (Examples.tag 9 40 Examples.key)))
              Examples.idle_state) as [l' s'| | |] eqn:E;
    try (vm_compute in E; discriminate E).
  exists l', s'. split; [reflexivity|].
  exact (offset_is_fixed_once_known false true 100 0 99999000 20
           (mkLocals 60 0 0 (fopen_rb (Examples.tag 9 40 Examples.key))) l'
           Examples.idle_state s' E).
Defined.

End Steps.

(** ** flvjoin.c: input files and the layout of the output *)

Section Files.
Import DataConv Stdio FlvJoinH Metadata Machine FlvJoin Spec Behaviour.
Open Scope flv_scope.

Lemma fread_all (n : Z) (f : FILE) :
  0 <= n <= Z.of_nat (remaining f) ->
  fread n f = (firstn (Z.to_nat n) (skipn (fpos f) (contents f)),
               mkFILE (contents f) (fpos f + Z.to_nat n) (eof f) (limit f)).
Proof.
  intros R. unfold fread, remaining in *.
  assert (L : length (skipn (fpos f) (contents f)) = (length (contents f) - fpos f)%nat)
    by apply length_skipn.
  rewrite L.
  replace (Z.min n (Z.of_nat (length (contents f) - fpos f))) with n by lia.
  rewrite length_firstn, L.
  replace (Nat.min (Z.to_nat n) (length (contents f) - fpos f)) with (Z.to_nat n) by lia.
  replace (Z.of_nat (Z.to_nat n) <? n) with false by (symmetry; apply Z.ltb_ge; lia).
  rewrite orb_false_r. reflexivity.
Qed.

Lemma conv_ui32_bytes (be : bool) (a b : list Z) :
  bytes_at a 4 = bytes_at b 4 -> conv_ui32 be a = conv_ui32 be b.
Proof. intros E. unfold conv_ui32. rewrite E. reflexivity. Qed.

(** The three ways [append_file] deals with the start of an input. *)
Lemma open_input_cases (be : bool) (bytes : list Z) (s : state) :
  ((length bytes < 9)%nat ->
   exists b, open_input be bytes s = Ok None (set_buff b s))
  /\ ((9 <= length bytes)%nat -> firstn 3 bytes <> cstr "FLV" ->
      exists b, open_input be bytes s = Ok (Some (fopen_rb bytes)) (set_buff b s))
  /\ (firstn 3 bytes = cstr "FLV" ->
      9 <= conv_ui32 be (skipn 5 bytes) ->
      conv_ui32 be (skipn 5 bytes) + 4 <= Z.of_nat (length bytes) < 2 ^ 64 ->
      exists b,
        open_input be bytes s =
        Ok (Some (mkFILE bytes (Z.to_nat (conv_ui32 be (skipn 5 bytes) + 4)) false None))
           (set_buff b s)).
Proof.
  assert (E9 : (9 <= length bytes)%nat ->
               fread 9 (fopen_rb bytes) = (firstn 9 bytes, mkFILE bytes 9 false None)).
  { intros L. rewrite fread_all by (unfold remaining; cbn; lia). reflexivity. }
  assert (F3 : forall b0, (9 <= length bytes)%nat ->
               firstn 3 (blit (firstn 9 bytes) b0) = firstn 3 bytes).
  { intros b0 L. unfold blit. rewrite firstn_app, firstn_firstn, length_firstn.
    replace (3 - Nat.min 9 (length bytes))%nat with 0%nat by lia.
    rewrite firstn_O, app_nil_r. reflexivity. }
  assert (L9 : (9 <= length bytes)%nat -> length (firstn 9 bytes) = 9%nat)
    by (intros L; rewrite length_firstn; lia).
  split; [|split].
  - intros L. unfold open_input, fread. cbv beta iota zeta.
    cbn [fopen_rb contents fpos eof limit skipn].
    replace (Z.to_nat (Z.min 9 (Z.of_nat (length bytes)))) with (length bytes) by lia.
    rewrite firstn_all.
    destruct (Nat.eqb_spec (length bytes) 9) as [E|_]; [lia|].
    cbn [negb]. eexists. reflexivity.
  - intros L N. unfold open_input. rewrite (E9 L). cbv beta iota zeta.
    rewrite (L9 L), (F3 _ L). cbn [Nat.eqb negb].
    destruct (list_eq_dec Z.eq_dec (firstn 3 bytes) (cstr "FLV")); [contradiction|].
    eexists. reflexivity.
  - intros Sg H9 [Hl Hm].
    assert (L : (9 <= length bytes)%nat) by lia.
    set (h := conv_ui32 be (skipn 5 bytes)) in *.
    unfold open_input. rewrite (E9 L). cbv beta iota zeta.
    rewrite (L9 L), (F3 _ L). cbn [Nat.eqb negb].
    set (b := blit (firstn 9 bytes) _).
    destruct (list_eq_dec Z.eq_dec (firstn 3 bytes) (cstr "FLV")); [|contradiction].
    assert (Hh : conv_ui32 be (skipn 5 b) = h).
    { apply conv_ui32_bytes. unfold bytes_at. cbn [seq map].
      rewrite !nth_skipn. unfold b, blit.
      rewrite !app_nth1 by (rewrite (L9 L); lia).
      rewrite !nth_firstn. cbn. reflexivity. }
    rewrite Hh.
    replace ((h - 9) mod 2 ^ 64) with (h - 9) by (rewrite Z.mod_small; lia).
    replace ((h - 9 + 4) mod 2 ^ 64) with (h - 5) by (rewrite Z.mod_small; lia).
    rewrite fread_all by (unfold remaining; cbn [contents fpos]; lia).
    cbn [contents fpos eof limit].
    match goal with
    | |- context [if (?x <? ?y)%nat then _ else _] =>
        destruct (Nat.ltb_spec x y) as [Lt|_]
    end.
    { exfalso. rewrite length_firstn, length_skipn in Lt.
      destruct (Z.of_nat (length b) <? h + 4) eqn:C.
      - rewrite length_app, repeat_length in Lt. apply Z.ltb_lt in C. lia.
      - apply Z.ltb_ge in C. lia. }
    replace (9 + Z.to_nat (h - 5))%nat with (Z.to_nat (h + 4)) by lia.
    eexists. reflexivity.
Qed.

(** X21.  An input of at least nine bytes is read from its first tag: when
    it starts with the signature FLV, reading continues after the header of
    the length the header states and the four bytes that follow it; without
    the signature the stream is rewound and read from its first byte.
    Nothing but the scratch buffer changes. *)
Theorem input_is_read_from_its_first_tag (be : bool) (bytes : list Z) (s : state) :
  (9 <= length bytes)%nat ->
  Z.of_nat (length bytes) < 2 ^ 64 ->
  (firstn 3 bytes = cstr "FLV" ->
   9 <= conv_ui32 be (skipn 5 bytes)
   /\ conv_ui32 be (skipn 5 bytes) + 4 <= Z.of_nat (length bytes)) ->
  exists b,
    open_input be bytes s =
    Ok (Some (mkFILE bytes
                (if list_eq_dec Z.eq_dec (firstn 3 bytes) (cstr "FLV")
                 then Z.to_nat (conv_ui32 be (skipn 5 bytes) + 4) else 0)
                false None))
       (set_buff b s).
Proof.
  intros L Hm Hd.
  destruct (open_input_cases be bytes s) as (_ & Raw & Flv).
  destruct (list_eq_dec Z.eq_dec (firstn 3 bytes) (cstr "FLV")) as [Sg|N].
  - destruct (Hd Sg) as [H9 Hl]. apply (Flv Sg H9). split; assumption.
  - apply (Raw L N).
Qed.

Lemma input_is_read_from_its_first_tag_witness :
  exists b,
    open_input false Examples.audio_leads (state0 (fopen_wb None)) =
    Ok (Some (mkFILE Examples.audio_leads 13 false None))
       (set_buff b (state0 (fopen_wb None))).
Proof.
  apply (input_is_read_from_its_first_tag false Examples.audio_leads
           (state0 (fopen_wb None))).
  - vm_compute. lia.
  - vm_compute. reflexivity.
  - intros _. vm_compute. split; discriminate.
Defined.

Lemma set_buff_same (s : state) : set_buff (buff s) s = s.
Proof. destruct s; reflexivity. Qed.

(** X22.  An input without tags adds nothing: for a file that cannot be
    opened, a file of fewer than nine bytes and a file that ends with its
    header and first back-pointer, [append_file] returns with the state as
    it was, the scratch buffer apart. *)
Theorem inputs_without_tags_add_nothing (be no_meta : bool) (frame_interval : Z)
    (input : option (list Z)) (mark_in mark_out : Z) (s : state) :
  match input with
  | None => True
  | Some bytes =>
      (length bytes < 9)%nat
      \/ (firstn 3 bytes = cstr "FLV"
          /\ 9 <= conv_ui32 be (skipn 5 bytes)
          /\ Z.of_nat (length bytes) = conv_ui32 be (skipn 5 bytes) + 4
          /\ Z.of_nat (length bytes) < 2 ^ 64)
  end ->
  exists b,
    append_file be no_meta frame_interval input mark_in mark_out s =
    Ok tt (set_buff b s).
Proof.
  intros H. unfold append_file. rewrite bind_gets.
  destruct input as [bytes|].
  2:{ exists (buff s). rewrite set_buff_same. reflexivity. }
  destruct (open_input_cases be bytes s) as (Short & _ & Flv).
  destruct H as [L|(Sg & H9 & Hl & Hm)].
  - destruct (Short L) as [b E]. exists b.
    rewrite (bind_ok _ _ _ _ _ E). reflexivity.
  - destruct (Flv Sg H9 ltac:(lia)) as [b E].
    rewrite (bind_ok _ _ _ _ _ E).
    eexists.
    cbn [append_loop feof eof infile].
    unfold bind at 1. unfold bind at 1. unfold read_tag, fread.
    cbn [infile contents fpos eof limit].
    rewrite skipn_all2 by lia.
    cbn. reflexivity.
Qed.

Lemma inputs_without_tags_add_nothing_witness :
  exists b,
    append_file false false 40 (Some flv_header) 0 99999000 (state0 (fopen_wb None)) =
    Ok tt (set_buff b (state0 (fopen_wb None))).
Proof.
  apply (inputs_without_tags_add_nothing false false 40 (Some flv_header) 0 99999000
           (state0 (fopen_wb None))).
  right. vm_compute. repeat split; discriminate.
Defined.

(** X23.  The layout of the output when the inputs have been appended.
    Without -n it is the 13-byte header and then, tag by tag, the packets
    written, of which the first is the placeholder metadata packet.  With -n
    it is what the device took of the header (the write of the header is not
    checked) and then the packets written. *)
Theorem output_is_the_header_then_the_tags (be : bool) (frame_interval : Z)
    (lim : option nat) (lines : list input_line) :
  post (fun _ s =>
          contents (outfile s) = flv_header ++ concat (map (tag_bytes be) (written s))
          /\ exists rest, written s = copy_packet (fst (placeholder be)) :: rest)
       (fun _ => True)
       (join be false frame_interval lim lines)
  /\ post (fun _ s =>
             contents (outfile s) =
             firstn (match lim with Some n => n | None => 13%nat end) flv_header
             ++ concat (map (tag_bytes be) (written s)))
          (fun _ => True)
          (join be true frame_interval lim lines).
Proof.
  split.
  - pose proof (join_spec be false frame_interval lim lines) as J.
    pose proof (join_run be false frame_interval lim lines) as R.
    destruct (join be false frame_interval lim lines) as [a s|c s| |];
      cbv beta iota delta [post safe] in J, R |- *; auto.
    destruct J as (H0 & P0 & O0 & [(_ & _ & _ & X & _) _] & E).
    destruct (E eq_refl) as (-> & _).
    destruct R as (_ & _ & (new & W & _) & _).
    split; [exact X|]. exists new. exact W.
  - unfold join. unfold bind at 1. unfold write_flv_header, modify.
    unfold bind at 1. unfold ret at 1.
    pose proof (state0_Inv be lim) as I0.
    pose proof (append_lines_keeps be true frame_interval _ _ _ lines _ I0) as K.
    change (outfile (state0 (fopen_wb lim))) with (fopen_wb lim).
    destruct (append_lines be true frame_interval lines _) as [a s|c s| |];
      cbv beta iota delta [post] in K |- *; auto.
    destruct K as [[(_ & _ & _ & X & _) _] _]. rewrite X. f_equal.
    unfold fwrite, room, fopen_wb. cbn [snd contents fpos limit length flv_header].
    destruct lim as [n|]; cbn [app firstn repeat Nat.sub]; rewrite ?Nat.sub_0_r.
    + rewrite skipn_nil, app_nil_r.
      change (length flv_header) with 13%nat.
      destruct (Nat.min_spec 13 n) as [[L ->]|[L ->]]; [|reflexivity].
      rewrite (firstn_all2 (n := n) flv_header)
        by (change (length flv_header) with 13%nat; lia).
      reflexivity.
    + reflexivity.
Qed.

(** X24.  A run without input files.  With -n the output is the 13-byte
    header.  Otherwise it is the header and the metadata packet, patched in
    place: the duration recorded is one frame interval, in seconds, and the
    file size is the 281 bytes of the output. *)
Theorem run_without_input (be : bool) (frame_interval audio_bitrate : Z) :
  (exists s,
     main be true frame_interval audio_bitrate None [] = Ok tt s
     /\ written s = []
     /\ contents (outfile s) = flv_header)
  /\ (exists s,
        main be false frame_interval audio_bitrate None [] = Ok tt s
        /\ written s = [copy_packet (fst (placeholder be))]
        /\ duration (meta s) =
           Double.div (Double.of_Z (frame_interval mod 2 ^ 32)) (Double.of_Z 1000)
        /\ filesize (meta s) = Double.of_Z 281
        /\ contents (outfile s) = patch_all (value_fields be (meta s)) (meta_prefix be)
        /\ length (contents (outfile s)) = 281%nat).
Proof.
  split.
  - eexists. split; [destruct be; vm_compute; reflexivity|].
    split; reflexivity.
  - unfold main.
    remember (join be false frame_interval None []) as j eqn:J.
    destruct be; vm_compute in J; subst j; cbv beta iota;
      unfold finalize, final_duration;
      cbn [last_audio_timestamp last_video_timestamp meta outfile metadata_extracted];
      change (-1 <=? 0) with true; cbv beta iota;
      change (0 + frame_interval) with frame_interval;
      match goal with
      | |- context [write_metadata ?b ?m ?f ?t] =>
          destruct (write_metadata_fields b m f t) as (E & C & _);
          [exact I
          |cbn; repeat split; lia
          |destruct (write_metadata b m f t) as [m' f'];
           cbn [fst snd] in E, C; subst m'; eexists; split; [reflexivity|];
           cbn [written meta outfile set_outfile set_meta];
           split; [vm_compute; reflexivity|];
           split; [reflexivity|];
           split; [reflexivity|];
           split; [rewrite C; reflexivity|];
           rewrite C, (patch_all_length _ 0); [reflexivity|cbn; repeat split; lia]]
      end.
Qed.

End Files.
